(** * OsmoseCracker: cluster-aware report correlation and emission

    A shallow embedding of the reporting core of OsmoseCracker:

    - [osmosecracker_database_management.py]: the [osmoseissue] table, the
      row deserialiser, [update_signalement] and the three selections used
      by the reporting workflow;
    - [osmosecracker_espacecollaboratifign.py]: [post_signalement] and
      [get_status_signalement];
    - [osmosecracker_query_bduni.py]: [clustering];
    - [osmosecracker.py]: the report emission loop and the status refresh
      loop of [main].

    Python objects are mutable and shared, the database and the two remote
    services are effects.  The database and the log of remote calls live in
    a [World] threaded through a small state-and-exception monad; the
    remote services are oracles (section variables) giving the HTTP outcome
    of the n-th call. *)

From Stdlib Require Import ZArith List String Ascii Bool Lia.
From Stdlib Require Import Floats.SpecFloat DecimalString.
Import ListNotations.

Local Open Scope string_scope.
Local Open Scope Z_scope.

(** ** Python values *)

(** The scalar values that travel through the reporting code: [None],
    integers and strings.  They are what the members of the Espace
    Collaboratif JSON answers hold (an id, a status word). *)
Inductive pyval : Type :=
| PyNone
| PyInt (z : Z)
| PyStr (s : string).

(** [str(z)] for an integer. *)
Definition str_int (z : Z) : string := NilZero.string_of_int (Z.to_int z).

(** [str(v)], which is also what ["{0}".format(v)] inserts. *)
Definition py_str (v : pyval) : string :=
  match v with
  | PyNone => "None"
  | PyInt z => str_int z
  | PyStr s => s
  end.

(** [v is not None]. *)
Definition is_not_none (v : pyval) : bool :=
  match v with PyNone => false | _ => true end.

(** [datetime.datetime] values, as a count of microseconds.  The table
    keeps them as [isoformat()] text and [fromisoformat] reads them back;
    the model keeps the value itself. *)
Definition datetime : Type := Z.

(** What [req.json()] gives: a dictionary of scalar members (one binding
    per key), or some other JSON value, on which a subscript by name raises
    [TypeError]. *)
Inductive json_document : Type :=
| JsonObject (members : list (string * pyval))
| JsonOther.

(** Exceptions that the modelled code raises or lets through.
    [EspaceCoException] is built from [str(req.json())]; the model keeps
    the document. *)
Inductive exn : Type :=
| EspaceCoException (details : json_document)
| AttributeError
| KeyError
| TypeError
| ValueError
| OperationalError
| ConnectionError
| JSONDecodeError
| Exception.

Inductive outcome (A : Type) : Type :=
| Returned (a : A)
| Raised (e : exn).
Arguments Returned {A} a.
Arguments Raised {A} e.

(** ** The in-memory issue: [osmosecracker_issue.OsmoseCrackerIssue] *)

(** The sketch dictionary built by [clustering]. *)
Record SketchObject : Type := {
  so_type : string;
  so_geometry : string;
  so_attributes : list (string * string)
}.

Record SketchContexte : Type := {
  ctx_lat : string;
  ctx_lon : string;
  ctx_zoom : string
}.

Record Sketch : Type := {
  sk_desc : string;
  sk_name : string;
  sk_objects : list SketchObject;
  sk_contexte : SketchContexte
}.

(** The attributes of an issue that the reporting workflow reads or
    writes.  The other attributes of the class (names, OSM ids, commune
    codes, ...) only feed the text of [markdown_report]. *)
Record OsmoseCrackerIssue : Type := {
  core_id : string;
  core_lat : spec_float;
  core_lon : spec_float;
  core_item_id : Z;
  core_class_id : Z;
  details_descriptionstr : string;
  espaceco_theme : string;
  bduni_objet_attribut_1 : option string;
  bduni_zicad : option string;
  cluster_id : option string;
  sketchcontent : option Sketch;
  espaceco_signalement_id : option Z;
  espaceco_signalement_status : option string;
  espaceco_signalement_status_refresh_timestamp : option datetime
}.

(** ** The local SQLite table [osmoseissue] *)

(** The columns of [osmoseissue] that the reporting workflow touches.
    [None] is SQL NULL.  [bduni_objet_zicad] is a BOOLEAN column: SQLite
    stores the literals TRUE and FALSE as the integers 1 and 0. *)
Record Row : Type := {
  col_core_id : string;
  col_core_lat : spec_float;
  col_core_lon : spec_float;
  col_core_item_id : Z;
  col_core_class_id : Z;
  col_details_descriptionstr : option string;
  col_espaceco_theme : option string;
  col_bduni_objet_attribut_1 : option string;
  col_espaceco_signalement_id : option Z;
  col_espaceco_signalement_status : option string;
  col_espaceco_signalement_status_refresh_timestamp : option datetime;
  col_bduni_objet_zicad : option Z
}.

(** The database file: whether [is_valid()] holds of it, and the rows of
    [osmoseissue] in table order. *)
Record Database : Type := {
  db_valid : bool;
  osmoseissue : list Row
}.

(** [str(v)] of a text column, NULL read as [None]. *)
Definition str_column (v : option string) : string :=
  match v with
  | Some s => s
  | None => "None"
  end.

(** [str(v) if v else None] for a text column: NULL and the empty text
    are both falsy. *)
Definition str_if_truthy (v : option string) : option string :=
  match v with
  | Some s => if String.eqb s "" then None else Some s
  | None => None
  end.

(** [int(v) if v else None] for an integer column: NULL and 0 are both
    falsy. *)
Definition int_if_truthy (v : option Z) : option Z :=
  match v with
  | Some z => if Z.eqb z 0 then None else Some z
  | None => None
  end.

(** [_osmosecrackerDatabase._issue_row_to_issue_instance]. *)
Definition _issue_row_to_issue_instance (issueRow : Row) : OsmoseCrackerIssue :=
  {| core_id := col_core_id issueRow;
     core_lat := col_core_lat issueRow;
     core_lon := col_core_lon issueRow;
     core_item_id := col_core_item_id issueRow;
     core_class_id := col_core_class_id issueRow;
     details_descriptionstr := str_column (col_details_descriptionstr issueRow);
     espaceco_theme := str_column (col_espaceco_theme issueRow);
     bduni_objet_attribut_1 := str_if_truthy (col_bduni_objet_attribut_1 issueRow);
     bduni_zicad := option_map str_int (int_if_truthy (col_bduni_objet_zicad issueRow));
     cluster_id := None;
     sketchcontent := None;
     espaceco_signalement_id := int_if_truthy (col_espaceco_signalement_id issueRow);
     espaceco_signalement_status := str_if_truthy (col_espaceco_signalement_status issueRow);
     espaceco_signalement_status_refresh_timestamp :=
       col_espaceco_signalement_status_refresh_timestamp issueRow |}.

(** [osmosecracker_config.OC_UNCLOSED_STATUSES]. *)
Definition OC_UNCLOSED_STATUSES : list string :=
  ["valid"; "valid0"; "reject"; "reject0"].

(** SQL [x IN (v1, ..., vn)] on text, for a non-NULL [x]. *)
Definition sql_in (x : string) (vs : list string) : bool :=
  existsb (String.eqb x) vs.

(** The WHERE clause of [get_issues_by_espacecosignalements_unclosed]:
    [espaceco_signalement_status NOT IN ("valid", "valid0", "reject",
    "reject0")], where SQLite reads the double-quoted words as text since
    no column bears these names.  On a NULL status the test is NULL and
    the row is left out. *)
Definition where_unclosed (r : Row) : bool :=
  match col_espaceco_signalement_status r with
  | None => false
  | Some s => negb (sql_in s OC_UNCLOSED_STATUSES)
  end.

(** SQL [x IS NULL]. *)
Definition sql_is_null {A : Type} (x : option A) : bool :=
  match x with None => true | Some _ => false end.

(** SQL [NOT x] on a BOOLEAN column: true on 0, false on any other number,
    NULL (row left out) on NULL. *)
Definition sql_not_true (x : option Z) : bool :=
  match x with
  | None => false
  | Some z => Z.eqb z 0
  end.

(** The WHERE clause of
    [get_issues_by_espacecosignalements_none_and_zicad_false]:
    [espaceco_signalement_id is null AND NOT bduni_objet_zicad]. *)
Definition where_none_and_zicad_false (r : Row) : bool :=
  sql_is_null (col_espaceco_signalement_id r) && sql_not_true (col_bduni_objet_zicad r).

(** A database access: the answer (or the exception) and the database
    afterwards. *)
Definition DB (A : Type) : Type := Database -> outcome A * Database.

(** The shape shared by the [get_issues_...] methods: check [is_valid()],
    run the SELECT, deserialise every row; raise [ValueError] on an
    invalid database. *)
Definition select_issues (where_clause : Row -> bool) : DB (list OsmoseCrackerIssue) :=
  fun db =>
    if db_valid db
    then (Returned (map _issue_row_to_issue_instance
                        (filter where_clause (osmoseissue db))), db)
    else (Raised ValueError, db).

Definition get_issues_by_espacecosignalements_unclosed : DB (list OsmoseCrackerIssue) :=
  select_issues where_unclosed.

Definition get_issues_by_espacecosignalements_none_and_zicad_false
  : DB (list OsmoseCrackerIssue) :=
  select_issues where_none_and_zicad_false.

(** ** SQL text built with [str.format] *)

Definition has_apostrophe (s : string) : bool :=
  existsb (Ascii.eqb "'"%char) (list_ascii_of_string s).

(** A value spliced between apostrophes, ['{x}'], is the text literal
    [x] as long as [x] holds no apostrophe.  With one inside, the literal
    ends early and the statement is no longer the intended one; the model
    does not follow SQLite there and answers [None], which the callers
    turn into [OperationalError]. *)
Definition sql_text (s : string) : option string :=
  if has_apostrophe s then None else Some s.

(** Replace the three report columns of a row. *)
Definition set_signalement (id : Z) (status : string) (ts : datetime) (r : Row) : Row :=
  {| col_core_id := col_core_id r;
     col_core_lat := col_core_lat r;
     col_core_lon := col_core_lon r;
     col_core_item_id := col_core_item_id r;
     col_core_class_id := col_core_class_id r;
     col_details_descriptionstr := col_details_descriptionstr r;
     col_espaceco_theme := col_espaceco_theme r;
     col_bduni_objet_attribut_1 := col_bduni_objet_attribut_1 r;
     col_espaceco_signalement_id := Some id;
     col_espaceco_signalement_status := Some status;
     col_espaceco_signalement_status_refresh_timestamp := Some ts;
     col_bduni_objet_zicad := col_bduni_objet_zicad r |}.

(** [UPDATE osmoseissue SET ... WHERE core_id = key]. *)
Definition sql_update_signalement (key : string) (id : Z) (status : string)
    (ts : datetime) (rows : list Row) : list Row :=
  map (fun r => if String.eqb (col_core_id r) key
                then set_signalement id status ts r else r) rows.

(** [_osmosecrackerDatabase.update_signalement].

    - an invalid database raises [ValueError];
    - [isoformat()] on a [None] timestamp raises [AttributeError];
    - the id is spliced bare: [None] makes the statement read
      [espaceco_signalement_id = None], which SQLite refuses;
    - the status is spliced between apostrophes, so a [None] status is
      stored as the text ['None'];
    - when no row has the key, [RETURNING rowid] yields no row and
      [(result, ) = None] raises [TypeError].

    An exception leaves the [with] block before [commit()]: the table is
    unchanged.  Callers drop the returned rowid. *)
Definition update_signalement (osmosecrackerIssue : OsmoseCrackerIssue) : DB unit :=
  fun db =>
    if negb (db_valid db) then (Raised ValueError, db) else
    match espaceco_signalement_status_refresh_timestamp osmosecrackerIssue with
    | None => (Raised AttributeError, db)
    | Some ts =>
        match espaceco_signalement_id osmosecrackerIssue,
              sql_text (str_column (espaceco_signalement_status osmosecrackerIssue)),
              sql_text (core_id osmosecrackerIssue) with
        | Some id, Some status, Some key =>
            if existsb (fun r => String.eqb (col_core_id r) key) (osmoseissue db)
            then (Returned tt,
                  {| db_valid := db_valid db;
                     osmoseissue := sql_update_signalement key id status ts (osmoseissue db) |})
            else (Raised TypeError, db)
        | _, _, _ => (Raised OperationalError, db)
        end
    end.

(** [_osmosecrackerDatabase.is_valid]. *)
Definition is_valid : DB bool := fun db => (Returned (db_valid db), db).

(** ** The Espace Collaboratif service *)

(** [--type_signalement]. *)
Inductive type_signalement_choice : Type := skip | test | submit | repost.

Definition type_signalement_str (t : type_signalement_choice) : string :=
  match t with
  | skip => "skip"
  | test => "test"
  | submit => "submit"
  | repost => "repost"
  end.

(** The body of the POST request, [req_dict]: the point, the comment, the
    status, the theme and the optional sketch. *)
Record PostRequest : Type := {
  req_lon : spec_float;
  req_lat : spec_float;
  req_comment : string;
  req_status : string;
  req_theme : string;
  req_sketch : option Sketch
}.

(** An HTTP answer; [json = None] when the body is not JSON at all and
    [req.json()] raises. *)
Record Response : Type := {
  status_code : Z;
  json : option json_document
}.

Inductive http_outcome : Type :=
| Unreachable
| Answered (r : Response).

(** [d[key]] on a dictionary. *)
Fixpoint dict_get (key : string) (members : list (string * pyval)) : option pyval :=
  match members with
  | [] => None
  | (k, v) :: rest => if String.eqb k key then Some v else dict_get key rest
  end.

(** [req.json()[key]]. *)
Definition json_field (key : string) (r : Response) : outcome pyval :=
  match json r with
  | None => Raised JSONDecodeError
  | Some JsonOther => Raised TypeError
  | Some (JsonObject members) =>
      match dict_get key members with
      | Some v => Returned v
      | None => Raised KeyError
      end
  end.

(** ** The world and its monad *)

(** The local database, the POST requests sent so far and the report ids
    whose status was asked so far (both newest first). *)
Record World : Type := {
  database : Database;
  posted : list PostRequest;
  looked_up : list (option Z)
}.

Definition M (A : Type) : Type := World -> outcome A * World.

Definition ret {A : Type} (a : A) : M A := fun w => (Returned a, w).

Definition raise {A : Type} (e : exn) : M A := fun w => (Raised e, w).

Definition bind {A B : Type} (c : M A) (k : A -> M B) : M B :=
  fun w =>
    match c w with
    | (Returned a, w') => k a w'
    | (Raised e, w') => (Raised e, w')
    end.

Notation "x <- c ;; k" := (bind c (fun x => k))
  (at level 61, c at next level, right associativity).
Notation "c ;;; k" := (bind c (fun _ => k))
  (at level 61, right associativity).

(** A pure computation that may raise. *)
Definition lift {A : Type} (o : outcome A) : M A := fun w => (o, w).

(** A database access, run on the database of the world. *)
Definition on_database {A : Type} (c : DB A) : M A :=
  fun w =>
    let (o, db) := c (database w) in
    (o, {| database := db; posted := posted w; looked_up := looked_up w |}).

(** [for x in xs: body(x, vars)] with the loop variables threaded. *)
Fixpoint for_each {A V : Type} (body : A -> V -> M V) (xs : list A) (vars : V) : M V :=
  match xs with
  | [] => ret vars
  | x :: rest => vars' <- body x vars ;; for_each body rest vars'
  end.

(** ** Attribute assignments on an issue object *)

Definition set_details_descriptionstr (text : string) (i : OsmoseCrackerIssue)
  : OsmoseCrackerIssue :=
  {| core_id := core_id i;
     core_lat := core_lat i;
     core_lon := core_lon i;
     core_item_id := core_item_id i;
     core_class_id := core_class_id i;
     details_descriptionstr := text;
     espaceco_theme := espaceco_theme i;
     bduni_objet_attribut_1 := bduni_objet_attribut_1 i;
     bduni_zicad := bduni_zicad i;
     cluster_id := cluster_id i;
     sketchcontent := sketchcontent i;
     espaceco_signalement_id := espaceco_signalement_id i;
     espaceco_signalement_status := espaceco_signalement_status i;
     espaceco_signalement_status_refresh_timestamp :=
       espaceco_signalement_status_refresh_timestamp i |}.

Definition set_cluster (c : option string) (sk : option Sketch) (i : OsmoseCrackerIssue)
  : OsmoseCrackerIssue :=
  {| core_id := core_id i;
     core_lat := core_lat i;
     core_lon := core_lon i;
     core_item_id := core_item_id i;
     core_class_id := core_class_id i;
     details_descriptionstr := details_descriptionstr i;
     espaceco_theme := espaceco_theme i;
     bduni_objet_attribut_1 := bduni_objet_attribut_1 i;
     bduni_zicad := bduni_zicad i;
     cluster_id := c;
     sketchcontent := sk;
     espaceco_signalement_id := espaceco_signalement_id i;
     espaceco_signalement_status := espaceco_signalement_status i;
     espaceco_signalement_status_refresh_timestamp :=
       espaceco_signalement_status_refresh_timestamp i |}.

Definition set_espaceco (id : option Z) (status : option string) (ts : option datetime)
    (i : OsmoseCrackerIssue) : OsmoseCrackerIssue :=
  {| core_id := core_id i;
     core_lat := core_lat i;
     core_lon := core_lon i;
     core_item_id := core_item_id i;
     core_class_id := core_class_id i;
     details_descriptionstr := details_descriptionstr i;
     espaceco_theme := espaceco_theme i;
     bduni_objet_attribut_1 := bduni_objet_attribut_1 i;
     bduni_zicad := bduni_zicad i;
     cluster_id := cluster_id i;
     sketchcontent := sketchcontent i;
     espaceco_signalement_id := id;
     espaceco_signalement_status := status;
     espaceco_signalement_status_refresh_timestamp := ts |}.

(** ** Calls to the Espace Collaboratif *)

(** The handler of [post_signalement] logs [str(exc.message)] and then
    re-raises.  Of the exceptions that can reach it only
    [EspaceCoException] has a [message] attribute; on any other the
    handler itself fails with [AttributeError]. *)
Definition has_message (e : exn) : bool :=
  match e with
  | EspaceCoException _ => true
  | _ => false
  end.

Definition post_signalement_except (exc : exn) : exn :=
  if has_message exc then exc else AttributeError.

Definition newline : string := String (ascii_of_nat 10) EmptyString.

(** The sentence added to the comment of a cluster report. *)
Definition cluster_disclosure : string :=
  newline ++ " "
  ++ "**Attention : ce signalement englobe une zone. Vous pouvez trouver cette zone sur la géométrie affichée ci-contre.**"
  ++ newline ++ " ".

(** The three loop variables of the emission loop of [main]. *)
Record EmissionVars : Type := {
  var_cluster_id : option string;
  var_signalementid : pyval;
  var_reportcounter : nat
}.

(** [a != b] on cluster identifiers. *)
Definition cluster_ne (a b : option string) : bool :=
  match a, b with
  | Some x, Some y => negb (String.eqb x y)
  | None, None => false
  | _, _ => true
  end.

(** [--status]. *)
Inductive osmose_status : Type := status_false | status_done | status_open.

(** [req_dict], the body of the request of [post_signalement]. *)
Definition request_of (lon lat : spec_float) (message theme : string)
    (type_signalement : type_signalement_choice) (sketchcontent : option Sketch)
  : PostRequest :=
  {| req_lon := lon;
     req_lat := lat;
     req_comment := message;
     req_status := match type_signalement with
                   | repost => "submit"
                   | t => type_signalement_str t
                   end;
     req_theme := theme;
     req_sketch := sketchcontent |}.

(** What [get_status_signalement] makes of the outcome of its GET request:
    a failed request is re-raised as a plain [Exception]; the answer 200
    gives [req.json()["status"]]; any other answer gives [None]. *)
Definition status_of_reply (o : http_outcome) : outcome pyval :=
  match o with
  | Unreachable => Raised Exception
  | Answered req =>
      if status_code req =? 200
      then json_field "status" req
      else Returned PyNone
  end.

Section Workflow.

(** The text that [OsmoseCrackerIssue.markdown_report] stores in
    [details_descriptionstr], or the exception it raises. *)
Variable markdown_report : OsmoseCrackerIssue -> outcome string.

(** The answer of the reporting service to the n-th POST of the run and
    to the n-th status request. *)
Variable espaceco_post : nat -> PostRequest -> http_outcome.
Variable espaceco_get : nat -> option Z -> http_outcome.

(** [osmosecracker_espacecollaboratifign.post_signalement]. *)
Definition post_signalement (lon lat : spec_float) (message theme : string)
    (type_signalement : type_signalement_choice) (sketchcontent : option Sketch) : M pyval :=
  fun w =>
    let req_dict :=
      request_of lon lat message theme type_signalement sketchcontent in
    let w' := {| database := database w;
                 posted := req_dict :: posted w;
                 looked_up := looked_up w |} in
    match espaceco_post (List.length (posted w)) req_dict with
    | Unreachable => (Raised (post_signalement_except ConnectionError), w')
    | Answered req =>
        if status_code req =? 201
        then match json_field "id" req with
             | Returned createdid => (Returned createdid, w')
             | Raised exc => (Raised (post_signalement_except exc), w')
             end
        else match json req with
             | Some details =>
                 (Raised (post_signalement_except (EspaceCoException details)), w')
             | None => (Raised (post_signalement_except JSONDecodeError), w')
             end
    end.

(** [osmosecracker_espacecollaboratifign.get_status_signalement]: the
    request is logged and its outcome read by [status_of_reply]. *)
Definition get_status_signalement (signalement : option Z) : M pyval :=
  fun w =>
    let w' := {| database := database w;
                 posted := posted w;
                 looked_up := signalement :: looked_up w |} in
    (status_of_reply (espaceco_get (List.length (looked_up w)) signalement), w').

(** *** The emission loop of [main] *)

(** The choice between a cluster report, a link to the report already
    sent and a plain report. *)
Definition emit_or_link (type_signalement : type_signalement_choice)
    (issue : OsmoseCrackerIssue) (vars : EmissionVars) : M EmissionVars :=
  match cluster_id issue with
  | Some c =>
      if cluster_ne (Some c) (var_cluster_id vars)
      then
        signalementid <-
          post_signalement (core_lon issue) (core_lat issue)
            (details_descriptionstr issue ++ cluster_disclosure)
            (espaceco_theme issue) type_signalement (sketchcontent issue) ;;
        ret {| var_cluster_id := Some c;
               var_signalementid := signalementid;
               var_reportcounter := S (var_reportcounter vars) |}
      else
        match var_signalementid vars with
        | PyInt z =>
            ret {| var_cluster_id := var_cluster_id vars;
                   var_signalementid := PyInt (- Z.abs z);
                   var_reportcounter := var_reportcounter vars |}
        | _ => raise TypeError
        end
  | None =>
      signalementid <-
        post_signalement (core_lon issue) (core_lat issue)
          (details_descriptionstr issue)
          (espaceco_theme issue) type_signalement None ;;
      ret {| var_cluster_id := var_cluster_id vars;
             var_signalementid := signalementid;
             var_reportcounter := S (var_reportcounter vars) |}
  end.

(** [if signalementid is not None: ...]: the three attributes are set and
    the issue is written.  [signalementid > 0] raises [TypeError] on a
    string. *)
Definition persist_signalement (type_signalement : type_signalement_choice)
    (issuesSignalementTimestamp : datetime)
    (issue : OsmoseCrackerIssue) (signalementid : pyval) : M unit :=
  match signalementid with
  | PyNone => ret tt
  | PyStr _ => raise TypeError
  | PyInt z =>
      on_database
        (update_signalement
           (set_espaceco (Some z)
              (if z >? 0 then Some (type_signalement_str type_signalement) else None)
              (Some issuesSignalementTimestamp)
              issue))
  end.

(** One turn of [for issue in issuesSignalement_cluster]. *)
Definition emission_body (type_signalement : type_signalement_choice)
    (issuesSignalementTimestamp : datetime)
    (issue : OsmoseCrackerIssue) (vars : EmissionVars) : M EmissionVars :=
  text <- lift (markdown_report issue) ;;
  let issue := set_details_descriptionstr text issue in
  vars' <- emit_or_link type_signalement issue vars ;;
  persist_signalement type_signalement issuesSignalementTimestamp issue
    (var_signalementid vars') ;;;
  ret vars'.

(** The loop, from [cluster_id = None], [signalementid = None] and
    [reportcounter = 0]. *)
Definition emission_loop (type_signalement : type_signalement_choice)
    (issuesSignalementTimestamp : datetime)
    (issuesSignalement_cluster : list OsmoseCrackerIssue) : M EmissionVars :=
  for_each (emission_body type_signalement issuesSignalementTimestamp)
    issuesSignalement_cluster
    {| var_cluster_id := None; var_signalementid := PyNone; var_reportcounter := O |}.

(** *** The status refresh loop of [main] *)

(** One turn of [for obj_select in issuesStatusrefresh].  The status
    attribute of the object receives the answer; [update_signalement]
    only reads it through [str.format], so the record keeps that text. *)
Definition refresh_body (issuesStatusrefreshTimestamp : datetime)
    (obj_select : OsmoseCrackerIssue) (_ : unit) : M unit :=
  status <- get_status_signalement (espaceco_signalement_id obj_select) ;;
  if is_not_none status
  then on_database
         (update_signalement
            (set_espaceco (espaceco_signalement_id obj_select)
               (Some (py_str status))
               (Some issuesStatusrefreshTimestamp)
               obj_select))
  else ret tt.

Definition refresh_loop (issuesStatusrefreshTimestamp : datetime)
    (issuesStatusrefresh : list OsmoseCrackerIssue) : M unit :=
  for_each (refresh_body issuesStatusrefreshTimestamp) issuesStatusrefresh tt.

(** "Rafraichissement des status": the selection, the timestamp taken
    once, the loop. *)
Definition status_refresh (now : datetime) : M unit :=
  issuesStatusrefresh <- on_database get_issues_by_espacecosignalements_unclosed ;;
  refresh_loop now issuesStatusrefresh.

End Workflow.

(** ** Clustering: [osmosecracker_query_bduni.clustering] *)

(** One element of the JSON batch sent to the spatial query. *)
Record ClusterQuery : Type := {
  q_core_id : string;
  q_core_lat : spec_float;
  q_core_lon : spec_float;
  q_core_item_id : Z;
  q_core_class_id : Z;
  q_bduni_objet_attribut_1 : option string
}.

Definition cluster_query (issue : OsmoseCrackerIssue) : ClusterQuery :=
  {| q_core_id := core_id issue;
     q_core_lat := core_lat issue;
     q_core_lon := core_lon issue;
     q_core_item_id := core_item_id issue;
     q_core_class_id := core_class_id issue;
     q_bduni_objet_attribut_1 := bduni_objet_attribut_1 issue |}.

(** The issue objects of a list, by position; the list holds distinct
    objects, as the deserialiser creates them.  The objects are shared:
    [clustering] assigns attributes of the objects of its argument and
    returns a list of references to these same objects. *)
Definition Heap : Type := list OsmoseCrackerIssue.

(** Assignment to the object at position [i]. *)
Fixpoint heap_set (i : nat) (v : OsmoseCrackerIssue) (heap : Heap) : Heap :=
  match heap, i with
  | [], _ => []
  | _ :: rest, O => v :: rest
  | o :: rest, S j => o :: heap_set j v rest
  end.

(** The objects a list of references denotes. *)
Fixpoint deref (heap : Heap) (refs : list nat) : list OsmoseCrackerIssue :=
  match refs with
  | [] => []
  | i :: rest =>
      match nth_error heap i with
      | Some o => o :: deref heap rest
      | None => deref heap rest
      end
  end.

Section Clustering.

(** The values of the geometry columns of the answer (a text, a float, a
    decimal, NULL) and Python's [str] on them. *)
Variable pgvalue : Type.
Variable pg_str : pgvalue -> string.

(** One row of the answer of the spatial query. *)
Record ClusterRow : Type := {
  row_core_id : string;
  row_cluster_id : option string;
  row_bounding_box : pgvalue;
  row_bounding_center_lat : pgvalue;
  row_bounding_center_lon : pgvalue
}.

(** The spatial query: the rows fetched, or the exception raised. *)
Variable bduni_clusterize : list ClusterQuery -> outcome (option (list ClusterRow)).

Definition cluster_sketch (row : ClusterRow) : Sketch :=
  {| sk_desc := "Emprise du cluster";
     sk_name := "Emprise du cluster";
     sk_objects := [ {| so_type := "Polygone";
                        so_geometry := pg_str (row_bounding_box row);
                        so_attributes := [] |} ];
     sk_contexte := {| ctx_lat := pg_str (row_bounding_center_lat row);
                       ctx_lon := pg_str (row_bounding_center_lon row);
                       ctx_zoom := "17" |} |}.

(** The two assignments made on a matching issue. *)
Definition attach_cluster (row : ClusterRow) (issue : OsmoseCrackerIssue)
  : OsmoseCrackerIssue :=
  match row_cluster_id row with
  | Some c => set_cluster (Some c) (Some (cluster_sketch row)) issue
  | None => set_cluster None None issue
  end.

(** The body of [for issue in issues], on the object at position [i];
    the state is the heap and [order_issues]. *)
Definition correlate_issue (row : ClusterRow) (st : Heap * list nat) (i : nat)
  : Heap * list nat :=
  match nth_error (fst st) i with
  | Some issue =>
      if String.eqb (core_id issue) (row_core_id row)
      then (heap_set i (attach_cluster row issue) (fst st), (snd st ++ [i])%list)
      else st
  | None => st
  end.

(** The body of [for row in clustered_rows]. *)
Definition correlate_row (issues : list nat) (st : Heap * list nat) (row : ClusterRow)
  : Heap * list nat :=
  fold_left (correlate_issue row) issues st.

(** The correlation of the rows with the issue objects: the heap
    afterwards and [order_issues]. *)
Definition correlate (clustered_rows : list ClusterRow) (issues : Heap)
  : Heap * list nat :=
  fold_left (correlate_row (seq 0 (List.length issues))) clustered_rows (issues, []).

(** [clustering]: the heap afterwards and the references returned. *)
Definition clustering (issues : Heap) : outcome (Heap * list nat) :=
  match bduni_clusterize (map cluster_query issues) with
  | Raised exc => Raised exc
  | Returned None => Returned (issues, [])
  | Returned (Some clustered_rows) => Returned (correlate clustered_rows issues)
  end.

(** The list [clustering] returns, as its caller reads it. *)
Definition clustering_result (issues : Heap) : outcome (list OsmoseCrackerIssue) :=
  match clustering issues with
  | Raised exc => Raised exc
  | Returned (heap, order_issues) => Returned (deref heap order_issues)
  end.

(** *** "Signalements EspaceCollaboratif" in [main] *)

Variable markdown_report : OsmoseCrackerIssue -> outcome string.
Variable espaceco_post : nat -> PostRequest -> http_outcome.

(** The selection, the timestamp taken once ([now]), the clustering and
    the emission loop, under the guards on [--type_signalement],
    [--status] and [is_valid()]. *)
Definition signalements_espacecollaboratif (type_signalement : type_signalement_choice)
    (status : osmose_status) (now : datetime) : M (option EmissionVars) :=
  match type_signalement with
  | skip => ret None
  | _ =>
      issuesSignalement <-
        on_database get_issues_by_espacecosignalements_none_and_zicad_false ;;
      let issuesSignalementTimestamp := now in
      match status with
      | status_false =>
          valid <- on_database is_valid ;;
          if (valid : bool)
          then
            issuesSignalement_cluster <- lift (clustering_result issuesSignalement) ;;
            vars <- emission_loop markdown_report espaceco_post type_signalement
                      issuesSignalementTimestamp issuesSignalement_cluster ;;
            ret (Some vars)
          else ret None
      | _ => ret None
      end
  end.

End Clustering.

Arguments row_core_id {pgvalue} c.
Arguments row_cluster_id {pgvalue} c.
Arguments row_bounding_box {pgvalue} c.
Arguments row_bounding_center_lat {pgvalue} c.
Arguments row_bounding_center_lon {pgvalue} c.
Arguments cluster_sketch {pgvalue} pg_str row.
Arguments attach_cluster {pgvalue} pg_str row issue.
Arguments correlate_issue {pgvalue} pg_str row st i.
Arguments correlate_row {pgvalue} pg_str issues st row.
Arguments correlate {pgvalue} pg_str clustered_rows issues.
Arguments clustering {pgvalue} pg_str bduni_clusterize issues.
Arguments clustering_result {pgvalue} pg_str bduni_clusterize issues.

(** ** Vocabulary of the statements *)

(** The row stored under an external key, and its report columns. *)
Definition stored (key : string) (db : Database) : option Row :=
  find (fun r => String.eqb (col_core_id r) key) (osmoseissue db).

Definition stored_reference (key : string) (db : Database) : option Z :=
  match stored key db with
  | Some r => col_espaceco_signalement_id r
  | None => None
  end.

Definition stored_status (key : string) (db : Database) : option string :=
  match stored key db with
  | Some r => col_espaceco_signalement_status r
  | None => None
  end.

Definition stored_timestamp (key : string) (db : Database) : option datetime :=
  match stored key db with
  | Some r => col_espaceco_signalement_status_refresh_timestamp r
  | None => None
  end.

(** The issue belongs to cluster [c]. *)
Definition in_cluster (c : string) (issue : OsmoseCrackerIssue) : bool :=
  match cluster_id issue with
  | Some c' => String.eqb c' c
  | None => false
  end.

(** [k = Some c] on cluster keys. *)
Definition is_key (c : string) (k : option string) : bool :=
  match k with
  | Some c' => String.eqb c' c
  | None => false
  end.

(** The list without its leading run of key [c]. *)
Fixpoint skip_run (c : string) (ks : list (option string)) : list (option string) :=
  match ks with
  | [] => []
  | k :: rest => if is_key c k then skip_run c rest else ks
  end.

(** Cluster-ordered sequence of keys: once the run of a non-null key has
    ended, that key does not come back. *)
Fixpoint adjacentb (ks : list (option string)) : bool :=
  match ks with
  | [] => true
  | None :: rest => adjacentb rest
  | Some c :: rest => negb (existsb (is_key c) (skip_run c rest)) && adjacentb rest
  end.

(** The creation call is answered 201 with a positive integer id. *)
Definition answers_positive_id (o : http_outcome) : bool :=
  match o with
  | Answered req =>
      (status_code req =? 201)
      && match json_field "id" req with
         | Returned (PyInt z) => 0 <? z
         | _ => false
         end
  | Unreachable => false
  end.

(** The selection of the status refresh as the specification words it:
    status in the unclosed list and report reference set. *)
Definition where_unclosed_as_specified (r : Row) : bool :=
  match col_espaceco_signalement_status r with
  | None => false
  | Some s => sql_in s OC_UNCLOSED_STATUSES
  end
  && negb (sql_is_null (col_espaceco_signalement_id r)).

(** The identifier the status lookup should receive as the specification
    words it: the absolute value of the stored reference. *)
Definition lookup_argument_as_specified (r : Row) : option Z :=
  option_map Z.abs (col_espaceco_signalement_id r).

(** The output of the correlation as the specification words it: for each
    row in turn, the matching issues, each carrying the cluster id and the
    sketch of that row. *)
Definition correlate_as_specified {pgvalue : Type} (pg_str : pgvalue -> string)
    (clustered_rows : list (ClusterRow pgvalue)) (issues : list OsmoseCrackerIssue)
  : list OsmoseCrackerIssue :=
  flat_map
    (fun row =>
       map (attach_cluster pg_str row)
           (filter (fun issue => String.eqb (core_id issue) (row_core_id row)) issues))
    clustered_rows.

(** What one row does to one issue object: the assignments when the keys
    agree, nothing otherwise. *)
Definition correlate_object {pgvalue : Type} (pg_str : pgvalue -> string)
    (row : ClusterRow pgvalue) (issue : OsmoseCrackerIssue) : OsmoseCrackerIssue :=
  if String.eqb (core_id issue) (row_core_id row)
  then attach_cluster pg_str row issue
  else issue.

(** The positions, counted from [a], of the issues of a list that bear a
    key. *)
Fixpoint matching_from (a : nat) (key : string) (issues : list OsmoseCrackerIssue)
  : list nat :=
  match issues with
  | [] => []
  | issue :: rest =>
      if String.eqb (core_id issue) key
      then a :: matching_from (S a) key rest
      else matching_from (S a) key rest
  end.

(** The last row of the answer that bears the key of the issue, if any. *)
Definition last_row_for {pgvalue : Type} (key : string)
    (clustered_rows : list (ClusterRow pgvalue)) : option (ClusterRow pgvalue) :=
  find (fun row => String.eqb key (row_core_id row)) (rev clustered_rows).

(** What the correlation leaves on an issue object: the assignments of the
    last row that bears its key. *)
Definition attach_last {pgvalue : Type} (pg_str : pgvalue -> string)
    (clustered_rows : list (ClusterRow pgvalue)) (issue : OsmoseCrackerIssue)
  : OsmoseCrackerIssue :=
  match last_row_for (core_id issue) clustered_rows with
  | Some row => attach_cluster pg_str row issue
  | None => issue
  end.

Definition is_some {A : Type} (o : option A) : bool :=
  match o with Some _ => true | None => false end.

(** The conditions under which [update_signalement] accepts the status
    that a lookup returned: a valid database, an issue that holds a report
    reference, no apostrophe in the status or in the key, and a row for
    the key.  Nothing is asked when the lookup returned [None]. *)
Definition storable (status : pyval) (obj_select : OsmoseCrackerIssue) (db : Database)
  : bool :=
  match status with
  | PyNone => true
  | _ =>
      db_valid db
      && is_some (espaceco_signalement_id obj_select)
      && negb (has_apostrophe (py_str status))
      && negb (has_apostrophe (core_id obj_select))
      && is_some (stored (core_id obj_select) db)
  end.

(** The turn sends a creation request for the issue: the issue has no
    cluster, or its cluster is not the cluster in hand. *)
Definition creates_report (issue : OsmoseCrackerIssue) (vars : EmissionVars) : bool :=
  match cluster_id issue with
  | Some c => cluster_ne (Some c) (var_cluster_id vars)
  | None => true
  end.

(** The creation request of an issue whose report text is [text]. *)
Definition creation_request (type_signalement : type_signalement_choice)
    (text : string) (issue : OsmoseCrackerIssue) : PostRequest :=
  match cluster_id issue with
  | Some _ =>
      request_of (core_lon issue) (core_lat issue) (text ++ cluster_disclosure)
        (espaceco_theme issue) type_signalement (sketchcontent issue)
  | None =>
      request_of (core_lon issue) (core_lat issue) text
        (espaceco_theme issue) type_signalement None
  end.

Section EmissionCases.

Variable espaceco_post : nat -> PostRequest -> http_outcome.
Variable type_signalement : type_signalement_choice.

(** What a turn that goes through did in [emit_or_link]: a plain report,
    the first report of a cluster, or a link to the report in hand. *)
Inductive emitted (issue : OsmoseCrackerIssue) (vars vars' : EmissionVars) (w w' : World)
  : Prop :=
| emitted_plain :
    cluster_id issue = None ->
    var_cluster_id vars' = var_cluster_id vars ->
    var_reportcounter vars' = S (var_reportcounter vars) ->
    post_signalement espaceco_post (core_lon issue) (core_lat issue)
      (details_descriptionstr issue) (espaceco_theme issue) type_signalement None w
    = (Returned (var_signalementid vars'), w') ->
    emitted issue vars vars' w w'
| emitted_cluster (c : string) :
    cluster_id issue = Some c ->
    var_cluster_id vars <> Some c ->
    var_cluster_id vars' = Some c ->
    var_reportcounter vars' = S (var_reportcounter vars) ->
    post_signalement espaceco_post (core_lon issue) (core_lat issue)
      (details_descriptionstr issue ++ cluster_disclosure) (espaceco_theme issue)
      type_signalement (sketchcontent issue) w
    = (Returned (var_signalementid vars'), w') ->
    emitted issue vars vars' w w'
| emitted_link (c : string) (z : Z) :
    cluster_id issue = Some c ->
    var_cluster_id vars = Some c ->
    var_signalementid vars = PyInt z ->
    var_cluster_id vars' = Some c ->
    var_signalementid vars' = PyInt (- Z.abs z) ->
    var_reportcounter vars' = var_reportcounter vars ->
    w' = w ->
    emitted issue vars vars' w w'.

End EmissionCases.

(** ** Sample data for the worked runs *)

(** The floats 48.5 and 2.25. *)
Definition sample_lat : spec_float := S754_finite false 97 (-1).
Definition sample_lon : spec_float := S754_finite false 9 (-2).

Definition sample_issue (key : string) (cluster : option string) : OsmoseCrackerIssue :=
  {| core_id := key;
     core_lat := sample_lat;
     core_lon := sample_lon;
     core_item_id := 7170;
     core_class_id := 1;
     details_descriptionstr := "None";
     espaceco_theme := "Route";
     bduni_objet_attribut_1 := None;
     bduni_zicad := None;
     cluster_id := cluster;
     sketchcontent := None;
     espaceco_signalement_id := None;
     espaceco_signalement_status := None;
     espaceco_signalement_status_refresh_timestamp := None |}.

Definition sample_row (key : string) (id : option Z) (status : option string) : Row :=
  {| col_core_id := key;
     col_core_lat := sample_lat;
     col_core_lon := sample_lon;
     col_core_item_id := 7170;
     col_core_class_id := 1;
     col_details_descriptionstr := None;
     col_espaceco_theme := Some "Route";
     col_bduni_objet_attribut_1 := None;
     col_espaceco_signalement_id := id;
     col_espaceco_signalement_status := status;
     col_espaceco_signalement_status_refresh_timestamp := None;
     col_bduni_objet_zicad := Some 0 |}.

Definition sample_world (rows : list Row) : World :=
  {| database := {| db_valid := true; osmoseissue := rows |};
     posted := [];
     looked_up := [] |}.

(** A row of the spatial answer with text geometry. *)
Definition sample_cluster_row (key : string) (cluster : option string)
  : ClusterRow string :=
  {| row_core_id := key;
     row_cluster_id := cluster;
     row_bounding_box := "POLYGON((2 48,3 48,3 49,2 49,2 48))";
     row_bounding_center_lat := "48.5";
     row_bounding_center_lon := "2.5" |}.

(** A spatial service that answers every batch with the same rows. *)
Definition constant_clusterize (rows : list (ClusterRow string))
    (_ : list ClusterQuery) : outcome (option (list (ClusterRow string))) :=
  Returned (Some rows).

(** A reporting service that numbers its reports 101, 102, ... *)
Definition sample_post (n : nat) (_ : PostRequest) : http_outcome :=
  Answered {| status_code := 201;
              json := Some (JsonObject [("id", PyInt (101 + Z.of_nat n))]) |}.

(** A reporting service that answers every creation with the same id. *)
Definition constant_post (id : pyval) (_ : nat) (_ : PostRequest) : http_outcome :=
  Answered {| status_code := 201; json := Some (JsonObject [("id", id)]) |}.

(** A reporting service that cannot be reached. *)
Definition unreachable_post (_ : nat) (_ : PostRequest) : http_outcome := Unreachable.

(** A reporting service that gives every report the same status answer. *)
Definition constant_get (answer : Response) (_ : nat) (_ : option Z) : http_outcome :=
  Answered answer.

(** A reporting service that answers the first status request with the
    status "valid" and has no answer for the later ones. *)
Definition sample_get (n : nat) (_ : option Z) : http_outcome :=
  match n with
  | O => Answered {| status_code := 200;
                     json := Some (JsonObject [("status", PyStr "valid")]) |}
  | S _ => Answered {| status_code := 404; json := None |}
  end.

Definition sample_markdown_report (_ : OsmoseCrackerIssue) : outcome string :=
  Returned "ROBOT_OSMOSECRACKER".

(** ** The other accesses to [osmoseissue] *)

(** The WHERE clause of [get_issues_where_zicad_null]:
    [bduni_objet_zicad IS NULL]. *)
Definition where_zicad_null (r : Row) : bool :=
  sql_is_null (col_bduni_objet_zicad r).

Definition get_issues_where_zicad_null : DB (list OsmoseCrackerIssue) :=
  select_issues where_zicad_null.

(** The WHERE clause of [get_issues_by_espacecosignalements_none]:
    [espaceco_signalement_id IS NULL]. *)
Definition where_none (r : Row) : bool :=
  sql_is_null (col_espaceco_signalement_id r).

Definition get_issues_by_espacecosignalements_none : DB (list OsmoseCrackerIssue) :=
  select_issues where_none.

(** [_osmosecrackerDatabase.get_issue_by_osmose_uuid]: the key is spliced
    between apostrophes, [fetchone()] gives the first row that bears it,
    and the answer is [None] when there is none. *)
Definition get_issue_by_osmose_uuid (osmose_uuid : string)
  : DB (option OsmoseCrackerIssue) :=
  fun db =>
    if db_valid db
    then match sql_text osmose_uuid with
         | Some key =>
             (Returned (option_map _issue_row_to_issue_instance (stored key db)), db)
         | None => (Raised OperationalError, db)
         end
    else (Raised ValueError, db).

(** A row with its three report columns erased: what [update_signalement]
    has no statement about. *)
Definition clear_signalement (r : Row) : Row :=
  {| col_core_id := col_core_id r;
     col_core_lat := col_core_lat r;
     col_core_lon := col_core_lon r;
     col_core_item_id := col_core_item_id r;
     col_core_class_id := col_core_class_id r;
     col_details_descriptionstr := col_details_descriptionstr r;
     col_espaceco_theme := col_espaceco_theme r;
     col_bduni_objet_attribut_1 := col_bduni_objet_attribut_1 r;
     col_espaceco_signalement_id := None;
     col_espaceco_signalement_status := None;
     col_espaceco_signalement_status_refresh_timestamp := None;
     col_bduni_objet_zicad := col_bduni_objet_zicad r |}.

(** ** The ZICAD flag *)

(** Replace the ZICAD column of a row. *)
Definition set_zicad (zicad : Z) (r : Row) : Row :=
  {| col_core_id := col_core_id r;
     col_core_lat := col_core_lat r;
     col_core_lon := col_core_lon r;
     col_core_item_id := col_core_item_id r;
     col_core_class_id := col_core_class_id r;
     col_details_descriptionstr := col_details_descriptionstr r;
     col_espaceco_theme := col_espaceco_theme r;
     col_bduni_objet_attribut_1 := col_bduni_objet_attribut_1 r;
     col_espaceco_signalement_id := col_espaceco_signalement_id r;
     col_espaceco_signalement_status := col_espaceco_signalement_status r;
     col_espaceco_signalement_status_refresh_timestamp :=
       col_espaceco_signalement_status_refresh_timestamp r;
     col_bduni_objet_zicad := Some zicad |}.

(** [UPDATE osmoseissue SET bduni_objet_zicad = zicad WHERE core_id = key]. *)
Definition sql_update_zicad (key : string) (zicad : Z) (rows : list Row) : list Row :=
  map (fun r => if String.eqb (col_core_id r) key then set_zicad zicad r else r) rows.

(** The value of the word that [str.format] splices bare after
    [bduni_objet_zicad =].  Python's [True] and [False] read as the SQL
    literals TRUE and FALSE, which SQLite stores as 1 and 0; the digits 1
    and 0 are themselves.  The word [None] names no column and SQLite
    refuses the statement.  The model follows no other word and answers
    [None] for it as well. *)
Definition sql_boolean_word (s : string) : option Z :=
  if String.eqb s "True" then Some 1
  else if String.eqb s "False" then Some 0
  else if String.eqb s "1" then Some 1
  else if String.eqb s "0" then Some 0
  else None.

(** [_osmosecrackerDatabase.update_zicad].  The row that [RETURNING rowid]
    yields is fetched and dropped: the method answers [True] whether or
    not a row bears the key. *)
Definition update_zicad (osmosecrackerIssue : OsmoseCrackerIssue) : DB bool :=
  fun db =>
    if negb (db_valid db) then (Raised ValueError, db) else
    match sql_boolean_word (str_column (bduni_zicad osmosecrackerIssue)),
          sql_text (core_id osmosecrackerIssue) with
    | Some zicad, Some key =>
        (Returned true,
         {| db_valid := db_valid db;
            osmoseissue := sql_update_zicad key zicad (osmoseissue db) |})
    | _, _ => (Raised OperationalError, db)
    end.

(** The assignment [issue.bduni_zicad = ...].  The attribute is only read
    through [str.format] afterwards, so the record keeps that text. *)
Definition set_bduni_zicad (zicad : option string) (i : OsmoseCrackerIssue)
  : OsmoseCrackerIssue :=
  {| core_id := core_id i;
     core_lat := core_lat i;
     core_lon := core_lon i;
     core_item_id := core_item_id i;
     core_class_id := core_class_id i;
     details_descriptionstr := details_descriptionstr i;
     espaceco_theme := espaceco_theme i;
     bduni_objet_attribut_1 := bduni_objet_attribut_1 i;
     bduni_zicad := zicad;
     cluster_id := cluster_id i;
     sketchcontent := sketchcontent i;
     espaceco_signalement_id := espaceco_signalement_id i;
     espaceco_signalement_status := espaceco_signalement_status i;
     espaceco_signalement_status_refresh_timestamp :=
       espaceco_signalement_status_refresh_timestamp i |}.

Section Zicad.

(** The connection to the BDUni and the creation of the temporary table of
    the zones: done, or the exception raised. *)
Variable bduni_connect : outcome unit.

(** [results[0][0]] of the n-th point query of the call, as the text that
    [str.format] gives for it, with [None] for NULL; or the exception
    raised by the query or by the subscripts. *)
Variable bduni_zicad_query : nat -> spec_float -> spec_float -> outcome (option string).

(** The [for] loop of [is_in_zicad]: how it ends, and [updatedIssueList]
    at that point. *)
Fixpoint is_in_zicad_loop (index : nat)
    (loopIssueList updatedIssueList : list OsmoseCrackerIssue)
  : outcome unit * list OsmoseCrackerIssue :=
  match loopIssueList with
  | [] => (Returned tt, updatedIssueList)
  | element :: rest =>
      match bduni_zicad_query index (core_lon element) (core_lat element) with
      | Raised exc => (Raised exc, updatedIssueList)
      | Returned None => is_in_zicad_loop (S index) rest updatedIssueList
      | Returned (Some zicad) =>
          is_in_zicad_loop (S index) rest
            (updatedIssueList ++ [set_bduni_zicad (Some zicad) element])%list
      end
  end.

(** The [try] block. *)
Definition is_in_zicad_try (issuesSignalement : list OsmoseCrackerIssue)
  : outcome unit * list OsmoseCrackerIssue :=
  match bduni_connect with
  | Raised exc => (Raised exc, [])
  | Returned _ => is_in_zicad_loop 0 issuesSignalement []
  end.

(** [osmosecracker_query_bduni.is_in_zicad].  The handler of the [try]
    block fails on its own log line, which concatenates a text and the
    exception; either way [finally: return(updatedIssueList)] answers the
    list and drops the exception underway. *)
Definition is_in_zicad (issuesSignalement : list OsmoseCrackerIssue)
  : outcome (list OsmoseCrackerIssue) :=
  Returned (snd (is_in_zicad_try issuesSignalement)).

(** *** "Verife Statue des zicad" in [main] *)

Definition zicad_refresh_body (obj_select : OsmoseCrackerIssue) (_ : unit) : M unit :=
  on_database (update_zicad obj_select) ;;; ret tt.

Definition zicad_refresh : M unit :=
  issuesZicadrefresh <- on_database get_issues_where_zicad_null ;;
  issuesZicadrefreshed <- lift (is_in_zicad issuesZicadrefresh) ;;
  for_each zicad_refresh_body issuesZicadrefreshed tt.

End Zicad.

(** ** The workflow record: [osmosecracker_workflow] *)

(** The attributes the class declares, all [None] in the class itself. *)
Inductive workflow_attribute : Type :=
| workflow_guuid
| database_id
| workflow_parameters
| timestamp_workflow_start
| timestamp_issues_collecting_start
| timestamp_issues_collecting_end
| timestamp_details_uuid_added
| timestamp_workflow_end
| workflow_duration_seconds
| workflow_exception_log
| stats_issues_collected_count
| stats_issues_collected_new_count
| stats_issues_reported_count.

Definition workflow_attribute_eq_dec (a b : workflow_attribute) : {a = b} + {a <> b}.
Proof. decide equality. Defined.

(** The singleton, as [getattr] reads it. *)
Definition Workflow : Type := workflow_attribute -> pyval.

(** The instance before any assignment: the class attributes. *)
Definition workflow_class : Workflow := fun _ => PyNone.

(** [self.__dict__[key] = value]. *)
Definition workflow_store (key : workflow_attribute) (value : pyval) (self : Workflow)
  : Workflow :=
  fun k => if workflow_attribute_eq_dec k key then value else self k.

Inductive workflow_outcome : Type :=
| Assigned (self : Workflow)
| WorkflowAttributesProtected.

(** [_osmosecrackerworkflow.__setattr__].  The call to [workflow_update]
    that follows an assignment writes the table [workflowexecutions],
    which is outside the model, and that method raises nothing. *)
Definition __setattr__ (self : Workflow) (key : workflow_attribute) (value : pyval)
  : workflow_outcome :=
  if negb (is_not_none (self key))
  then Assigned (workflow_store key value self)
  else if workflow_attribute_eq_dec key stats_issues_reported_count
       then Assigned (workflow_store key value self)
       else WorkflowAttributesProtected.

(** [_osmosecrackerworkflow.log_error]. *)
Definition log_error (self : Workflow) (error : string) : workflow_outcome :=
  match __setattr__ self timestamp_workflow_end PyNone with
  | Assigned self1 =>
      match __setattr__ self1 workflow_duration_seconds PyNone with
      | Assigned self2 => __setattr__ self2 workflow_exception_log (PyStr error)
      | WorkflowAttributesProtected => WorkflowAttributesProtected
      end
  | WorkflowAttributesProtected => WorkflowAttributesProtected
  end.

(** A run of assignments, up to the first one refused. *)
Fixpoint workflow_assignments (l : list (workflow_attribute * pyval)) (self : Workflow)
  : workflow_outcome :=
  match l with
  | [] => Assigned self
  | (key, value) :: rest =>
      match __setattr__ self key value with
      | Assigned self' => workflow_assignments rest self'
      | WorkflowAttributesProtected => WorkflowAttributesProtected
      end
  end.

(** ** Vocabulary of the frame statements *)

(** Two states of the database that differ at most in the three report
    columns of their rows. *)
Definition report_columns_only (db db' : Database) : Prop :=
  db_valid db' = db_valid db
  /\ map clear_signalement (osmoseissue db') = map clear_signalement (osmoseissue db).

(** The row of the key has a report reference. *)
Definition has_reference (r : Row) : bool :=
  negb (sql_is_null (col_espaceco_signalement_id r)).

(** The issues that the point queries characterise, in a run of queries
    numbered from [index] where none fails: those whose answer is not NULL,
    each with the text of its answer as ZICAD flag. *)
Fixpoint zicad_characterised
    (bduni_zicad_query : nat -> spec_float -> spec_float -> outcome (option string))
    (index : nat) (issues : list OsmoseCrackerIssue) : list OsmoseCrackerIssue :=
  match issues with
  | [] => []
  | element :: rest =>
      match bduni_zicad_query index (core_lon element) (core_lat element) with
      | Returned (Some zicad) =>
          set_bduni_zicad (Some zicad) element
          :: zicad_characterised bduni_zicad_query (S index) rest
      | _ => zicad_characterised bduni_zicad_query (S index) rest
      end
  end.

(** ** Sample data for the ZICAD refresh and the workflow record *)

Definition sample_null_row (key : string) : Row :=
  {| col_core_id := key;
     col_core_lat := sample_lat;
     col_core_lon := sample_lon;
     col_core_item_id := 7170;
     col_core_class_id := 1;
     col_details_descriptionstr := None;
     col_espaceco_theme := Some "Route";
     col_bduni_objet_attribut_1 := None;
     col_espaceco_signalement_id := None;
     col_espaceco_signalement_status := None;
     col_espaceco_signalement_status_refresh_timestamp := None;
     col_bduni_objet_zicad := None |}.

(** A BDUni that finds the first point outside every zone, has no answer
    for the second and fails on the third. *)
Definition sample_zicad_query (n : nat) (_ _ : spec_float) : outcome (option string) :=
  match n with
  | O => Returned (Some "False")
  | S O => Returned None
  | S (S _) => Raised OperationalError
  end.

(** A BDUni that finds every point inside a zone. *)
Definition inside_zicad_query (_ : nat) (_ _ : spec_float) : outcome (option string) :=
  Returned (Some "True").

(** * Properties *)

(** ** The selections *)

Lemma select_issues_no_write (where_clause : Row -> bool) (db : Database) :
  snd (select_issues where_clause db) = db.
Proof. unfold select_issues. destruct (db_valid db); reflexivity. Qed.

Lemma select_issues_valid (where_clause : Row -> bool) (db : Database) :
  db_valid db = true ->
  select_issues where_clause db =
    (Returned (map _issue_row_to_issue_instance (filter where_clause (osmoseissue db))), db).
Proof. intros Hv. unfold select_issues. rewrite Hv. reflexivity. Qed.

Lemma sql_not_true_zero (x : option Z) : sql_not_true x = true <-> x = Some 0.
Proof.
  destruct x as [z|]; simpl.
  - rewrite Z.eqb_eq. split; [intros ->; reflexivity | intros [= ->]; reflexivity].
  - split; discriminate.
Qed.

Lemma sql_is_null_none {A : Type} (x : option A) : sql_is_null x = true <-> x = None.
Proof. destruct x; simpl; split; congruence. Qed.

Lemma sql_in_In (x : string) (vs : list string) : sql_in x vs = true <-> In x vs.
Proof.
  unfold sql_in. rewrite existsb_exists. split.
  - intros [v [Hin Heq]]. apply String.eqb_eq in Heq. subst. exact Hin.
  - intros Hin. exists x. split; [exact Hin | apply String.eqb_refl].
Qed.

(** C9. On a valid database the eligibility selection answers the issues
    of exactly the stored rows whose report reference is NULL and whose
    ZICAD flag is stored as false (0); rows whose flag is NULL or true are
    left out; the database afterwards is the database before. *)
Theorem eligibility_filter_exact (db : Database) :
  db_valid db = true ->
  exists rows,
    get_issues_by_espacecosignalements_none_and_zicad_false db
      = (Returned (map _issue_row_to_issue_instance rows), db)
    /\ forall r, In r rows <->
         In r (osmoseissue db)
         /\ col_espaceco_signalement_id r = None
         /\ col_bduni_objet_zicad r = Some 0.
Proof.
  intros Hv. exists (filter where_none_and_zicad_false (osmoseissue db)). split.
  - apply select_issues_valid. exact Hv.
  - intros r. rewrite filter_In. unfold where_none_and_zicad_false.
    rewrite andb_true_iff, sql_is_null_none, sql_not_true_zero. tauto.
Qed.

Lemma eligibility_filter_exact_witness :
  exists rows,
    get_issues_by_espacecosignalements_none_and_zicad_false
      {| db_valid := true;
         osmoseissue := [sample_row "a" None None; sample_row "b" (Some 101) (Some "submit")] |}
      = (Returned (map _issue_row_to_issue_instance rows),
         {| db_valid := true;
            osmoseissue := [sample_row "a" None None; sample_row "b" (Some 101) (Some "submit")] |})
    /\ forall r, In r rows <->
         In r [sample_row "a" None None; sample_row "b" (Some 101) (Some "submit")]
         /\ col_espaceco_signalement_id r = None
         /\ col_bduni_objet_zicad r = Some 0.
Proof.
  apply (eligibility_filter_exact
           {| db_valid := true;
              osmoseissue := [sample_row "a" None None;
                              sample_row "b" (Some 101) (Some "submit")] |}).
  reflexivity.
Defined.

(** C4, as the code has it.  On a valid database the selection of the
    status refresh answers the issues of exactly the stored rows whose
    report status is not NULL and is none of the values of
    [OC_UNCLOSED_STATUSES]; the report reference is not looked at. *)
Theorem unclosed_selection_exact (db : Database) :
  db_valid db = true ->
  exists rows,
    get_issues_by_espacecosignalements_unclosed db
      = (Returned (map _issue_row_to_issue_instance rows), db)
    /\ forall r, In r rows <->
         In r (osmoseissue db)
         /\ exists s, col_espaceco_signalement_status r = Some s
                      /\ ~ In s OC_UNCLOSED_STATUSES.
Proof.
  intros Hv. exists (filter where_unclosed (osmoseissue db)). split.
  - apply select_issues_valid. exact Hv.
  - intros r. rewrite filter_In. unfold where_unclosed.
    destruct (col_espaceco_signalement_status r) as [s|].
    + rewrite negb_true_iff, <- not_true_iff_false, sql_in_In. split.
      * intros [Hin Hs]. split; [exact Hin|]. exists s. split; [reflexivity | exact Hs].
      * intros [Hin [s' [[= <-] Hs]]]. split; assumption.
    + split; [intros [_ H]; discriminate | intros [_ [s [H _]]]; discriminate].
Qed.

Lemma unclosed_selection_exact_witness :
  exists rows,
    get_issues_by_espacecosignalements_unclosed
      {| db_valid := true;
         osmoseissue := [sample_row "a" (Some 101) (Some "submit");
                         sample_row "b" (Some 102) (Some "valid")] |}
      = (Returned (map _issue_row_to_issue_instance rows),
         {| db_valid := true;
            osmoseissue := [sample_row "a" (Some 101) (Some "submit");
                            sample_row "b" (Some 102) (Some "valid")] |})
    /\ forall r, In r rows <->
         In r [sample_row "a" (Some 101) (Some "submit");
               sample_row "b" (Some 102) (Some "valid")]
         /\ exists s, col_espaceco_signalement_status r = Some s
                      /\ ~ In s OC_UNCLOSED_STATUSES.
Proof.
  apply (unclosed_selection_exact
           {| db_valid := true;
              osmoseissue := [sample_row "a" (Some 101) (Some "submit");
                              sample_row "b" (Some 102) (Some "valid")] |}).
  reflexivity.
Defined.

(** C4, counterexample.  With a row of status "submit" and a row of status
    "valid", both with a report reference, the code selects the first and
    the selection worded by the specification selects the second. *)
Lemma unclosed_selection_counterexample :
  let db := {| db_valid := true;
               osmoseissue := [sample_row "a" (Some 101) (Some "submit");
                               sample_row "b" (Some 102) (Some "valid")] |} in
  fst (get_issues_by_espacecosignalements_unclosed db)
    = Returned [_issue_row_to_issue_instance (sample_row "a" (Some 101) (Some "submit"))]
  /\ fst (select_issues where_unclosed_as_specified db)
    = Returned [_issue_row_to_issue_instance (sample_row "b" (Some 102) (Some "valid"))]
  /\ fst (get_issues_by_espacecosignalements_unclosed db)
     <> fst (select_issues where_unclosed_as_specified db).
Proof.
  simpl. repeat split. intros H. discriminate H.
Qed.

(** ** The monad *)

Lemma bind_returned {A B : Type} (c : M A) (k : A -> M B) (w w' : World) (b : B) :
  bind c k w = (Returned b, w') ->
  exists a w1, c w = (Returned a, w1) /\ k a w1 = (Returned b, w').
Proof.
  unfold bind. destruct (c w) as [[a|e] w1]; intros H.
  - exists a, w1. split; [reflexivity | exact H].
  - discriminate H.
Qed.

Lemma bind_eq {A B : Type} (c : M A) (k : A -> M B) (w w1 : World) (a : A) :
  c w = (Returned a, w1) -> bind c k w = k a w1.
Proof. intros H. unfold bind. rewrite H. reflexivity. Qed.

Lemma for_each_app {A V : Type} (body : A -> V -> M V) (xs ys : list A) (vars : V) (w : World) :
  for_each body (xs ++ ys) vars w
  = bind (for_each body xs vars) (fun vars' => for_each body ys vars') w.
Proof.
  revert vars w. induction xs as [|x xs IH]; intros vars w; simpl.
  - reflexivity.
  - unfold bind in *. destruct (body x vars w) as [[v|e] w1].
    + apply IH.
    + reflexivity.
Qed.

Lemma for_each_one {A V : Type} (body : A -> V -> M V) (x : A) (vars : V) (w : World) :
  for_each body [x] vars w = body x vars w.
Proof.
  simpl. unfold bind. destruct (body x vars w) as [[v|e] w1]; reflexivity.
Qed.

Section WorkflowProperties.

Variable markdown_report : OsmoseCrackerIssue -> outcome string.
Variable espaceco_post : nat -> PostRequest -> http_outcome.
Variable espaceco_get : nat -> option Z -> http_outcome.

(** *** [post_signalement] *)

Lemma post_signalement_except_cases (exc : exn) :
  post_signalement_except exc = AttributeError
  \/ exists details, post_signalement_except exc = EspaceCoException details.
Proof.
  destruct exc; simpl; auto. right. eexists. reflexivity.
Qed.

Lemma post_signalement_world lon lat message theme type_signalement sketchcontent w :
  snd (post_signalement espaceco_post lon lat message theme type_signalement sketchcontent w)
  = {| database := database w;
       posted := request_of lon lat message theme type_signalement sketchcontent
                 :: posted w;
       looked_up := looked_up w |}.
Proof.
  unfold post_signalement.
  destruct (espaceco_post _ _) as [|req]; [reflexivity|].
  destruct (status_code req =? 201).
  - destruct (json_field "id" req); reflexivity.
  - destruct (json req); reflexivity.
Qed.

(** C10, as the code has it.  A call returns a value exactly when the
    service answers 201 with a JSON dictionary that has an 'id' member,
    and the value is that member; every other call raises, with
    [EspaceCoException] when the answer is JSON with another status
    code.  The value returned is [None] exactly when the 'id' member is
    itself null. *)
Theorem post_signalement_outcome lon lat message theme type_signalement sketchcontent w :
  let reply :=
    espaceco_post (List.length (posted w))
      (request_of lon lat message theme type_signalement sketchcontent) in
  let result :=
    fst (post_signalement espaceco_post lon lat message theme type_signalement
           sketchcontent w) in
  (forall createdid,
      result = Returned createdid <->
      exists req members,
        reply = Answered req /\ status_code req = 201
        /\ json req = Some (JsonObject members)
        /\ dict_get "id" members = Some createdid)
  /\ ((forall createdid, result <> Returned createdid) ->
      exists exc, result = Raised exc
                  /\ (exc = AttributeError \/ exists details, exc = EspaceCoException details))
  /\ (forall req details,
         reply = Answered req -> status_code req <> 201 -> json req = Some details ->
         result = Raised (EspaceCoException details)).
Proof.
  intros reply result. subst reply result.
  unfold post_signalement.
  destruct (espaceco_post _ _) as [|req] eqn:Hreply.
  - simpl. split; [|split].
    + intros v. split; [discriminate|]. intros (r & m & H & _). discriminate H.
    + intros _. exists AttributeError. split; [reflexivity | left; reflexivity].
    + intros r d H. discriminate H.
  - destruct (status_code req =? 201) eqn:Hcode.
    + apply Z.eqb_eq in Hcode. unfold json_field.
      destruct (json req) as [[members|]|] eqn:Hjson; simpl.
      * destruct (dict_get "id" members) as [v|] eqn:Hid; simpl.
        -- split; [|split].
           ++ intros v'. split.
              ** intros [= <-]. exists req, members. repeat split; assumption.
              ** intros (r & m & [= <-] & _ & Hj & Hd).
                 rewrite Hjson in Hj. injection Hj as <-. congruence.
           ++ intros Hno. exfalso. apply (Hno v). reflexivity.
           ++ intros r d [= <-] Hne. contradiction.
        -- split; [|split].
           ++ intros v'. split; [discriminate|].
              intros (r & m & [= <-] & _ & Hj & Hd).
              rewrite Hjson in Hj. injection Hj as <-. congruence.
           ++ intros _. exists AttributeError. split; [reflexivity | left; reflexivity].
           ++ intros r d [= <-] Hne. contradiction.
      * split; [|split].
        -- intros v'. split; [discriminate|].
           intros (r & m & [= <-] & _ & Hj & _). congruence.
        -- intros _. exists AttributeError. split; [reflexivity | left; reflexivity].
        -- intros r d [= <-] Hne. contradiction.
      * split; [|split].
        -- intros v'. split; [discriminate|].
           intros (r & m & [= <-] & _ & Hj & _). congruence.
        -- intros _. exists AttributeError. split; [reflexivity | left; reflexivity].
        -- intros r d [= <-] Hne. contradiction.
    + apply Z.eqb_neq in Hcode.
      destruct (json req) as [details|] eqn:Hjson; simpl.
      * split; [|split].
        -- intros v'. split; [discriminate|].
           intros (r & m & [= <-] & Hc & _). contradiction.
        -- intros _. eexists. split; [reflexivity|]. right. eexists. reflexivity.
        -- intros r d [= <-] _ Hj. rewrite Hjson in Hj. injection Hj as <-. reflexivity.
      * split; [|split].
        -- intros v'. split; [discriminate|].
           intros (r & m & [= <-] & Hc & _). contradiction.
        -- intros _. exists AttributeError. split; [reflexivity | left; reflexivity].
        -- intros r d [= <-] _ Hj. rewrite Hjson in Hj. discriminate Hj.
Qed.

End WorkflowProperties.

(** C10, counterexample.  The service answers 201 with the body
    [{"id": null}]: the call completes without raising and returns
    [None].  In a second call the service cannot be reached: what the call
    raises is the [AttributeError] of its own handler, not the transport
    error. *)
Lemma post_signalement_counterexample :
  fst (post_signalement (constant_post PyNone) sample_lon sample_lat
         "ROBOT_OSMOSECRACKER" "Route" submit None (sample_world []))
  = Returned PyNone
  /\ fst (post_signalement unreachable_post sample_lon sample_lat
            "ROBOT_OSMOSECRACKER" "Route" submit None (sample_world []))
     = Raised AttributeError.
Proof. split; reflexivity. Qed.

(** ** The table under [update_signalement] *)

Lemma stored_after_update (key k : string) (id : Z) (status : string) (ts : datetime)
    (rows : list Row) :
  find (fun r => String.eqb (col_core_id r) k) (sql_update_signalement key id status ts rows)
  = if String.eqb k key
    then option_map (set_signalement id status ts)
           (find (fun r => String.eqb (col_core_id r) k) rows)
    else find (fun r => String.eqb (col_core_id r) k) rows.
Proof.
  induction rows as [|r rows IH]; simpl.
  - destruct (String.eqb k key); reflexivity.
  - destruct (String.eqb_spec (col_core_id r) key) as [Hrk|Hrk]; simpl.
    + destruct (String.eqb_spec (col_core_id r) k) as [Hk|Hk].
      * subst k. rewrite Hrk, String.eqb_refl. reflexivity.
      * rewrite IH. reflexivity.
    + destruct (String.eqb_spec (col_core_id r) k) as [Hk|Hk].
      * subst k. destruct (String.eqb_spec (col_core_id r) key); [contradiction | reflexivity].
      * rewrite IH. reflexivity.
Qed.

Lemma existsb_find_some {A : Type} (p : A -> bool) (l : list A) :
  existsb p l = true -> exists a, find p l = Some a.
Proof.
  induction l as [|x l IH]; simpl; [discriminate|].
  destruct (p x); [eexists; reflexivity | exact IH].
Qed.

Lemma sql_text_some (s t : string) : sql_text s = Some t -> t = s /\ has_apostrophe s = false.
Proof.
  unfold sql_text. destruct (has_apostrophe s); [discriminate|].
  intros [= <-]. split; reflexivity.
Qed.

(** A successful [update_signalement]: what the issue held, and the table
    afterwards. *)
Lemma update_signalement_returned (i : OsmoseCrackerIssue) (db db' : Database) :
  update_signalement i db = (Returned tt, db') ->
  exists id ts r,
    espaceco_signalement_id i = Some id
    /\ espaceco_signalement_status_refresh_timestamp i = Some ts
    /\ stored (core_id i) db = Some r
    /\ stored (core_id i) db'
       = Some (set_signalement id (str_column (espaceco_signalement_status i)) ts r)
    /\ (forall k, k <> core_id i -> stored k db' = stored k db)
    /\ db_valid db' = db_valid db.
Proof.
  unfold update_signalement.
  destruct (db_valid db) eqn:Hv; simpl; [|discriminate].
  destruct (espaceco_signalement_status_refresh_timestamp i) as [ts|]; [|discriminate].
  destruct (espaceco_signalement_id i) as [id|]; [|discriminate].
  destruct (sql_text (str_column (espaceco_signalement_status i))) as [status|] eqn:Hs;
    [|discriminate].
  destruct (sql_text (core_id i)) as [key|] eqn:Hk; [|discriminate].
  apply sql_text_some in Hs. destruct Hs as [-> _].
  apply sql_text_some in Hk. destruct Hk as [-> _].
  destruct (existsb _ (osmoseissue db)) eqn:Hex; [|discriminate].
  intros [= <-]. apply existsb_find_some in Hex. destruct Hex as [r Hr].
  exists id, ts, r. unfold stored; simpl. repeat split.
  - exact Hr.
  - rewrite stored_after_update, String.eqb_refl, Hr. reflexivity.
  - intros k Hne. rewrite stored_after_update.
    destruct (String.eqb_spec k (core_id i)); [contradiction | reflexivity].
Qed.

(** The conditions under which [update_signalement] goes through. *)
Lemma update_signalement_succeeds (i : OsmoseCrackerIssue) (db : Database)
    (id : Z) (ts : datetime) (r : Row) :
  db_valid db = true ->
  espaceco_signalement_id i = Some id ->
  espaceco_signalement_status_refresh_timestamp i = Some ts ->
  has_apostrophe (str_column (espaceco_signalement_status i)) = false ->
  has_apostrophe (core_id i) = false ->
  stored (core_id i) db = Some r ->
  exists db', update_signalement i db = (Returned tt, db').
Proof.
  intros Hv Hid Hts Hs Hk Hr. unfold update_signalement, sql_text.
  rewrite Hv, Hid, Hts, Hs, Hk. simpl.
  assert (Hex : existsb (fun r0 => String.eqb (col_core_id r0) (core_id i)) (osmoseissue db)
                = true).
  { unfold stored in Hr. apply find_some in Hr. apply existsb_exists.
    exists r. exact Hr. }
  rewrite Hex. eexists. reflexivity.
Qed.

(** A failed [update_signalement] leaves the database as it was. *)
Lemma update_signalement_raised (i : OsmoseCrackerIssue) (db db' : Database) (e : exn) :
  update_signalement i db = (Raised e, db') -> db' = db.
Proof.
  unfold update_signalement.
  destruct (db_valid db); simpl; [|intros [= _ <-]; reflexivity].
  destruct (espaceco_signalement_status_refresh_timestamp i); [|intros [= _ <-]; reflexivity].
  destruct (espaceco_signalement_id i); [|intros [= _ <-]; reflexivity].
  destruct (sql_text _); [|intros [= _ <-]; reflexivity].
  destruct (sql_text _); [|intros [= _ <-]; reflexivity].
  destruct (existsb _ _); [discriminate | intros [= _ <-]; reflexivity].
Qed.

Lemma on_database_returned {A : Type} (c : DB A) (w w' : World) (a : A) :
  on_database c w = (Returned a, w') ->
  c (database w) = (Returned a, database w')
  /\ posted w' = posted w /\ looked_up w' = looked_up w.
Proof.
  unfold on_database. destruct (c (database w)) as [o db].
  intros [= -> <-]. simpl. repeat split.
Qed.

Lemma on_database_raised {A : Type} (c : DB A) (w w' : World) (e : exn) :
  on_database c w = (Raised e, w') ->
  c (database w) = (Raised e, database w')
  /\ posted w' = posted w /\ looked_up w' = looked_up w.
Proof.
  unfold on_database. destruct (c (database w)) as [o db].
  intros [= -> <-]. simpl. repeat split.
Qed.

Lemma cluster_ne_some (c : string) (k : option string) :
  cluster_ne (Some c) k = true <-> k <> Some c.
Proof.
  destruct k as [c'|]; simpl.
  - rewrite negb_true_iff. destruct (String.eqb_spec c c') as [->|Hne].
    + split; [discriminate | intros H; exfalso; apply H; reflexivity].
    + split; [intros _ [= H]; apply Hne; symmetry; exact H | reflexivity].
  - split; [discriminate | reflexivity].
Qed.

Lemma cluster_ne_same (c : string) (k : option string) :
  cluster_ne (Some c) k = false <-> k = Some c.
Proof.
  rewrite <- not_true_iff_false, cluster_ne_some.
  destruct k as [c'|].
  - destruct (String.eqb_spec c' c) as [->|Hne].
    + split; [reflexivity | intros _ H; apply H; reflexivity].
    + split; [intros H; exfalso; apply H; intros [= E]; contradiction
             | intros [= E]; contradiction].
  - split; [intros H; exfalso; apply H; discriminate | discriminate].
Qed.

Section EmissionProperties.

Variable markdown_report : OsmoseCrackerIssue -> outcome string.
Variable espaceco_post : nat -> PostRequest -> http_outcome.
Variable type_signalement : type_signalement_choice.
Variable issuesSignalementTimestamp : datetime.

Lemma post_signalement_returned lon lat message theme sketchcontent w w' v :
  post_signalement espaceco_post lon lat message theme type_signalement sketchcontent w
  = (Returned v, w') ->
  database w' = database w
  /\ posted w' = request_of lon lat message theme type_signalement sketchcontent :: posted w
  /\ looked_up w' = looked_up w
  /\ exists req,
       espaceco_post (List.length (posted w))
         (request_of lon lat message theme type_signalement sketchcontent) = Answered req
       /\ status_code req = 201
       /\ json_field "id" req = Returned v.
Proof.
  intros H.
  pose proof (post_signalement_world espaceco_post lon lat message theme type_signalement
                sketchcontent w) as Hw.
  rewrite H in Hw. simpl in Hw. subst w'. simpl. repeat split.
  unfold post_signalement in H.
  destruct (espaceco_post _ _) as [|req]; [discriminate|].
  destruct (status_code req =? 201) eqn:Hc.
  - destruct (json_field "id" req) as [v'|e] eqn:Hj; [|discriminate].
    injection H as <-. exists req. apply Z.eqb_eq in Hc. repeat split; assumption.
  - destruct (json req); discriminate.
Qed.

Lemma post_signalement_positive lon lat message theme sketchcontent w w' v :
  (forall n req, answers_positive_id (espaceco_post n req) = true) ->
  post_signalement espaceco_post lon lat message theme type_signalement sketchcontent w
  = (Returned v, w') ->
  exists z, v = PyInt z /\ 0 < z.
Proof.
  intros Hpos H. apply post_signalement_returned in H.
  destruct H as (_ & _ & _ & req & Hreq & _ & Hj).
  specialize (Hpos (List.length (posted w))
                (request_of lon lat message theme type_signalement sketchcontent)).
  rewrite Hreq in Hpos. simpl in Hpos. rewrite Hj in Hpos.
  apply andb_true_iff in Hpos. destruct Hpos as [_ Hpos].
  destruct v as [|z|s]; try discriminate.
  exists z. split; [reflexivity | apply Z.ltb_lt; exact Hpos].
Qed.

Lemma emit_or_link_returned issue vars vars' w w' :
  emit_or_link espaceco_post type_signalement issue vars w = (Returned vars', w') ->
  emitted espaceco_post type_signalement issue vars vars' w w'.
Proof.
  unfold emit_or_link. destruct (cluster_id issue) as [c|] eqn:Hc.
  - destruct (cluster_ne (Some c) (var_cluster_id vars)) eqn:Hne.
    + intros H. apply bind_returned in H. destruct H as (v & w1 & Hpost & Hret).
      injection Hret as <- <-. apply cluster_ne_some in Hne.
      apply (emitted_cluster _ _ _ _ _ _ _ c); simpl; auto.
    + apply cluster_ne_same in Hne.
      destruct (var_signalementid vars) as [|z|s] eqn:Hs; try discriminate.
      intros [= <- <-]. apply (emitted_link _ _ _ _ _ _ _ c z); simpl; auto.
  - intros H. apply bind_returned in H. destruct H as (v & w1 & Hpost & Hret).
    injection Hret as <- <-. apply emitted_plain; simpl; auto.
Qed.

(** What a turn that goes through did in [persist_signalement]. *)
Lemma persist_signalement_returned issue v w w' :
  persist_signalement type_signalement issuesSignalementTimestamp issue v w
  = (Returned tt, w') ->
  (v = PyNone /\ w' = w)
  \/ exists z,
       v = PyInt z
       /\ posted w' = posted w /\ looked_up w' = looked_up w
       /\ update_signalement
            (set_espaceco (Some z)
               (if z >? 0 then Some (type_signalement_str type_signalement) else None)
               (Some issuesSignalementTimestamp) issue)
            (database w)
          = (Returned tt, database w').
Proof.
  unfold persist_signalement. destruct v as [|z|s].
  - intros [= <-]. left. split; reflexivity.
  - intros H. apply on_database_returned in H. destruct H as (Hu & Hp & Hl).
    right. exists z. repeat split; assumption.
  - discriminate.
Qed.

Lemma emission_body_returned issue vars vars' w w' :
  emission_body markdown_report espaceco_post type_signalement issuesSignalementTimestamp
    issue vars w = (Returned vars', w') ->
  exists text w1,
    markdown_report issue = Returned text
    /\ emitted espaceco_post type_signalement
         (set_details_descriptionstr text issue) vars vars' w w1
    /\ persist_signalement type_signalement issuesSignalementTimestamp
         (set_details_descriptionstr text issue) (var_signalementid vars') w1
       = (Returned tt, w').
Proof.
  unfold emission_body. intros H.
  apply bind_returned in H. destruct H as (text & w0 & Hmd & H).
  unfold lift in Hmd. injection Hmd as Hmd <-.
  apply bind_returned in H. destruct H as (v1 & w1 & Hemit & H).
  apply bind_returned in H. destruct H as ([] & w2 & Hpersist & H).
  injection H as <- <-.
  exists text, w1. split; [exact Hmd|]. split; [|exact Hpersist].
  apply emit_or_link_returned. exact Hemit.
Qed.

End EmissionProperties.

(** ** Cluster-ordered sequences *)

Lemma is_key_eq (c : string) (k : option string) : is_key c k = true <-> k = Some c.
Proof.
  destruct k as [c'|]; simpl.
  - rewrite String.eqb_eq. split; [intros ->; reflexivity | intros [= ->]; reflexivity].
  - split; discriminate.
Qed.

Lemma skip_run_free (c : string) (l2 l3 : list (option string)) :
  existsb (is_key c) (skip_run c (l2 ++ Some c :: l3)) = false ->
  forall k, In k l2 -> k = Some c.
Proof.
  induction l2 as [|y l2 IH]; simpl; intros H k Hin; [contradiction|].
  destruct (is_key c y) eqn:Hy.
  - destruct Hin as [<-|Hin].
    + apply is_key_eq. exact Hy.
    + apply IH; assumption.
  - exfalso. simpl in H. rewrite Hy in H. simpl in H.
    rewrite existsb_app in H. simpl in H.
    rewrite String.eqb_refl in H. simpl in H.
    rewrite orb_true_r in H. discriminate H.
Qed.

Lemma adjacentb_tail (k : option string) (ks : list (option string)) :
  adjacentb (k :: ks) = true -> adjacentb ks = true.
Proof.
  simpl. destruct k as [c|]; [|auto].
  intros H. apply andb_true_iff in H. apply H.
Qed.

(** Between two occurrences of a key there is nothing but that key. *)
Lemma adjacentb_sound (l1 l2 l3 : list (option string)) (c : string) :
  adjacentb (l1 ++ Some c :: l2 ++ Some c :: l3) = true ->
  forall k, In k l2 -> k = Some c.
Proof.
  induction l1 as [|a l1 IH]; intros H.
  - simpl in H. apply andb_true_iff in H. destruct H as [H _].
    apply negb_true_iff in H. apply (skip_run_free c l2 l3). exact H.
  - apply IH. apply (adjacentb_tail a). exact H.
Qed.

(** In a cluster-ordered sequence, when an issue of cluster [c] follows a
    prefix that already holds an issue of [c], the prefix ends in [c]. *)
Lemma adjacent_last (q rest : list OsmoseCrackerIssue) (y x m : OsmoseCrackerIssue)
    (c : string) :
  adjacentb (map cluster_id ((q ++ [y]) ++ x :: rest)) = true ->
  In m (q ++ [y]) -> cluster_id m = Some c -> cluster_id x = Some c ->
  cluster_id y = Some c.
Proof.
  intros Hadj Hin Hm Hx. apply in_app_or in Hin. destruct Hin as [Hin|[<-|[]]].
  - apply in_split in Hin. destruct Hin as (q1 & q2 & ->).
    apply (adjacentb_sound (map cluster_id q1) (map cluster_id q2 ++ [cluster_id y])
             (map cluster_id rest) c).
    + rewrite <- Hm at 1. rewrite <- Hx.
      repeat (rewrite ?map_app, <- ?app_assoc in Hadj; simpl in Hadj).
      rewrite <- app_assoc. simpl. exact Hadj.
    + apply in_or_app. right. left. reflexivity.
  - exact Hm.
Qed.

Lemma filter_snoc {A : Type} (p : A -> bool) (l : list A) (x : A) :
  filter p (l ++ [x]) = (filter p l ++ if p x then [x] else [])%list.
Proof. rewrite filter_app. reflexivity. Qed.

Lemma in_cluster_eq (c : string) (i : OsmoseCrackerIssue) :
  in_cluster c i = true <-> cluster_id i = Some c.
Proof. unfold in_cluster. apply (is_key_eq c (cluster_id i)). Qed.

Lemma stored_reference_frame (k : string) (db db' : Database) :
  stored k db' = stored k db -> stored_reference k db' = stored_reference k db.
Proof. unfold stored_reference. intros ->. reflexivity. Qed.

(** ** The emission loop *)

Section EmissionLoop.

Variable markdown_report : OsmoseCrackerIssue -> outcome string.
Variable espaceco_post : nat -> PostRequest -> http_outcome.
Variable type_signalement : type_signalement_choice.
Variable issuesSignalementTimestamp : datetime.

Local Abbreviation body :=
  (emission_body markdown_report espaceco_post type_signalement issuesSignalementTimestamp).

(** What a turn that goes through leaves in the table: nothing when the
    id in hand is [None]; otherwise the row of the issue has the id, the
    text of the status and the timestamp of the run, and no other row has
    changed. *)
Lemma emission_body_effect issue vars vars' w w' :
  body issue vars w = (Returned vars', w') ->
  looked_up w' = looked_up w
  /\ match var_signalementid vars' with
     | PyNone => database w' = database w
     | PyInt z =>
         exists r,
           stored (core_id issue) (database w) = Some r
           /\ stored (core_id issue) (database w')
              = Some (set_signalement z
                        (if z >? 0 then type_signalement_str type_signalement else "None")
                        issuesSignalementTimestamp r)
           /\ (forall k, k <> core_id issue ->
                 stored k (database w') = stored k (database w))
     | PyStr _ => False
     end.
Proof.
  intros H. apply emission_body_returned in H.
  destruct H as (text & w1 & _ & Hemit & Hpersist).
  assert (Hw1 : database w1 = database w /\ looked_up w1 = looked_up w).
  { destruct Hemit as [_ _ _ Hpost | c _ _ _ _ Hpost | c z _ _ _ _ _ _ ->].
    - apply post_signalement_returned in Hpost. split; apply Hpost.
    - apply post_signalement_returned in Hpost. split; apply Hpost.
    - split; reflexivity. }
  destruct Hw1 as [Hdb Hlk].
  apply persist_signalement_returned in Hpersist.
  destruct Hpersist as [[-> ->] | (z & -> & _ & Hlk' & Hupd)].
  - split; assumption.
  - split; [congruence|].
    apply update_signalement_returned in Hupd.
    destruct Hupd as (id & ts & r & Hid & Hts & Hr & Hr' & Hframe & _).
    simpl in Hid, Hts, Hr, Hr', Hframe. injection Hid as <-. injection Hts as <-.
    rewrite Hdb in Hr, Hframe. exists r. split; [exact Hr|]. split; [|exact Hframe].
    rewrite Hr'. destruct (z >? 0); reflexivity.
Qed.

(** The three kinds of turn, when every creation call is answered with a
    positive id. *)
Lemma emission_body_step issue vars vars' w w' :
  (forall n req, answers_positive_id (espaceco_post n req) = true) ->
  body issue vars w = (Returned vars', w') ->
  exists z,
    var_signalementid vars' = PyInt z
    /\ stored_reference (core_id issue) (database w') = Some z
    /\ (forall k, k <> core_id issue -> stored k (database w') = stored k (database w))
    /\ ((cluster_id issue = None /\ var_cluster_id vars' = var_cluster_id vars /\ 0 < z)
        \/ (exists c, cluster_id issue = Some c /\ var_cluster_id vars <> Some c
                      /\ var_cluster_id vars' = Some c /\ 0 < z)
        \/ (exists c z0, cluster_id issue = Some c /\ var_cluster_id vars = Some c
                         /\ var_cluster_id vars' = Some c
                         /\ var_signalementid vars = PyInt z0 /\ z = - Z.abs z0)).
Proof.
  intros Hpos H. pose proof (emission_body_effect _ _ _ _ _ H) as [_ Heff].
  apply emission_body_returned in H. destruct H as (text & w1 & _ & Hemit & _).
  assert (Hz : exists z, var_signalementid vars' = PyInt z).
  { destruct Hemit as [_ _ _ Hpost | c _ _ _ _ Hpost | c z _ _ _ _ Hs _ _].
    - destruct (post_signalement_positive _ _ _ _ _ _ _ _ _ _ Hpos Hpost) as (z & Hz & _).
      exists z. exact Hz.
    - destruct (post_signalement_positive _ _ _ _ _ _ _ _ _ _ Hpos Hpost) as (z & Hz & _).
      exists z. exact Hz.
    - eexists. exact Hs. }
  destruct Hz as [z Hz]. rewrite Hz in Heff. destruct Heff as (r & _ & Hr' & Hframe).
  exists z. split; [exact Hz|]. split.
  { unfold stored_reference. rewrite Hr'. reflexivity. }
  split; [exact Hframe|].
  destruct Hemit as [Hc Hv _ Hpost | c Hc Hne Hv _ Hpost | c z0 Hc Hv Hs0 Hv' Hs' _ _].
  - left. simpl in Hc.
    destruct (post_signalement_positive _ _ _ _ _ _ _ _ _ _ Hpos Hpost) as (z' & Hz' & Hlt).
    rewrite Hz in Hz'. injection Hz' as <-. auto.
  - right; left. simpl in Hc. exists c.
    destruct (post_signalement_positive _ _ _ _ _ _ _ _ _ _ Hpos Hpost) as (z' & Hz' & Hlt).
    rewrite Hz in Hz'. injection Hz' as <-. auto.
  - right; right. simpl in Hc. exists c, z0.
    rewrite Hz in Hs'. injection Hs' as ->. auto.
Qed.

Lemma nodup_prefix_key (p rest : list OsmoseCrackerIssue) (x m : OsmoseCrackerIssue) :
  NoDup (map core_id ((p ++ [x]) ++ rest)) -> In m p -> core_id m <> core_id x.
Proof.
  rewrite <- app_assoc. simpl. rewrite map_app. simpl. intros Hnd Hin Heq.
  apply NoDup_remove_2 in Hnd. apply Hnd. apply in_or_app. left.
  rewrite <- Heq. apply in_map. exact Hin.
Qed.

Local Abbreviation initial_vars :=
  {| var_cluster_id := None; var_signalementid := PyNone; var_reportcounter := O |}.

(** The invariant of the loop over a cluster-ordered sequence, after any
    prefix [p] of it: the clusters met so far have their owner and links;
    the cluster in hand has been met; and when [p] ends in a clustered
    issue, the cluster in hand is its cluster and the id in hand is, up to
    sign, the reference stored for the owner. *)
Lemma emission_prefix_invariant (issues : list OsmoseCrackerIssue) (w0 : World) :
  (forall n req, answers_positive_id (espaceco_post n req) = true) ->
  adjacentb (map cluster_id issues) = true ->
  NoDup (map core_id issues) ->
  forall p rest vars w,
    issues = (p ++ rest)%list ->
    for_each body p initial_vars w0 = (Returned vars, w) ->
    (forall c owner others,
        filter (in_cluster c) p = owner :: others ->
        exists r, 0 < r
                  /\ stored_reference (core_id owner) (database w) = Some r
                  /\ forall m, In m others ->
                        stored_reference (core_id m) (database w) = Some (- r))
    /\ (forall c, var_cluster_id vars = Some c ->
                  exists m, In m p /\ cluster_id m = Some c)
    /\ (forall q y c,
           p = (q ++ [y])%list -> cluster_id y = Some c ->
           var_cluster_id vars = Some c
           /\ exists z owner others,
                var_signalementid vars = PyInt z
                /\ filter (in_cluster c) p = owner :: others
                /\ 0 < Z.abs z
                /\ stored_reference (core_id owner) (database w) = Some (Z.abs z)).
Proof.
  intros Hpos Hadj Hnd p. induction p as [|x p IH] using rev_ind;
    intros rest vars w Hsplit Hrun.
  - simpl in Hrun. injection Hrun as <- <-. split; [|split].
    + intros c owner others H. discriminate H.
    + intros c H. discriminate H.
    + intros q y c H. destruct q; discriminate H.
  - rewrite for_each_app in Hrun. apply bind_returned in Hrun.
    destruct Hrun as (vars1 & w1 & Hrun1 & Hstep). rewrite for_each_one in Hstep.
    assert (Hsplit1 : issues = (p ++ x :: rest)%list).
    { rewrite Hsplit, <- app_assoc. reflexivity. }
    destruct (IH (x :: rest) vars1 w1 Hsplit1 Hrun1) as (I1 & I2 & I3).
    destruct (emission_body_step _ _ _ _ _ Hpos Hstep)
      as (z & Hz & Hx & Hframe & Hcases).
    assert (Hkeep : forall m, In m p ->
              stored_reference (core_id m) (database w)
              = stored_reference (core_id m) (database w1)).
    { intros m Hm. apply stored_reference_frame, Hframe.
      rewrite Hsplit in Hnd. apply (nodup_prefix_key p rest x m Hnd Hm). }
    assert (Hold : forall c, in_cluster c x = false ->
              forall owner others,
                filter (in_cluster c) (p ++ [x]) = owner :: others ->
                exists r, 0 < r
                  /\ stored_reference (core_id owner) (database w) = Some r
                  /\ forall m, In m others ->
                        stored_reference (core_id m) (database w) = Some (- r)).
    { intros c Hc owner others Hf. rewrite filter_snoc, Hc, app_nil_r in Hf.
      destruct (I1 c owner others Hf) as (r & Hr & Ho & Hl).
      assert (Hin : forall m, In m (owner :: others) -> In m p).
      { intros m Hm. rewrite <- Hf in Hm. apply filter_In in Hm. apply Hm. }
      exists r. split; [exact Hr|]. split.
      - rewrite Hkeep; [exact Ho | apply Hin; left; reflexivity].
      - intros m Hm. rewrite Hkeep; [apply Hl; exact Hm | apply Hin; right; exact Hm]. }
    assert (Hlast : forall c m, In m p -> cluster_id m = Some c -> cluster_id x = Some c ->
              exists q y, p = (q ++ [y])%list /\ cluster_id y = Some c).
    { intros c m Hm Hmc Hxc. destruct (exists_last (l := p)) as (q & y & Hp).
      - intros ->. contradiction.
      - exists q, y. split; [exact Hp|]. subst p.
        rewrite Hsplit1 in Hadj. apply (adjacent_last q rest y x m c Hadj Hm Hmc Hxc). }
    destruct Hcases as [(Hc & Hv & Hpos_z) | [(c & Hc & Hne & Hv & Hpos_z)
                                             | (c & z0 & Hc & Hv1 & Hv & Hs0 & Hzz)]].
    + (* a plain report *)
      assert (Hout : forall c, in_cluster c x = false).
      { intros c. unfold in_cluster. rewrite Hc. reflexivity. }
      split; [|split].
      * intros c. apply Hold, Hout.
      * intros c Hvc. rewrite Hv in Hvc. destruct (I2 c Hvc) as (m & Hm & Hmc).
        exists m. split; [apply in_or_app; left; exact Hm | exact Hmc].
      * intros q y c Hqy Hyc. apply app_inj_tail in Hqy. destruct Hqy as [_ <-].
        congruence.
    + (* the first report of a cluster *)
      assert (Hfirst : filter (in_cluster c) p = []).
      { destruct (filter (in_cluster c) p) as [|m ms] eqn:Hf; [reflexivity|]. exfalso.
        assert (Hm : In m (filter (in_cluster c) p)) by (rewrite Hf; left; reflexivity).
        apply filter_In in Hm. destruct Hm as [Hm Hmc]. apply in_cluster_eq in Hmc.
        destruct (Hlast c m Hm Hmc Hc) as (q & y & Hp & Hyc).
        destruct (I3 q y c Hp Hyc) as [Hv1 _]. contradiction. }
      assert (Hxin : in_cluster c x = true) by (apply in_cluster_eq; exact Hc).
      split; [|split].
      * intros c' owner others Hf. destruct (in_cluster c' x) eqn:Hc'.
        -- apply in_cluster_eq in Hc'. rewrite Hc in Hc'. injection Hc' as <-.
           rewrite filter_snoc, Hfirst, Hxin in Hf. simpl in Hf.
           injection Hf as <- <-. exists z. split; [exact Hpos_z|]. split; [exact Hx|].
           intros m [].
        -- apply (Hold c' Hc' owner others Hf).
      * intros c' Hvc. rewrite Hv in Hvc. injection Hvc as <-.
        exists x. split; [apply in_or_app; right; left; reflexivity | exact Hc].
      * intros q y c' Hqy Hyc. apply app_inj_tail in Hqy. destruct Hqy as [_ <-].
        rewrite Hc in Hyc. injection Hyc as <-. split; [exact Hv|].
        exists z, x, []. split; [exact Hz|]. split.
        -- rewrite filter_snoc, Hfirst, Hxin. reflexivity.
        -- rewrite Z.abs_eq by lia. split; [exact Hpos_z | exact Hx].
    + (* a link to the report in hand *)
      destruct (I2 c Hv1) as (m & Hm & Hmc).
      destruct (Hlast c m Hm Hmc Hc) as (q & y & Hp & Hyc).
      destruct (I3 q y c Hp Hyc) as (_ & z1 & owner & others & Hs1 & Hf & Habs & Hown).
      rewrite Hs0 in Hs1. injection Hs1 as <-.
      assert (Hxin : in_cluster c x = true) by (apply in_cluster_eq; exact Hc).
      assert (Hownp : In owner p).
      { assert (H : In owner (filter (in_cluster c) p)) by (rewrite Hf; left; reflexivity).
        apply filter_In in H. apply H. }
      destruct (I1 c owner others Hf) as (r & Hr & Ho & Hl).
      assert (Hrz : r = Z.abs z0) by congruence.
      split; [|split].
      * intros c' owner' others' Hf'. destruct (in_cluster c' x) eqn:Hc'.
        -- apply in_cluster_eq in Hc'. rewrite Hc in Hc'. injection Hc' as <-.
           rewrite filter_snoc, Hf, Hxin in Hf'. simpl in Hf'.
           injection Hf' as <- <-. exists r. split; [exact Hr|]. split.
           ++ rewrite Hkeep; [exact Ho | exact Hownp].
           ++ intros m' Hm'. apply in_app_or in Hm'. destruct Hm' as [Hm'|[<-|[]]].
              ** rewrite Hkeep; [apply Hl; exact Hm'|].
                 assert (H : In m' (filter (in_cluster c) p))
                   by (rewrite Hf; right; exact Hm').
                 apply filter_In in H. apply H.
              ** rewrite Hx, Hzz, Hrz. reflexivity.
        -- apply (Hold c' Hc' owner' others' Hf').
      * intros c' Hvc. rewrite Hv in Hvc. injection Hvc as <-.
        exists x. split; [apply in_or_app; right; left; reflexivity | exact Hc].
      * intros q' y' c' Hqy Hyc'. apply app_inj_tail in Hqy. destruct Hqy as [_ <-].
        rewrite Hc in Hyc'. injection Hyc' as <-. split; [exact Hv|].
        exists z, owner, (others ++ [x])%list. split; [exact Hz|]. split.
        -- rewrite filter_snoc, Hf, Hxin. reflexivity.
        -- rewrite Hzz, Z.abs_opp, Z.abs_idemp. split; [exact Habs|].
           rewrite Hkeep; [exact Hown | exact Hownp].
Qed.

End EmissionLoop.

(** C1, as the code has it.  Over a cluster-ordered sequence of distinct
    issues, with a reporting service that answers every creation with a
    positive id, once the emission loop has completed: in every cluster the first member in
    sequence order holds a positive stored reference and every other
    member holds the negation of that reference. *)
Theorem cluster_owner_and_links
    (markdown_report : OsmoseCrackerIssue -> outcome string)
    (espaceco_post : nat -> PostRequest -> http_outcome)
    (type_signalement : type_signalement_choice)
    (issuesSignalementTimestamp : datetime)
    (issues : list OsmoseCrackerIssue) (w0 w : World) (vars : EmissionVars) :
  adjacentb (map cluster_id issues) = true ->
  NoDup (map core_id issues) ->
  (forall n req, answers_positive_id (espaceco_post n req) = true) ->
  emission_loop markdown_report espaceco_post type_signalement
    issuesSignalementTimestamp issues w0 = (Returned vars, w) ->
  forall c owner others,
    filter (in_cluster c) issues = owner :: others ->
    exists r,
      0 < r
      /\ stored_reference (core_id owner) (database w) = Some r
      /\ forall m, In m others -> stored_reference (core_id m) (database w) = Some (- r).
Proof.
  intros Hadj Hnd Hpos Hrun.
  apply (emission_prefix_invariant markdown_report espaceco_post type_signalement
           issuesSignalementTimestamp issues w0 Hpos Hadj Hnd issues [] vars w).
  - symmetry. apply app_nil_r.
  - exact Hrun.
Qed.

Lemma cluster_owner_and_links_witness :
  exists r,
    0 < r
    /\ stored_reference (core_id (sample_issue "a" (Some "K1")))
         (database (snd (emission_loop sample_markdown_report sample_post submit 1000
                           [sample_issue "a" (Some "K1"); sample_issue "b" (Some "K1");
                            sample_issue "s" None]
                           (sample_world [sample_row "a" None None; sample_row "s" None None;
                                          sample_row "b" None None]))))
       = Some r
    /\ forall m, In m [sample_issue "b" (Some "K1")] ->
         stored_reference (core_id m)
           (database (snd (emission_loop sample_markdown_report sample_post submit 1000
                             [sample_issue "a" (Some "K1"); sample_issue "b" (Some "K1");
                              sample_issue "s" None]
                             (sample_world [sample_row "a" None None; sample_row "s" None None;
                                            sample_row "b" None None]))))
         = Some (- r).
Proof.
  apply (cluster_owner_and_links sample_markdown_report sample_post submit 1000
           [sample_issue "a" (Some "K1"); sample_issue "b" (Some "K1"); sample_issue "s" None]
           (sample_world [sample_row "a" None None; sample_row "s" None None;
                          sample_row "b" None None])
           (snd (emission_loop sample_markdown_report sample_post submit 1000
                   [sample_issue "a" (Some "K1"); sample_issue "b" (Some "K1");
                    sample_issue "s" None]
                   (sample_world [sample_row "a" None None; sample_row "s" None None;
                                  sample_row "b" None None])))
           {| var_cluster_id := Some "K1"; var_signalementid := PyInt 102;
              var_reportcounter := 2 |})
    with (c := "K1") (owner := sample_issue "a" (Some "K1"))
         (others := [sample_issue "b" (Some "K1")]).
  - reflexivity.
  - repeat constructor; simpl; intuition discriminate.
  - intros n req. cbn -[Z.add Z.of_nat Z.ltb]. apply Z.ltb_lt. lia.
  - reflexivity.
  - reflexivity.
Defined.

(** C1, counterexample.  Issues a and b bear cluster K1 and the service
    answers the creation with the id 0: the loop completes, a and b are
    both stored with the reference 0, and no member of the cluster holds a
    positive reference.  In a second run the sequence holds issue a twice
    and the service numbers its reports from 101: the loop completes and
    a, the only member of the cluster, is stored with -101. *)
Lemma cluster_owner_counterexample :
  (exists vars w,
      emission_loop sample_markdown_report (constant_post (PyInt 0)) submit 1000
        [sample_issue "a" (Some "K1"); sample_issue "b" (Some "K1")]
        (sample_world [sample_row "a" None None; sample_row "b" None None])
      = (Returned vars, w)
      /\ adjacentb
           (map cluster_id [sample_issue "a" (Some "K1"); sample_issue "b" (Some "K1")])
         = true
      /\ stored_reference "a" (database w) = Some 0
      /\ stored_reference "b" (database w) = Some 0)
  /\ (exists vars w,
         emission_loop sample_markdown_report sample_post submit 1000
           [sample_issue "a" (Some "K1"); sample_issue "a" (Some "K1")]
           (sample_world [sample_row "a" None None])
         = (Returned vars, w)
         /\ adjacentb
              (map cluster_id [sample_issue "a" (Some "K1"); sample_issue "a" (Some "K1")])
            = true
         /\ stored_reference "a" (database w) = Some (-101)).
Proof.
  split; eexists; eexists; repeat split; reflexivity.
Qed.

(** *** A creation answered with an id that is not positive *)

Section NonPositiveId.

Variable markdown_report : OsmoseCrackerIssue -> outcome string.
Variable espaceco_post : nat -> PostRequest -> http_outcome.
Variable type_signalement : type_signalement_choice.
Variable issuesSignalementTimestamp : datetime.

Local Abbreviation body :=
  (emission_body markdown_report espaceco_post type_signalement issuesSignalementTimestamp).

(** A turn that sends a creation request answered 201 with the integer
    [z]: the id in hand becomes [z], whatever its sign. *)
Lemma emit_or_link_created issue vars w req z :
  creates_report issue vars = true ->
  espaceco_post (List.length (posted w))
    (creation_request type_signalement (details_descriptionstr issue) issue) = Answered req ->
  status_code req = 201 ->
  json_field "id" req = Returned (PyInt z) ->
  exists vars' w',
    emit_or_link espaceco_post type_signalement issue vars w = (Returned vars', w')
    /\ var_signalementid vars' = PyInt z
    /\ database w' = database w.
Proof.
  unfold creates_report, creation_request, emit_or_link.
  intros Hcreate Hreply Hcode Hid.
  destruct (cluster_id issue) as [c|].
  - rewrite Hcreate. unfold bind, post_signalement.
    rewrite Hreply, Hcode, Hid. simpl. eexists. eexists.
    split; [reflexivity|]. split; reflexivity.
  - unfold bind, post_signalement.
    rewrite Hreply, Hcode, Hid. simpl. eexists. eexists.
    split; [reflexivity|]. split; reflexivity.
Qed.

End NonPositiveId.

(** C6, as the code has it.  When the creation call of a turn is answered
    201 with an integer id that is zero or negative, the turn does not
    abort: the value becomes the id in hand and is stored as the report
    reference of the issue, with the status text that the code stores for
    a linked issue and the timestamp of the run. *)
Theorem nonpositive_id_is_persisted
    (markdown_report : OsmoseCrackerIssue -> outcome string)
    (espaceco_post : nat -> PostRequest -> http_outcome)
    (type_signalement : type_signalement_choice)
    (issuesSignalementTimestamp : datetime)
    (issue : OsmoseCrackerIssue) (vars : EmissionVars) (w : World)
    (text : string) (req : Response) (z : Z) (r : Row) :
  markdown_report issue = Returned text ->
  creates_report issue vars = true ->
  espaceco_post (List.length (posted w)) (creation_request type_signalement text issue)
    = Answered req ->
  status_code req = 201 ->
  json_field "id" req = Returned (PyInt z) ->
  z <= 0 ->
  db_valid (database w) = true ->
  has_apostrophe (core_id issue) = false ->
  stored (core_id issue) (database w) = Some r ->
  exists vars' w',
    emission_body markdown_report espaceco_post type_signalement
      issuesSignalementTimestamp issue vars w = (Returned vars', w')
    /\ var_signalementid vars' = PyInt z
    /\ stored (core_id issue) (database w')
       = Some (set_signalement z "None" issuesSignalementTimestamp r).
Proof.
  intros Hmd Hcreate Hreply Hcode Hid Hz Hvalid Hkey Hrow.
  destruct (emit_or_link_created espaceco_post type_signalement
              (set_details_descriptionstr text issue) vars w req z
              Hcreate Hreply Hcode Hid) as (vars' & w1 & Hemit & Hs & Hdb).
  assert (Hneg : (z >? 0) = false) by (rewrite Z.gtb_ltb; apply Z.ltb_ge; exact Hz).
  destruct (update_signalement_succeeds
              (set_espaceco (Some z) None (Some issuesSignalementTimestamp)
                 (set_details_descriptionstr text issue))
              (database w1) z issuesSignalementTimestamp r) as [db' Hupd];
    try reflexivity; try (rewrite Hdb; assumption); try assumption.
  exists vars',
    {| database := db'; posted := posted w1; looked_up := looked_up w1 |}.
  split; [|split].
  - unfold emission_body, lift. unfold bind at 1. rewrite Hmd.
    unfold bind at 1. rewrite Hemit. unfold bind at 1.
    rewrite Hs. unfold persist_signalement. rewrite Hneg.
    unfold on_database. rewrite Hupd. reflexivity.
  - exact Hs.
  - apply update_signalement_returned in Hupd.
    destruct Hupd as (id & ts & r0 & Hid' & Hts & Hr0 & Hr' & _).
    simpl in Hid', Hts, Hr0, Hr'. injection Hid' as <-. injection Hts as <-.
    rewrite Hdb, Hrow in Hr0. injection Hr0 as <-. exact Hr'.
Qed.

Lemma nonpositive_id_is_persisted_witness :
  exists vars' w',
    emission_body sample_markdown_report (constant_post (PyInt (-7))) submit 1000
      (sample_issue "a" None)
      {| var_cluster_id := None; var_signalementid := PyNone; var_reportcounter := O |}
      (sample_world [sample_row "a" None None]) = (Returned vars', w')
    /\ var_signalementid vars' = PyInt (-7)
    /\ stored (core_id (sample_issue "a" None)) (database w')
       = Some (set_signalement (-7) "None" 1000 (sample_row "a" None None)).
Proof.
  apply (nonpositive_id_is_persisted sample_markdown_report (constant_post (PyInt (-7)))
           submit 1000 (sample_issue "a" None)
           {| var_cluster_id := None; var_signalementid := PyNone; var_reportcounter := O |}
           (sample_world [sample_row "a" None None])
           "ROBOT_OSMOSECRACKER"
           {| status_code := 201; json := Some (JsonObject [("id", PyInt (-7))]) |}
           (-7) (sample_row "a" None None)).
  - reflexivity.
  - reflexivity.
  - reflexivity.
  - reflexivity.
  - reflexivity.
  - lia.
  - reflexivity.
  - reflexivity.
  - reflexivity.
Defined.

(** C6, counterexample.  The service answers a creation with the id 0,
    and in a second run with the id -7: each run completes without raising
    and the value is stored as the report reference of the issue. *)
Lemma nonpositive_id_counterexample :
  (exists vars w,
      emission_loop sample_markdown_report (constant_post (PyInt 0)) submit 1000
        [sample_issue "a" None] (sample_world [sample_row "a" None None])
      = (Returned vars, w)
      /\ stored_reference "a" (database w) = Some 0)
  /\ (exists vars w,
         emission_loop sample_markdown_report (constant_post (PyInt (-7))) submit 1000
           [sample_issue "a" None] (sample_world [sample_row "a" None None])
         = (Returned vars, w)
         /\ stored_reference "a" (database w) = Some (-7)).
Proof.
  split; eexists; eexists; split; reflexivity.
Qed.

(** *** A plain issue between two issues of one cluster *)

(** C2, as the code has it.  A turn on an issue without cluster leaves the
    cluster in hand as it was.  When the next issue bears that cluster,
    the two turns send one creation request, the one of the plain issue,
    and the next issue is stored with the negated absolute value of the
    reference stored for the plain issue. *)
Theorem plain_issue_keeps_cluster_in_hand
    (markdown_report : OsmoseCrackerIssue -> outcome string)
    (espaceco_post : nat -> PostRequest -> http_outcome)
    (type_signalement : type_signalement_choice)
    (issuesSignalementTimestamp : datetime)
    (plain next : OsmoseCrackerIssue) (c : string)
    (vars vars2 : EmissionVars) (w w2 : World) :
  cluster_id plain = None ->
  cluster_id next = Some c ->
  var_cluster_id vars = Some c ->
  for_each (emission_body markdown_report espaceco_post type_signalement
              issuesSignalementTimestamp) [plain; next] vars w = (Returned vars2, w2) ->
  exists vars1 w1 z,
    emission_body markdown_report espaceco_post type_signalement
      issuesSignalementTimestamp plain vars w = (Returned vars1, w1)
    /\ var_cluster_id vars1 = Some c
    /\ var_signalementid vars1 = PyInt z
    /\ stored_reference (core_id plain) (database w1) = Some z
    /\ List.length (posted w1) = S (List.length (posted w))
    /\ posted w2 = posted w1
    /\ var_signalementid vars2 = PyInt (- Z.abs z)
    /\ stored_reference (core_id next) (database w2) = Some (- Z.abs z).
Proof.
  intros Hplain Hnext Hvars Hrun.
  change [plain; next] with ([plain] ++ [next])%list in Hrun.
  rewrite for_each_app in Hrun. apply bind_returned in Hrun.
  destruct Hrun as (vars1 & w1 & H1 & H2). rewrite for_each_one in H1, H2.
  pose proof (emission_body_effect _ _ _ _ _ _ _ _ _ H2) as [_ Heff].
  pose proof (emission_body_effect _ _ _ _ _ _ _ _ _ H1) as [_ Heff1].
  pose proof H1 as H1'. pose proof H2 as H2'.
  apply emission_body_returned in H1'. destruct H1' as (t1 & wa & _ & He1 & Hp1).
  apply emission_body_returned in H2'. destruct H2' as (t2 & wb & _ & He2 & Hp2).
  assert (Hv1 : var_cluster_id vars1 = Some c
                /\ List.length (posted w1) = S (List.length (posted w))).
  { destruct He1 as [_ Hv _ Hpost | c' Hc' _ _ _ _ | c' z' Hc' _ _ _ _ _ _];
      simpl in *; try congruence.
    split; [congruence|].
    apply post_signalement_returned in Hpost. destruct Hpost as (_ & Hposted & _).
    apply persist_signalement_returned in Hp1.
    destruct Hp1 as [[_ ->] | (z' & _ & Hp & _)].
    - rewrite Hposted. reflexivity.
    - rewrite Hp, Hposted. reflexivity. }
  destruct Hv1 as [Hv1 Hlen].
  destruct He2 as [Hc' _ _ _ | c' Hc' Hne _ _ _ | c' z Hc' _ Hs1 _ Hs2 _ ->];
    simpl in *; try congruence.
  exists vars1, w1, z. repeat split; try assumption.
  - rewrite Hs1 in Heff1. destruct Heff1 as (r & _ & Hr & _).
    unfold stored_reference. rewrite Hr. reflexivity.
  - apply persist_signalement_returned in Hp2.
    destruct Hp2 as [[_ ->] | (z' & _ & Hp & _)]; [reflexivity | exact Hp].
  - rewrite Hs2 in Heff. destruct Heff as (r & _ & Hr & _).
    unfold stored_reference. rewrite Hr. reflexivity.
Qed.

Lemma plain_issue_keeps_cluster_in_hand_witness :
  let vars :=
    {| var_cluster_id := Some "K1"; var_signalementid := PyInt 101;
       var_reportcounter := 1 |} in
  let w :=
    snd (emission_loop sample_markdown_report sample_post submit 1000
           [sample_issue "a" (Some "K1")]
           (sample_world [sample_row "a" None None; sample_row "s" None None;
                          sample_row "b" None None])) in
  let w2 :=
    snd (for_each (emission_body sample_markdown_report sample_post submit 1000)
           [sample_issue "s" None; sample_issue "b" (Some "K1")] vars w) in
  exists vars1 w1 z,
    emission_body sample_markdown_report sample_post submit 1000
      (sample_issue "s" None) vars w = (Returned vars1, w1)
    /\ var_cluster_id vars1 = Some "K1"
    /\ var_signalementid vars1 = PyInt z
    /\ stored_reference (core_id (sample_issue "s" None)) (database w1) = Some z
    /\ List.length (posted w1) = S (List.length (posted w))
    /\ posted w2 = posted w1
    /\ PyInt (-102) = PyInt (- Z.abs z)
    /\ stored_reference (core_id (sample_issue "b" (Some "K1"))) (database w2)
       = Some (- Z.abs z).
Proof.
  intros vars w w2.
  apply (plain_issue_keeps_cluster_in_hand sample_markdown_report sample_post submit 1000
           (sample_issue "s" None) (sample_issue "b" (Some "K1")) "K1"
           vars
           {| var_cluster_id := Some "K1"; var_signalementid := PyInt (-102);
              var_reportcounter := 2 |}
           w w2).
  - reflexivity.
  - reflexivity.
  - reflexivity.
  - reflexivity.
Defined.

(** C2, counterexample.  Issues a and b bear cluster K1, the plain issue
    s comes between them, the service numbers its reports 101, 102: the
    run sends two creation requests, not three, and b is stored with -102,
    the negation of the id of the report of s, not with a positive id. *)
Lemma plain_issue_counterexample :
  exists vars w,
    emission_loop sample_markdown_report sample_post submit 1000
      [sample_issue "a" (Some "K1"); sample_issue "s" None; sample_issue "b" (Some "K1")]
      (sample_world [sample_row "a" None None; sample_row "s" None None;
                     sample_row "b" None None])
    = (Returned vars, w)
    /\ List.length (posted w) = 2%nat
    /\ stored_reference "a" (database w) = Some 101
    /\ stored_reference "s" (database w) = Some 102
    /\ stored_reference "b" (database w) = Some (-102)
    /\ var_cluster_id vars = Some "K1".
Proof.
  eexists. eexists. repeat split; reflexivity.
Qed.

(** *** The columns written by a run *)

Section PersistedColumns.

Variable markdown_report : OsmoseCrackerIssue -> outcome string.
Variable espaceco_post : nat -> PostRequest -> http_outcome.
Variable type_signalement : type_signalement_choice.
Variable issuesSignalementTimestamp : datetime.

Local Abbreviation body :=
  (emission_body markdown_report espaceco_post type_signalement issuesSignalementTimestamp).

(** After a run over distinct issues, the row of each issue is either as
    it was, or holds an integer id, the one timestamp of the run, and as
    status the text of the mode when the id is positive and the text
    ['None'] otherwise.  Rows of other keys are as they were. *)
Lemma emission_loop_persisted (issues : list OsmoseCrackerIssue)
    (vars0 : EmissionVars) (w0 : World) :
  NoDup (map core_id issues) ->
  forall p rest vars w,
    issues = (p ++ rest)%list ->
    for_each body p vars0 w0 = (Returned vars, w) ->
    (forall k, ~ In k (map core_id p) ->
       stored k (database w) = stored k (database w0))
    /\ forall m, In m p ->
         stored (core_id m) (database w) = stored (core_id m) (database w0)
         \/ exists z r,
              stored (core_id m) (database w0) = Some r
              /\ stored (core_id m) (database w)
                 = Some (set_signalement z
                           (if z >? 0 then type_signalement_str type_signalement
                            else "None")
                           issuesSignalementTimestamp r).
Proof.
  intros Hnd p. induction p as [|x p IH] using rev_ind; intros rest vars w Hsplit Hrun.
  - simpl in Hrun. injection Hrun as <- <-. split; [reflexivity | intros m []].
  - rewrite for_each_app in Hrun. apply bind_returned in Hrun.
    destruct Hrun as (vars1 & w1 & Hrun1 & Hstep). rewrite for_each_one in Hstep.
    assert (Hsplit1 : issues = (p ++ x :: rest)%list).
    { rewrite Hsplit, <- app_assoc. reflexivity. }
    destruct (IH (x :: rest) vars1 w1 Hsplit1 Hrun1) as (Hframe1 & Hp).
    pose proof (emission_body_effect _ _ _ _ _ _ _ _ _ Hstep) as [_ Heff].
    assert (Hxp : ~ In (core_id x) (map core_id p)).
    { intros Hin. apply in_map_iff in Hin. destruct Hin as (m & Hm & Hmp).
      rewrite Hsplit in Hnd. apply (nodup_prefix_key p rest x m Hnd Hmp Hm). }
    assert (Hstepframe : forall k, k <> core_id x ->
              stored k (database w) = stored k (database w1)).
    { intros k Hk. destruct (var_signalementid vars) as [|z|s].
      - rewrite Heff. reflexivity.
      - destruct Heff as (r & _ & _ & Hf). apply Hf. exact Hk.
      - contradiction. }
    split.
    + intros k Hk. rewrite map_app in Hk. simpl in Hk.
      rewrite Hstepframe.
      * apply Hframe1. intros Hin. apply Hk. apply in_or_app. left. exact Hin.
      * intros ->. apply Hk. apply in_or_app. right. left. reflexivity.
    + intros m Hm. apply in_app_or in Hm. destruct Hm as [Hm|[<-|[]]].
      * rewrite Hstepframe; [apply Hp; exact Hm|].
        rewrite Hsplit in Hnd. apply (nodup_prefix_key p rest x m Hnd Hm).
      * destruct (var_signalementid vars) as [|z|s].
        -- left. rewrite Heff. apply Hframe1. exact Hxp.
        -- right. destruct Heff as (r & Hr & Hr' & _). exists z, r.
           split; [|exact Hr']. rewrite <- Hr. symmetry. apply Hframe1. exact Hxp.
        -- contradiction.
Qed.

End PersistedColumns.

(** C5, at a failing input.  Issues a and b bear cluster K1 and the run is
    in mode submit with timestamp 1000.  Both rows receive the timestamp
    1000 and a has the status "submit"; b, stored with the negative
    reference -101, has as status the four-letter text "None", not NULL. *)
Theorem linked_issue_status_is_text
    (w0 := sample_world [sample_row "a" None None; sample_row "b" None None])
    (run := emission_loop sample_markdown_report sample_post submit 1000
              [sample_issue "a" (Some "K1"); sample_issue "b" (Some "K1")] w0) :
  (exists vars, fst run = Returned vars)
  /\ stored_reference "a" (database (snd run)) = Some 101
  /\ stored_status "a" (database (snd run)) = Some "submit"
  /\ stored_timestamp "a" (database (snd run)) = Some 1000
  /\ stored_reference "b" (database (snd run)) = Some (-101)
  /\ stored_timestamp "b" (database (snd run)) = Some 1000
  /\ stored_status "b" (database (snd run)) = Some "None"
  /\ stored_status "b" (database (snd run)) <> None.
Proof.
  repeat split; try reflexivity.
  - eexists. reflexivity.
  - discriminate.
Qed.

(** ** The status refresh loop *)

Section RefreshProperties.

Variable espaceco_get : nat -> option Z -> http_outcome.
Variable issuesStatusrefreshTimestamp : datetime.

Local Abbreviation turn := (refresh_body espaceco_get issuesStatusrefreshTimestamp).

(** The world once the lookup of a turn has been sent. *)
Local Abbreviation asked obj w :=
  {| database := database w;
     posted := posted w;
     looked_up := espaceco_signalement_id obj :: looked_up w |}.

Lemma refresh_body_unfold (obj_select : OsmoseCrackerIssue) (w : World) :
  turn obj_select tt w
  = match status_of_reply
            (espaceco_get (List.length (looked_up w)) (espaceco_signalement_id obj_select)) with
    | Raised e => (Raised e, asked obj_select w)
    | Returned status =>
        if is_not_none status
        then on_database
               (update_signalement
                  (set_espaceco (espaceco_signalement_id obj_select)
                     (Some (py_str status)) (Some issuesStatusrefreshTimestamp) obj_select))
               (asked obj_select w)
        else (Returned tt, asked obj_select w)
    end.
Proof.
  unfold refresh_body, bind, get_status_signalement.
  destruct (status_of_reply _) as [status|e]; [|reflexivity].
  destruct (is_not_none status); reflexivity.
Qed.

Lemma refresh_body_looked_up (obj_select : OsmoseCrackerIssue) (w : World) :
  looked_up (snd (turn obj_select tt w))
  = espaceco_signalement_id obj_select :: looked_up w.
Proof.
  rewrite refresh_body_unfold.
  destruct (status_of_reply _) as [status|e]; [|reflexivity].
  destruct (is_not_none status); [|reflexivity].
  unfold on_database. destruct (update_signalement _ _). reflexivity.
Qed.

Lemma refresh_loop_looked_up (issues : list OsmoseCrackerIssue) (w w' : World) :
  refresh_loop espaceco_get issuesStatusrefreshTimestamp issues w = (Returned tt, w') ->
  looked_up w' = (rev (map espaceco_signalement_id issues) ++ looked_up w)%list.
Proof.
  unfold refresh_loop. revert w. induction issues as [|obj issues IH]; intros w H.
  - injection H as <-. reflexivity.
  - simpl in H. apply bind_returned in H. destruct H as ([] & w1 & Hturn & Hrest).
    rewrite (IH w1 Hrest). simpl. rewrite <- app_assoc. simpl.
    pose proof (refresh_body_looked_up obj w) as Hl. rewrite Hturn in Hl.
    simpl in Hl. rewrite Hl. reflexivity.
Qed.

End RefreshProperties.

(** C3, as the code has it.  When the status refresh completes, the ids
    passed to the status lookup are, in order, the report references of
    the selected rows exactly as the deserialiser loads them: the stored
    integer with its sign, or [None] for a reference that is NULL or 0.
    No absolute value is taken. *)
Theorem status_lookup_argument
    (espaceco_get : nat -> option Z -> http_outcome) (now : datetime) (w w' : World) :
  status_refresh espaceco_get now w = (Returned tt, w') ->
  looked_up w'
  = (rev (map (fun r => int_if_truthy (col_espaceco_signalement_id r))
            (filter where_unclosed (osmoseissue (database w))))
     ++ looked_up w)%list.
Proof.
  unfold status_refresh. intros H. apply bind_returned in H.
  destruct H as (issues & w1 & Hsel & Hloop).
  apply on_database_returned in Hsel. destruct Hsel as (Hsel & _ & Hl).
  unfold get_issues_by_espacecosignalements_unclosed, select_issues in Hsel.
  destruct (db_valid (database w)); [|discriminate].
  injection Hsel as <- _.
  apply refresh_loop_looked_up in Hloop. rewrite Hloop, Hl, map_map. reflexivity.
Qed.

Lemma status_lookup_argument_witness :
  looked_up
    (snd (status_refresh (constant_get {| status_code := 404; json := None |}) 2000
            (sample_world [sample_row "a" (Some 101) (Some "submit");
                           sample_row "b" (Some (-101)) (Some "None")])))
  = (rev (map (fun r => int_if_truthy (col_espaceco_signalement_id r))
            (filter where_unclosed
               (osmoseissue
                  (database (sample_world [sample_row "a" (Some 101) (Some "submit");
                                           sample_row "b" (Some (-101)) (Some "None")])))))
     ++ looked_up (sample_world [sample_row "a" (Some 101) (Some "submit");
                                 sample_row "b" (Some (-101)) (Some "None")]))%list.
Proof.
  apply (status_lookup_argument (constant_get {| status_code := 404; json := None |}) 2000
           (sample_world [sample_row "a" (Some 101) (Some "submit");
                          sample_row "b" (Some (-101)) (Some "None")])).
  reflexivity.
Defined.

(** C3, counterexample.  The table is the one an emission run leaves for a
    cluster of two: a owns report 101, b is linked with -101 and the
    status text 'None'.  The refresh selects both rows and asks for the
    status of 101 and then of -101; the specification words the second
    request as a request for 101. *)
Lemma status_lookup_counterexample :
  let rows := [sample_row "a" (Some 101) (Some "submit");
               sample_row "b" (Some (-101)) (Some "None")] in
  let run := status_refresh (constant_get {| status_code := 404; json := None |}) 2000
               (sample_world rows) in
  fst run = Returned tt
  /\ rev (looked_up (snd run)) = [Some 101; Some (-101)]
  /\ map lookup_argument_as_specified (filter where_unclosed rows) = [Some 101; Some 101]
  /\ rev (looked_up (snd run))
     <> map lookup_argument_as_specified (filter where_unclosed rows).
Proof.
  simpl. repeat split. discriminate.
Qed.

Lemma is_some_true {A : Type} (o : option A) : is_some o = true -> exists a, o = Some a.
Proof. destruct o as [a|]; [exists a; reflexivity | discriminate]. Qed.

(** A turn of the status refresh whose lookup returns [None] goes through
    and writes nothing.  A turn whose lookup returns a status goes through
    when [update_signalement] accepts it, and then stores that status and
    the timestamp of the refresh in the row of the issue, keeps the
    reference of the row, and leaves every other row as it was. *)
Lemma status_refresh_turn
    (espaceco_get : nat -> option Z -> http_outcome)
    (issuesStatusrefreshTimestamp : datetime)
    (obj_select : OsmoseCrackerIssue) (w : World) (status : pyval) :
  status_of_reply
    (espaceco_get (List.length (looked_up w)) (espaceco_signalement_id obj_select))
  = Returned status ->
  storable status obj_select (database w) = true ->
  exists w',
    refresh_body espaceco_get issuesStatusrefreshTimestamp obj_select tt w = (Returned tt, w')
    /\ match status with
       | PyNone => database w' = database w
       | _ =>
           exists z r,
             espaceco_signalement_id obj_select = Some z
             /\ stored (core_id obj_select) (database w) = Some r
             /\ stored (core_id obj_select) (database w')
                = Some (set_signalement z (py_str status) issuesStatusrefreshTimestamp r)
             /\ forall k, k <> core_id obj_select ->
                  stored k (database w') = stored k (database w)
       end.
Proof.
  intros Hreply Hok. rewrite refresh_body_unfold, Hreply.
  assert (Hsome : is_not_none status = true ->
            exists w',
              on_database
                (update_signalement
                   (set_espaceco (espaceco_signalement_id obj_select)
                      (Some (py_str status)) (Some issuesStatusrefreshTimestamp) obj_select))
                {| database := database w;
                   posted := posted w;
                   looked_up := espaceco_signalement_id obj_select :: looked_up w |}
              = (Returned tt, w')
              /\ exists z r,
                   espaceco_signalement_id obj_select = Some z
                   /\ stored (core_id obj_select) (database w) = Some r
                   /\ stored (core_id obj_select) (database w')
                      = Some (set_signalement z (py_str status)
                                issuesStatusrefreshTimestamp r)
                   /\ forall k, k <> core_id obj_select ->
                        stored k (database w') = stored k (database w)).
  { intros Hnn.
    assert (Hall : db_valid (database w)
                   && is_some (espaceco_signalement_id obj_select)
                   && negb (has_apostrophe (py_str status))
                   && negb (has_apostrophe (core_id obj_select))
                   && is_some (stored (core_id obj_select) (database w)) = true).
    { destruct status; [discriminate Hnn | exact Hok | exact Hok]. }
    repeat rewrite andb_true_iff in Hall.
    destruct Hall as [[[[Hv Hid] Hs] Hk] Hr].
    apply is_some_true in Hid. destruct Hid as [z Hid].
    apply is_some_true in Hr. destruct Hr as [r Hr].
    apply negb_true_iff in Hs. apply negb_true_iff in Hk.
    destruct (update_signalement_succeeds
                (set_espaceco (espaceco_signalement_id obj_select)
                   (Some (py_str status)) (Some issuesStatusrefreshTimestamp) obj_select)
                (database w) z issuesStatusrefreshTimestamp r) as [db' Hupd];
      try assumption; try reflexivity.
    exists {| database := db';
              posted := posted w;
              looked_up := espaceco_signalement_id obj_select :: looked_up w |}.
    split.
    - unfold on_database. simpl. rewrite Hupd. reflexivity.
    - apply update_signalement_returned in Hupd.
      destruct Hupd as (id & ts & r0 & Hid' & Hts & Hr0 & Hr' & Hframe & _).
      simpl in Hid', Hts, Hr0, Hr', Hframe.
      rewrite Hid in Hid'. injection Hid' as <-. injection Hts as <-.
      rewrite Hr in Hr0. injection Hr0 as <-.
      exists z, r. repeat split; assumption. }
  destruct status as [|n|s]; simpl.
  - eexists. split; reflexivity.
  - apply Hsome. reflexivity.
  - apply Hsome. reflexivity.
Qed.

Example status_refresh_turn_example :
  exists w',
    refresh_body
      (constant_get {| status_code := 200; json := Some (JsonObject [("status", PyStr "valid")]) |})
      2000 (_issue_row_to_issue_instance (sample_row "a" (Some 101) (Some "submit"))) tt
      (sample_world [sample_row "a" (Some 101) (Some "submit")])
    = (Returned tt, w')
    /\ exists z r,
         espaceco_signalement_id
           (_issue_row_to_issue_instance (sample_row "a" (Some 101) (Some "submit")))
         = Some z
         /\ stored
              (core_id (_issue_row_to_issue_instance (sample_row "a" (Some 101) (Some "submit"))))
              (database (sample_world [sample_row "a" (Some 101) (Some "submit")]))
            = Some r
         /\ stored
              (core_id (_issue_row_to_issue_instance (sample_row "a" (Some 101) (Some "submit"))))
              (database w')
            = Some (set_signalement z (py_str (PyStr "valid")) 2000 r)
         /\ forall k,
              k <> core_id
                     (_issue_row_to_issue_instance (sample_row "a" (Some 101) (Some "submit"))) ->
              stored k (database w')
              = stored k (database (sample_world [sample_row "a" (Some 101) (Some "submit")])).
Proof.
  apply (status_refresh_turn
           (constant_get
              {| status_code := 200; json := Some (JsonObject [("status", PyStr "valid")]) |})
           2000 (_issue_row_to_issue_instance (sample_row "a" (Some 101) (Some "submit")))
           (sample_world [sample_row "a" (Some 101) (Some "submit")])
           (PyStr "valid")).
  - reflexivity.
  - reflexivity.
Qed.

(** A lookup miss: the turn returns and the table is the table before. *)
Example status_refresh_miss :
  refresh_body (constant_get {| status_code := 404; json := None |}) 2000
    (_issue_row_to_issue_instance (sample_row "a" (Some 101) (Some "submit"))) tt
    (sample_world [sample_row "a" (Some 101) (Some "submit")])
  = (Returned tt,
     {| database := database (sample_world [sample_row "a" (Some 101) (Some "submit")]);
        posted := [];
        looked_up := [Some 101] |}).
Proof. reflexivity. Qed.

(** ** The status refresh, issue by issue *)

Lemma nodup_map_filter {A B : Type} (g : A -> B) (f : A -> bool) (l : list A) :
  NoDup (map g l) -> NoDup (map g (filter f l)).
Proof.
  induction l as [|a l IH]; simpl; intros Hnd; [constructor|].
  inversion Hnd as [|x xs Hnotin Hnd']; subst.
  destruct (f a); simpl.
  - constructor; [|apply IH; exact Hnd'].
    intros Hin. apply Hnotin. apply in_map_iff in Hin. destruct Hin as (b & Hb & Hbin).
    apply filter_In in Hbin. rewrite <- Hb. apply in_map. apply Hbin.
  - apply IH. exact Hnd'.
Qed.

(** Under the UNIQUE constraint on [core_id], the row stored under the key
    of a row of the table is that row. *)
Lemma stored_unique (db : Database) (r : Row) :
  NoDup (map col_core_id (osmoseissue db)) -> In r (osmoseissue db) ->
  stored (col_core_id r) db = Some r.
Proof.
  unfold stored. induction (osmoseissue db) as [|x rows IH]; intros Hnd Hin; [contradiction|].
  inversion Hnd as [|k ks Hnotin Hnd']; subst. simpl.
  destruct (String.eqb_spec (col_core_id x) (col_core_id r)) as [Heq|Hne].
  - destruct Hin as [->|Hin]; [reflexivity|].
    exfalso. apply Hnotin. rewrite Heq. apply in_map. exact Hin.
  - destruct Hin as [->|Hin]; [contradiction|]. apply IH; assumption.
Qed.

Section RefreshLoop.

Variable espaceco_get : nat -> option Z -> http_outcome.
Variable issuesStatusrefreshTimestamp : datetime.

(** What a turn that goes through leaves in the table. *)
Lemma refresh_body_effect (obj_select : OsmoseCrackerIssue) (w w' : World) :
  refresh_body espaceco_get issuesStatusrefreshTimestamp obj_select tt w = (Returned tt, w') ->
  looked_up w' = espaceco_signalement_id obj_select :: looked_up w
  /\ match status_of_reply
             (espaceco_get (List.length (looked_up w))
                (espaceco_signalement_id obj_select)) with
     | Returned PyNone => database w' = database w
     | Returned status =>
         exists z r,
           espaceco_signalement_id obj_select = Some z
           /\ stored (core_id obj_select) (database w) = Some r
           /\ stored (core_id obj_select) (database w')
              = Some (set_signalement z (py_str status) issuesStatusrefreshTimestamp r)
           /\ forall k, k <> core_id obj_select ->
                stored k (database w') = stored k (database w)
     | Raised _ => False
     end.
Proof.
  intros H. split.
  { pose proof (refresh_body_looked_up espaceco_get issuesStatusrefreshTimestamp
                  obj_select w) as Hl.
    rewrite H in Hl. exact Hl. }
  rewrite refresh_body_unfold in H.
  destruct (status_of_reply _) as [status|e]; [|discriminate].
  assert (Hwrite : is_not_none status = true ->
            exists z r,
              espaceco_signalement_id obj_select = Some z
              /\ stored (core_id obj_select) (database w) = Some r
              /\ stored (core_id obj_select) (database w')
                 = Some (set_signalement z (py_str status) issuesStatusrefreshTimestamp r)
              /\ forall k, k <> core_id obj_select ->
                   stored k (database w') = stored k (database w)).
  { intros Hnn. rewrite Hnn in H. apply on_database_returned in H.
    destruct H as (Hupd & _ & _). simpl in Hupd.
    apply update_signalement_returned in Hupd.
    destruct Hupd as (id & ts & r & Hid & Hts & Hr & Hr' & Hframe & _).
    simpl in Hid, Hts, Hr, Hr', Hframe. injection Hts as <-.
    exists id, r. repeat split; assumption. }
  destruct status as [|n|s].
  - simpl in H. injection H as <-. reflexivity.
  - apply Hwrite. reflexivity.
  - apply Hwrite. reflexivity.
Qed.

Lemma refresh_body_frame (obj_select : OsmoseCrackerIssue) (w w' : World) (k : string) :
  refresh_body espaceco_get issuesStatusrefreshTimestamp obj_select tt w = (Returned tt, w') ->
  k <> core_id obj_select ->
  stored k (database w') = stored k (database w).
Proof.
  intros H Hk. apply refresh_body_effect in H. destruct H as [_ H].
  destruct (status_of_reply _) as [[|n|s]|e].
  - rewrite H. reflexivity.
  - destruct H as (z & r & _ & _ & _ & Hf). apply Hf. exact Hk.
  - destruct H as (z & r & _ & _ & _ & Hf). apply Hf. exact Hk.
  - contradiction.
Qed.

(** The whole loop over issues of distinct keys: the rows of the other
    keys are as they were; the row of the i-th issue is as it was when its
    lookup returned [None], and holds the status returned and the
    timestamp of the refresh otherwise. *)
Lemma refresh_loop_effect (issues : list OsmoseCrackerIssue) :
  NoDup (map core_id issues) ->
  forall w w',
    refresh_loop espaceco_get issuesStatusrefreshTimestamp issues w = (Returned tt, w') ->
    (forall k, ~ In k (map core_id issues) ->
       stored k (database w') = stored k (database w))
    /\ forall i obj_select,
         nth_error issues i = Some obj_select ->
         match status_of_reply
                 (espaceco_get (List.length (looked_up w) + i)%nat
                    (espaceco_signalement_id obj_select)) with
         | Returned PyNone =>
             stored (core_id obj_select) (database w')
             = stored (core_id obj_select) (database w)
         | Returned status =>
             exists z r,
               espaceco_signalement_id obj_select = Some z
               /\ stored (core_id obj_select) (database w) = Some r
               /\ stored (core_id obj_select) (database w')
                  = Some (set_signalement z (py_str status)
                            issuesStatusrefreshTimestamp r)
         | Raised _ => False
         end.
Proof.
  unfold refresh_loop.
  induction issues as [|obj issues IH]; intros Hnd w w' Hrun.
  - simpl in Hrun. injection Hrun as <-. split; [reflexivity|].
    intros i o Hi. destruct i; discriminate Hi.
  - simpl in Hrun. apply bind_returned in Hrun.
    destruct Hrun as ([] & w1 & Hturn & Hrest).
    inversion Hnd as [|k ks Hnotin Hnd']; subst.
    destruct (IH Hnd' w1 w' Hrest) as (Hframe & Hmembers).
    pose proof (refresh_body_effect obj w w1 Hturn) as [Hlog Heff].
    split.
    + intros k Hk. simpl in Hk. rewrite Hframe.
      * apply (refresh_body_frame obj w w1 k Hturn). intros ->. apply Hk. left. reflexivity.
      * intros Hin. apply Hk. right. exact Hin.
    + intros i o Hi. destruct i as [|j].
      * simpl in Hi. injection Hi as <-. rewrite Nat.add_0_r.
        rewrite (Hframe (core_id obj) Hnotin).
        destruct (status_of_reply _) as [[|n|s]|e].
        -- rewrite Heff. reflexivity.
        -- destruct Heff as (z & r & Hz & Hr & Hr' & _). exists z, r. auto.
        -- destruct Heff as (z & r & Hz & Hr & Hr' & _). exists z, r. auto.
        -- contradiction.
      * simpl in Hi. specialize (Hmembers j o Hi).
        rewrite Hlog in Hmembers. simpl in Hmembers.
        rewrite Nat.add_succ_r.
        assert (Hne : core_id o <> core_id obj).
        { intros Heq. apply Hnotin. rewrite <- Heq. apply in_map.
          apply nth_error_In in Hi. exact Hi. }
        rewrite (refresh_body_frame obj w w1 (core_id o) Hturn Hne) in Hmembers.
        exact Hmembers.
Qed.

End RefreshLoop.

(** C7.  When the status refresh completes on a table whose keys are
    distinct, every selected row whose lookup returned no status is, at
    the end, the row it was at the start: neither its status nor its
    timestamp has been written.  Every selected row whose lookup returned
    a status holds, at the end, that status and the timestamp of the
    refresh, with its reference as it was. *)
Theorem status_refresh_effect
    (espaceco_get : nat -> option Z -> http_outcome) (now : datetime) (w w' : World) :
  NoDup (map col_core_id (osmoseissue (database w))) ->
  status_refresh espaceco_get now w = (Returned tt, w') ->
  forall i r,
    nth_error (filter where_unclosed (osmoseissue (database w))) i = Some r ->
    match status_of_reply
            (espaceco_get (List.length (looked_up w) + i)%nat
               (int_if_truthy (col_espaceco_signalement_id r))) with
    | Returned PyNone => stored (col_core_id r) (database w') = Some r
    | Returned status =>
        exists z,
          col_espaceco_signalement_id r = Some z
          /\ stored (col_core_id r) (database w')
             = Some (set_signalement z (py_str status) now r)
    | Raised _ => False
    end.
Proof.
  intros Hnd Hrun i r Hi. unfold status_refresh in Hrun.
  apply bind_returned in Hrun. destruct Hrun as (issues & w1 & Hsel & Hloop).
  apply on_database_returned in Hsel. destruct Hsel as (Hsel & _ & Hlog).
  unfold get_issues_by_espacecosignalements_unclosed, select_issues in Hsel.
  destruct (db_valid (database w)); [|discriminate].
  injection Hsel as <- Hdb.
  assert (Hkeys : NoDup (map core_id
                           (map _issue_row_to_issue_instance
                              (filter where_unclosed (osmoseissue (database w)))))).
  { rewrite map_map. simpl. apply nodup_map_filter. exact Hnd. }
  destruct (refresh_loop_effect espaceco_get now _ Hkeys w1 w' Hloop) as [_ Hmembers].
  specialize (Hmembers i (_issue_row_to_issue_instance r)
                (map_nth_error _issue_row_to_issue_instance i _ Hi)).
  rewrite Hlog, <- Hdb in Hmembers. simpl in Hmembers.
  assert (Hr : stored (col_core_id r) (database w) = Some r).
  { apply stored_unique; [exact Hnd|]. apply nth_error_In in Hi.
    apply filter_In in Hi. apply Hi. }
  rewrite Hr in Hmembers.
  destruct (status_of_reply _) as [[|n|s]|e].
  - exact Hmembers.
  - destruct Hmembers as (z & r0 & Hz & [= <-] & Hr'). exists z. split; [|exact Hr'].
    unfold int_if_truthy in Hz.
    destruct (col_espaceco_signalement_id r) as [z0|]; [|discriminate].
    destruct (z0 =? 0); [discriminate | exact Hz].
  - destruct Hmembers as (z & r0 & Hz & [= <-] & Hr'). exists z. split; [|exact Hr'].
    unfold int_if_truthy in Hz.
    destruct (col_espaceco_signalement_id r) as [z0|]; [|discriminate].
    destruct (z0 =? 0); [discriminate | exact Hz].
  - exact Hmembers.
Qed.

Lemma status_refresh_effect_witness :
  (exists z,
      col_espaceco_signalement_id (sample_row "a" (Some 101) (Some "submit")) = Some z
      /\ stored (col_core_id (sample_row "a" (Some 101) (Some "submit")))
           (database
              (snd (status_refresh sample_get 2000
                      (sample_world [sample_row "a" (Some 101) (Some "submit");
                                     sample_row "b" (Some 102) (Some "pending")]))))
         = Some (set_signalement z (py_str (PyStr "valid")) 2000
                   (sample_row "a" (Some 101) (Some "submit"))))
  /\ stored (col_core_id (sample_row "b" (Some 102) (Some "pending")))
       (database
          (snd (status_refresh sample_get 2000
                  (sample_world [sample_row "a" (Some 101) (Some "submit");
                                 sample_row "b" (Some 102) (Some "pending")]))))
     = Some (sample_row "b" (Some 102) (Some "pending")).
Proof.
  split.
  - apply (status_refresh_effect sample_get 2000
             (sample_world [sample_row "a" (Some 101) (Some "submit");
                            sample_row "b" (Some 102) (Some "pending")])
             (snd (status_refresh sample_get 2000
                     (sample_world [sample_row "a" (Some 101) (Some "submit");
                                    sample_row "b" (Some 102) (Some "pending")])))
             ltac:(repeat constructor; simpl; intuition discriminate)
             ltac:(reflexivity)
             O (sample_row "a" (Some 101) (Some "submit"))).
    reflexivity.
  - apply (status_refresh_effect sample_get 2000
             (sample_world [sample_row "a" (Some 101) (Some "submit");
                            sample_row "b" (Some 102) (Some "pending")])
             (snd (status_refresh sample_get 2000
                     (sample_world [sample_row "a" (Some 101) (Some "submit");
                                    sample_row "b" (Some 102) (Some "pending")])))
             ltac:(repeat constructor; simpl; intuition discriminate)
             ltac:(reflexivity)
             1%nat (sample_row "b" (Some 102) (Some "pending"))).
    reflexivity.
Defined.

(** ** Clustering *)

Section ClusteringProperties.

Variable pgvalue : Type.
Variable pg_str : pgvalue -> string.

Lemma attach_cluster_core_id (row : ClusterRow pgvalue) (issue : OsmoseCrackerIssue) :
  core_id (attach_cluster pg_str row issue) = core_id issue.
Proof. unfold attach_cluster. destruct (row_cluster_id row); reflexivity. Qed.

Lemma correlate_object_core_id (row : ClusterRow pgvalue) (issue : OsmoseCrackerIssue) :
  core_id (correlate_object pg_str row issue) = core_id issue.
Proof.
  unfold correlate_object. destruct (String.eqb _ _); [apply attach_cluster_core_id | reflexivity].
Qed.

(** The second assignment of the two attributes erases the first. *)
Lemma attach_cluster_twice (row row' : ClusterRow pgvalue) (issue : OsmoseCrackerIssue) :
  attach_cluster pg_str row (attach_cluster pg_str row' issue)
  = attach_cluster pg_str row issue.
Proof.
  unfold attach_cluster.
  destruct (row_cluster_id row), (row_cluster_id row'); reflexivity.
Qed.

Lemma heap_set_middle (pre post : Heap) (o v : OsmoseCrackerIssue) :
  heap_set (List.length pre) v (pre ++ o :: post)%list = (pre ++ v :: post)%list.
Proof.
  induction pre as [|x pre IH]; simpl; [reflexivity | rewrite IH; reflexivity].
Qed.

Lemma nth_error_middle (pre post : Heap) (o : OsmoseCrackerIssue) :
  nth_error (pre ++ o :: post)%list (List.length pre) = Some o.
Proof. induction pre as [|x pre IH]; simpl; [reflexivity | exact IH]. Qed.

(** The inner loop, on the part of the heap not yet visited. *)
Lemma correlate_row_from (row : ClusterRow pgvalue) (post pre : Heap) (order : list nat) :
  fold_left (correlate_issue pg_str row) (seq (List.length pre) (List.length post))
    ((pre ++ post)%list, order)
  = ((pre ++ map (correlate_object pg_str row) post)%list,
     (order ++ matching_from (List.length pre) (row_core_id row) post)%list).
Proof.
  revert pre order. induction post as [|o post IH]; intros pre order; simpl.
  - rewrite !app_nil_r. reflexivity.
  - unfold correlate_issue at 2. simpl fst. simpl snd.
    rewrite nth_error_middle. unfold correlate_object at 1.
    destruct (String.eqb (core_id o) (row_core_id row)) eqn:Hkey.
    + rewrite heap_set_middle.
      replace (pre ++ attach_cluster pg_str row o :: post)%list
        with ((pre ++ [attach_cluster pg_str row o]) ++ post)%list
        by (rewrite <- app_assoc; reflexivity).
      replace (S (List.length pre))
        with (List.length (pre ++ [attach_cluster pg_str row o]))
        by (rewrite length_app; simpl; lia).
      rewrite IH. rewrite <- !app_assoc. reflexivity.
    + replace (pre ++ o :: post)%list with ((pre ++ [o]) ++ post)%list
        by (rewrite <- app_assoc; reflexivity).
      replace (S (List.length pre)) with (List.length (pre ++ [o]))
        by (rewrite length_app; simpl; lia).
      rewrite IH. rewrite <- !app_assoc. reflexivity.
Qed.

Lemma matching_from_keys (a : nat) (key : string) (h issues : list OsmoseCrackerIssue) :
  map core_id h = map core_id issues ->
  matching_from a key h = matching_from a key issues.
Proof.
  revert a issues. induction h as [|o h IH]; intros a [|i issues] H;
    try discriminate; [reflexivity|].
  simpl in H. injection H as Ho Hrest. simpl. rewrite Ho, (IH (S a) issues Hrest).
  reflexivity.
Qed.

(** The outer loop: every row maps over the heap and appends its matching
    positions. *)
Lemma correlate_rows_from (issues : Heap) (rows : list (ClusterRow pgvalue))
    (h : Heap) (order : list nat) :
  map core_id h = map core_id issues ->
  fold_left (correlate_row pg_str (seq 0 (List.length issues))) rows (h, order)
  = (fold_left (fun heap row => map (correlate_object pg_str row) heap) rows h,
     (order ++ flat_map (fun row => matching_from 0 (row_core_id row) issues) rows)%list).
Proof.
  revert h order. induction rows as [|row rows IH]; intros h order Hkeys; simpl.
  - rewrite app_nil_r. reflexivity.
  - assert (Hlen : List.length issues = List.length h).
    { rewrite <- (length_map core_id issues), <- Hkeys, length_map. reflexivity. }
    assert (Hrow : correlate_row pg_str (seq 0 (List.length issues)) (h, order) row
                   = (map (correlate_object pg_str row) h,
                      (order ++ matching_from 0 (row_core_id row) h)%list)).
    { unfold correlate_row. rewrite Hlen. apply (correlate_row_from row h [] order). }
    rewrite Hrow. rewrite IH.
    + rewrite (matching_from_keys 0 (row_core_id row) h issues Hkeys), <- app_assoc.
      reflexivity.
    + rewrite map_map. rewrite <- Hkeys. apply map_ext. intros o.
      apply correlate_object_core_id.
Qed.

Lemma fold_correlate_object_map (rows : list (ClusterRow pgvalue)) (h : Heap) :
  fold_left (fun heap row => map (correlate_object pg_str row) heap) rows h
  = map (fun o => fold_left (fun o' row => correlate_object pg_str row o') rows o) h.
Proof.
  revert h. induction rows as [|row rows IH]; intros h; simpl.
  - symmetry. apply map_id.
  - rewrite IH, map_map. reflexivity.
Qed.

Lemma fold_correlate_object_core_id (rows : list (ClusterRow pgvalue))
    (o : OsmoseCrackerIssue) :
  core_id (fold_left (fun o' row => correlate_object pg_str row o') rows o) = core_id o.
Proof.
  revert o. induction rows as [|row rows IH]; intros o; simpl; [reflexivity|].
  rewrite IH. apply correlate_object_core_id.
Qed.

Lemma last_row_for_snoc (key : string) (rows : list (ClusterRow pgvalue))
    (row : ClusterRow pgvalue) :
  last_row_for key (rows ++ [row])%list
  = if String.eqb key (row_core_id row) then Some row else last_row_for key rows.
Proof. unfold last_row_for. rewrite rev_app_distr. reflexivity. Qed.

(** What the rows leave on an object: the assignments of the last row
    that bears its key. *)
Lemma fold_correlate_object_last (rows : list (ClusterRow pgvalue))
    (o : OsmoseCrackerIssue) :
  fold_left (fun o' row => correlate_object pg_str row o') rows o
  = attach_last pg_str rows o.
Proof.
  induction rows as [|row rows IH] using rev_ind.
  - reflexivity.
  - rewrite fold_left_app. simpl. unfold attach_last. rewrite last_row_for_snoc.
    unfold correlate_object at 1. rewrite fold_correlate_object_core_id.
    destruct (String.eqb (core_id o) (row_core_id row)).
    + rewrite IH. unfold attach_last.
      destruct (last_row_for (core_id o) rows); [apply attach_cluster_twice | reflexivity].
    + exact IH.
Qed.

Lemma deref_app (h : Heap) (l1 l2 : list nat) :
  deref h (l1 ++ l2)%list = (deref h l1 ++ deref h l2)%list.
Proof.
  induction l1 as [|i l1 IH]; simpl; [reflexivity|].
  destruct (nth_error h i); simpl; rewrite IH; reflexivity.
Qed.

Lemma deref_matching (f : OsmoseCrackerIssue -> OsmoseCrackerIssue) (key : string)
    (post pre : list OsmoseCrackerIssue) :
  deref (pre ++ map f post)%list (matching_from (List.length pre) key post)
  = map f (filter (fun issue => String.eqb (core_id issue) key) post).
Proof.
  revert pre. induction post as [|o post IH]; intros pre; simpl; [reflexivity|].
  assert (Hnext : deref (pre ++ f o :: map f post)%list
                    (matching_from (S (List.length pre)) key post)
                  = map f (filter (fun issue => String.eqb (core_id issue) key) post)).
  { replace (pre ++ f o :: map f post)%list with ((pre ++ [f o]) ++ map f post)%list
      by (rewrite <- app_assoc; reflexivity).
    replace (S (List.length pre)) with (List.length (pre ++ [f o]))
      by (rewrite length_app; simpl; lia).
    apply IH. }
  destruct (String.eqb (core_id o) key).
  - simpl. rewrite nth_error_middle, Hnext. reflexivity.
  - exact Hnext.
Qed.

Lemma deref_flat_map {A : Type} (h : Heap) (g : A -> list nat) (l : list A) :
  deref h (flat_map g l) = flat_map (fun a => deref h (g a)) l.
Proof.
  induction l as [|a l IH]; simpl; [reflexivity|]. rewrite deref_app, IH. reflexivity.
Qed.

(** The list that the correlation returns, as its caller reads it. *)
Lemma correlate_result (rows : list (ClusterRow pgvalue)) (issues : Heap) :
  deref (fst (correlate pg_str rows issues)) (snd (correlate pg_str rows issues))
  = flat_map
      (fun row =>
         map (attach_last pg_str rows)
             (filter (fun issue => String.eqb (core_id issue) (row_core_id row)) issues))
      rows.
Proof.
  unfold correlate. rewrite (correlate_rows_from issues rows issues []) by reflexivity.
  simpl. rewrite fold_correlate_object_map, deref_flat_map.
  apply flat_map_ext. intros row.
  rewrite (map_ext _ (attach_last pg_str rows)) by (intros o; apply fold_correlate_object_last).
  apply (deref_matching (attach_last pg_str rows) (row_core_id row) issues []).
Qed.

End ClusteringProperties.

(** The list returned holds, for each row of the answer in turn, the issues
    of the argument whose key is the key of the row, in the order of the
    argument.  The entries are the issue objects themselves, so each entry
    reads the cluster id and the sketch assigned by the last row that
    bears its key. *)
Lemma clustering_result_by_row
    (pgvalue : Type) (pg_str : pgvalue -> string)
    (bduni_clusterize : list ClusterQuery -> outcome (option (list (ClusterRow pgvalue))))
    (issues : list OsmoseCrackerIssue) (clustered_rows : list (ClusterRow pgvalue)) :
  bduni_clusterize (map cluster_query issues) = Returned (Some clustered_rows) ->
  clustering_result pg_str bduni_clusterize issues
  = Returned
      (flat_map
         (fun row =>
            map (attach_last pg_str clustered_rows)
                (filter (fun issue => String.eqb (core_id issue) (row_core_id row)) issues))
         clustered_rows).
Proof.
  intros Hrows. unfold clustering_result, clustering. rewrite Hrows.
  pose proof (correlate_result pgvalue pg_str clustered_rows issues) as H.
  destruct (correlate pg_str clustered_rows issues) as [heap order_issues].
  simpl in H. rewrite H. reflexivity.
Qed.

Lemma last_row_for_unique (pgvalue : Type) (rows : list (ClusterRow pgvalue))
    (row : ClusterRow pgvalue) :
  NoDup (map row_core_id rows) -> In row rows ->
  last_row_for (row_core_id row) rows = Some row.
Proof.
  induction rows as [|r rows IH] using rev_ind; intros Hnd Hin; [contradiction|].
  rewrite last_row_for_snoc. rewrite map_app in Hnd. simpl in Hnd.
  apply in_app_or in Hin. destruct Hin as [Hin|[->|[]]].
  - destruct (String.eqb_spec (row_core_id row) (row_core_id r)) as [Heq|Hne].
    + exfalso. apply NoDup_remove_2 in Hnd. apply Hnd. rewrite app_nil_r.
      rewrite <- Heq. apply in_map. exact Hin.
    + apply IH; [|exact Hin]. apply NoDup_remove_1 in Hnd.
      rewrite app_nil_r in Hnd. exact Hnd.
  - rewrite String.eqb_refl. reflexivity.
Qed.

(** C8, as the code has it.  For every list of issues and every answer of
    the spatial query that bears each key on one row at most, [clustering] returns, for each
    row of the answer in turn, the issues of the argument whose key is the
    key of the row, each with the cluster id of the row as its cluster key
    and, when that id is not null, the sketch built from the bounding box
    and the centre of the row at zoom 17 (with a null id the sketch is
    null too).  An issue whose key is on no row is absent from the list. *)
Theorem clustering_emits_in_row_order
    (pgvalue : Type) (pg_str : pgvalue -> string)
    (bduni_clusterize : list ClusterQuery -> outcome (option (list (ClusterRow pgvalue))))
    (issues : list OsmoseCrackerIssue) (clustered_rows : list (ClusterRow pgvalue)) :
  bduni_clusterize (map cluster_query issues) = Returned (Some clustered_rows) ->
  NoDup (map row_core_id clustered_rows) ->
  clustering_result pg_str bduni_clusterize issues
  = Returned (correlate_as_specified pg_str clustered_rows issues).
Proof.
  intros Hrows Hnd.
  rewrite (clustering_result_by_row pgvalue pg_str bduni_clusterize issues clustered_rows Hrows).
  f_equal. unfold correlate_as_specified.
  rewrite !flat_map_concat_map. f_equal. apply map_ext_in. intros row Hrow.
  apply map_ext_in. intros issue Hissue. apply filter_In in Hissue.
  destruct Hissue as [_ Hkey]. apply String.eqb_eq in Hkey.
  unfold attach_last.
  rewrite Hkey, (last_row_for_unique pgvalue clustered_rows row Hnd Hrow).
  reflexivity.
Qed.

Lemma clustering_emits_in_row_order_witness :
  clustering_result (fun s : string => s)
    (constant_clusterize [sample_cluster_row "b" (Some "K1"); sample_cluster_row "a" None])
    [sample_issue "a" None; sample_issue "c" None; sample_issue "b" None]
  = Returned
      (correlate_as_specified (fun s : string => s)
         [sample_cluster_row "b" (Some "K1"); sample_cluster_row "a" None]
         [sample_issue "a" None; sample_issue "c" None; sample_issue "b" None]).
Proof.
  apply (clustering_emits_in_row_order string (fun s : string => s)
           (constant_clusterize [sample_cluster_row "b" (Some "K1"); sample_cluster_row "a" None])
           [sample_issue "a" None; sample_issue "c" None; sample_issue "b" None]
           [sample_cluster_row "b" (Some "K1"); sample_cluster_row "a" None]).
  - reflexivity.
  - repeat constructor; simpl; intuition discriminate.
Defined.

(** The worked answer: b first, with its cluster and sketch, then a; c,
    which is on no row, is absent. *)
Example clustering_row_order_example :
  clustering_result (fun s : string => s)
    (constant_clusterize [sample_cluster_row "b" (Some "K1"); sample_cluster_row "a" None])
    [sample_issue "a" None; sample_issue "c" None; sample_issue "b" None]
  = Returned
      [set_cluster (Some "K1")
         (Some (cluster_sketch (fun s : string => s) (sample_cluster_row "b" (Some "K1"))))
         (sample_issue "b" None);
       sample_issue "a" None].
Proof. reflexivity. Qed.

(** C8, counterexample.  The answer bears the key of issue a on two rows,
    first in cluster K1, then in cluster K2.  The list returned holds the
    object a twice, and both entries read K2; as the specification words
    it, the first entry carries K1, the cluster id of its row. *)
Lemma clustering_counterexample :
  let rows := [sample_cluster_row "a" (Some "K1"); sample_cluster_row "a" (Some "K2")] in
  let returned :=
    clustering_result (fun s : string => s) (constant_clusterize rows)
      [sample_issue "a" None] in
  (exists first second,
      returned = Returned [first; second]
      /\ cluster_id first = Some "K2" /\ cluster_id second = Some "K2")
  /\ map cluster_id
       (correlate_as_specified (fun s : string => s) rows [sample_issue "a" None])
     = [Some "K1"; Some "K2"]
  /\ returned
     <> Returned (correlate_as_specified (fun s : string => s) rows [sample_issue "a" None]).
Proof.
  simpl. split; [|split].
  - eexists. eexists. repeat split; reflexivity.
  - reflexivity.
  - intros H. discriminate H.
Qed.

(** * Further properties of the code *)

(** ** The table under [update_signalement], row by row *)

Lemma sql_update_signalement_clear (key : string) (id : Z) (status : string)
    (ts : datetime) (rows : list Row) :
  map clear_signalement (sql_update_signalement key id status ts rows)
  = map clear_signalement rows.
Proof.
  unfold sql_update_signalement. rewrite map_map. apply map_ext. intros r.
  destruct (String.eqb (col_core_id r) key); reflexivity.
Qed.

Lemma sql_update_signalement_others (key : string) (id : Z) (status : string)
    (ts : datetime) (rows : list Row) :
  filter (fun r => negb (String.eqb (col_core_id r) key))
    (sql_update_signalement key id status ts rows)
  = filter (fun r => negb (String.eqb (col_core_id r) key)) rows.
Proof.
  induction rows as [|r rows IH]; simpl; [reflexivity|].
  destruct (String.eqb (col_core_id r) key) eqn:Hk; simpl.
  - rewrite Hk. simpl. exact IH.
  - rewrite Hk. simpl. rewrite IH. reflexivity.
Qed.

(** The rows after a successful [update_signalement]. *)
Lemma update_signalement_rows (i : OsmoseCrackerIssue) (db db' : Database) :
  update_signalement i db = (Returned tt, db') ->
  exists id ts,
    espaceco_signalement_id i = Some id
    /\ espaceco_signalement_status_refresh_timestamp i = Some ts
    /\ has_apostrophe (core_id i) = false
    /\ db_valid db = true
    /\ db_valid db' = true
    /\ osmoseissue db'
       = sql_update_signalement (core_id i) id
           (str_column (espaceco_signalement_status i)) ts (osmoseissue db).
Proof.
  unfold update_signalement.
  destruct (db_valid db) eqn:Hv; simpl; [|discriminate].
  destruct (espaceco_signalement_status_refresh_timestamp i) as [ts|]; [|discriminate].
  destruct (espaceco_signalement_id i) as [id|]; [|discriminate].
  destruct (sql_text (str_column (espaceco_signalement_status i))) as [status|] eqn:Hs;
    [|discriminate].
  destruct (sql_text (core_id i)) as [key|] eqn:Hk; [|discriminate].
  apply sql_text_some in Hs. destruct Hs as [-> _].
  apply sql_text_some in Hk. destruct Hk as [-> Hk].
  destruct (existsb _ (osmoseissue db)); [|discriminate].
  intros [= <-]. exists id, ts. simpl. repeat split; assumption.
Qed.

(** X1.  [update_signalement], whatever its outcome, leaves every column other
    than the three report columns as it was, adds and removes no row, and
    leaves the rows of the other keys as they were; when it raises, the
    whole database is as it was. *)
Theorem update_signalement_writes_report_columns_only
    (i : OsmoseCrackerIssue) (db : Database) :
  report_columns_only db (snd (update_signalement i db))
  /\ filter (fun r => negb (String.eqb (col_core_id r) (core_id i)))
       (osmoseissue (snd (update_signalement i db)))
     = filter (fun r => negb (String.eqb (col_core_id r) (core_id i))) (osmoseissue db)
  /\ forall e, fst (update_signalement i db) = Raised e ->
       snd (update_signalement i db) = db.
Proof.
  destruct (update_signalement i db) as [[[]|e] db'] eqn:H; simpl.
  - apply update_signalement_rows in H.
    destruct H as (id & ts & _ & _ & _ & Hv & Hv' & Hrows).
    split; [split|split].
    + congruence.
    + rewrite Hrows. apply sql_update_signalement_clear.
    + rewrite Hrows. apply sql_update_signalement_others.
    + discriminate.
  - apply update_signalement_raised in H. subst db'.
    split; [split; reflexivity|]. split; [reflexivity|]. intros _ _. reflexivity.
Qed.

(** ** Reading back what [update_signalement] wrote *)

(** X2.  After a successful [update_signalement], [get_issue_by_osmose_uuid] on
    the key of the issue answers an issue that bears the key and the
    timestamp written; its reference is the one written unless that was 0,
    which reads back as [None]; its status is the text written, where a
    [None] status reads back as the text "None" and an empty text as
    [None]. *)
Theorem update_signalement_read_back (i : OsmoseCrackerIssue) (db db' : Database) :
  update_signalement i db = (Returned tt, db') ->
  exists j,
    get_issue_by_osmose_uuid (core_id i) db' = (Returned (Some j), db')
    /\ core_id j = core_id i
    /\ espaceco_signalement_id j = int_if_truthy (espaceco_signalement_id i)
    /\ espaceco_signalement_status j
       = str_if_truthy (Some (str_column (espaceco_signalement_status i)))
    /\ espaceco_signalement_status_refresh_timestamp j
       = espaceco_signalement_status_refresh_timestamp i.
Proof.
  intros H. pose proof (update_signalement_rows i db db' H) as Hrows.
  destruct Hrows as (id0 & ts0 & _ & _ & Hk & _ & Hv' & _).
  apply update_signalement_returned in H.
  destruct H as (id & ts & r & Hid & Hts & Hr & Hr' & _ & _).
  exists (_issue_row_to_issue_instance
            (set_signalement id (str_column (espaceco_signalement_status i)) ts r)).
  unfold get_issue_by_osmose_uuid, sql_text. rewrite Hv', Hk, Hr'. simpl.
  rewrite Hid, Hts. repeat split.
  unfold stored in Hr. apply find_some in Hr. destruct Hr as [_ Hr].
  apply String.eqb_eq in Hr. exact Hr.
Qed.

Lemma update_signalement_read_back_witness :
  exists j,
    get_issue_by_osmose_uuid
      (core_id (set_espaceco (Some 0) None (Some 1000) (sample_issue "a" None)))
      (snd (update_signalement
              (set_espaceco (Some 0) None (Some 1000) (sample_issue "a" None))
              {| db_valid := true; osmoseissue := [sample_row "a" None None] |}))
    = (Returned (Some j),
       snd (update_signalement
              (set_espaceco (Some 0) None (Some 1000) (sample_issue "a" None))
              {| db_valid := true; osmoseissue := [sample_row "a" None None] |}))
    /\ core_id j = core_id (set_espaceco (Some 0) None (Some 1000) (sample_issue "a" None))
    /\ espaceco_signalement_id j
       = int_if_truthy
           (espaceco_signalement_id
              (set_espaceco (Some 0) None (Some 1000) (sample_issue "a" None)))
    /\ espaceco_signalement_status j
       = str_if_truthy
           (Some (str_column
                    (espaceco_signalement_status
                       (set_espaceco (Some 0) None (Some 1000) (sample_issue "a" None)))))
    /\ espaceco_signalement_status_refresh_timestamp j
       = espaceco_signalement_status_refresh_timestamp
           (set_espaceco (Some 0) None (Some 1000) (sample_issue "a" None)).
Proof.
  apply (update_signalement_read_back
           (set_espaceco (Some 0) None (Some 1000) (sample_issue "a" None))
           {| db_valid := true; osmoseissue := [sample_row "a" None None] |}).
  reflexivity.
Defined.

(** ** The issues the selections hand over *)

(** X3.  Every issue that the eligibility selection hands to the clustering is
    also answered by [get_issues_by_espacecosignalements_none], and, as
    loaded, has no reference, no ZICAD flag (the stored 0 is falsy), no
    cluster and no sketch. *)
Theorem eligible_issue_as_loaded (db : Database) (issues : list OsmoseCrackerIssue) :
  fst (get_issues_by_espacecosignalements_none_and_zicad_false db) = Returned issues ->
  exists unreported,
    fst (get_issues_by_espacecosignalements_none db) = Returned unreported
    /\ forall issue, In issue issues ->
         In issue unreported
         /\ espaceco_signalement_id issue = None
         /\ bduni_zicad issue = None
         /\ cluster_id issue = None
         /\ sketchcontent issue = None.
Proof.
  unfold get_issues_by_espacecosignalements_none_and_zicad_false,
    get_issues_by_espacecosignalements_none, select_issues.
  destruct (db_valid db); simpl; [|discriminate].
  intros [= <-]. eexists. split; [reflexivity|].
  intros issue Hin. apply in_map_iff in Hin. destruct Hin as (r & <- & Hr).
  apply filter_In in Hr. destruct Hr as [Hr Hw].
  unfold where_none_and_zicad_false in Hw. apply andb_true_iff in Hw.
  destruct Hw as [Hnull Hz].
  apply sql_is_null_none in Hnull. apply sql_not_true_zero in Hz.
  split.
  - apply in_map. apply filter_In. split; [exact Hr|].
    unfold where_none. rewrite Hnull. reflexivity.
  - simpl. rewrite Hnull, Hz. repeat split.
Qed.

Lemma eligible_issue_as_loaded_witness :
  exists unreported,
    fst (get_issues_by_espacecosignalements_none
           {| db_valid := true;
              osmoseissue := [sample_row "a" None None;
                              sample_row "b" (Some 101) (Some "submit")] |})
    = Returned unreported
    /\ forall issue,
         In issue [_issue_row_to_issue_instance (sample_row "a" None None)] ->
         In issue unreported
         /\ espaceco_signalement_id issue = None
         /\ bduni_zicad issue = None
         /\ cluster_id issue = None
         /\ sketchcontent issue = None.
Proof.
  apply (eligible_issue_as_loaded
           {| db_valid := true;
              osmoseissue := [sample_row "a" None None;
                              sample_row "b" (Some 101) (Some "submit")] |}
           [_issue_row_to_issue_instance (sample_row "a" None None)]).
  reflexivity.
Defined.

(** ** What the loops of [main] leave alone *)

Lemma report_columns_only_refl (db : Database) : report_columns_only db db.
Proof. split; reflexivity. Qed.

Lemma report_columns_only_trans (db1 db2 db3 : Database) :
  report_columns_only db1 db2 -> report_columns_only db2 db3 ->
  report_columns_only db1 db3.
Proof. intros [H1 H2] [H3 H4]. split; congruence. Qed.

Lemma update_signalement_frame (i : OsmoseCrackerIssue) (db : Database) :
  report_columns_only db (snd (update_signalement i db)).
Proof.
  destruct (update_signalement i db) as [[[]|e] db'] eqn:H; simpl.
  - apply update_signalement_rows in H.
    destruct H as (id & ts & _ & _ & _ & Hv & Hv' & Hrows).
    split; [congruence|]. rewrite Hrows. apply sql_update_signalement_clear.
  - apply update_signalement_raised in H. subst db'. apply report_columns_only_refl.
Qed.

Lemma creation_request_status (type_signalement : type_signalement_choice)
    (text : string) (issue : OsmoseCrackerIssue) :
  req_status (creation_request type_signalement text issue) <> "repost".
Proof.
  unfold creation_request.
  destruct (cluster_id issue); destruct type_signalement; simpl; discriminate.
Qed.

Section EmissionFrame.

Variable markdown_report : OsmoseCrackerIssue -> outcome string.
Variable espaceco_post : nat -> PostRequest -> http_outcome.
Variable type_signalement : type_signalement_choice.
Variable issuesSignalementTimestamp : datetime.

Local Abbreviation body :=
  (emission_body markdown_report espaceco_post type_signalement issuesSignalementTimestamp).

Lemma emit_or_link_world (issue : OsmoseCrackerIssue) (vars : EmissionVars) (w : World) :
  snd (emit_or_link espaceco_post type_signalement issue vars w) = w
  \/ snd (emit_or_link espaceco_post type_signalement issue vars w)
     = {| database := database w;
          posted := creation_request type_signalement (details_descriptionstr issue) issue
                    :: posted w;
          looked_up := looked_up w |}.
Proof.
  unfold emit_or_link, creation_request. destruct (cluster_id issue) as [c|].
  - destruct (cluster_ne (Some c) (var_cluster_id vars)).
    + right. unfold bind.
      pose proof (post_signalement_world espaceco_post (core_lon issue) (core_lat issue)
                    (details_descriptionstr issue ++ cluster_disclosure)
                    (espaceco_theme issue) type_signalement (sketchcontent issue) w) as Hw.
      destruct (post_signalement _ _ _ _ _ _ _ w) as [[v|e] w1]; exact Hw.
    + left. destruct (var_signalementid vars); reflexivity.
  - right. unfold bind.
    pose proof (post_signalement_world espaceco_post (core_lon issue) (core_lat issue)
                  (details_descriptionstr issue)
                  (espaceco_theme issue) type_signalement None w) as Hw.
    destruct (post_signalement _ _ _ _ _ _ _ w) as [[v|e] w1]; exact Hw.
Qed.

Lemma persist_signalement_world (issue : OsmoseCrackerIssue) (v : pyval) (w : World) :
  posted (snd (persist_signalement type_signalement issuesSignalementTimestamp issue v w))
  = posted w
  /\ looked_up
       (snd (persist_signalement type_signalement issuesSignalementTimestamp issue v w))
     = looked_up w
  /\ report_columns_only (database w)
       (database
          (snd (persist_signalement type_signalement issuesSignalementTimestamp issue v w))).
Proof.
  unfold persist_signalement. destruct v as [|z|s]; simpl.
  - repeat split.
  - unfold on_database.
    pose proof (update_signalement_frame
                  (set_espaceco (Some z)
                     (if z >? 0 then Some (type_signalement_str type_signalement) else None)
                     (Some issuesSignalementTimestamp) issue) (database w)) as Hf.
    destruct (update_signalement _ (database w)) as [o db]. simpl in *.
    repeat split; apply Hf.
  - repeat split.
Qed.

(** One turn, whatever its outcome. *)
Lemma emission_body_frame (issue : OsmoseCrackerIssue) (vars : EmissionVars) (w : World) :
  looked_up (snd (body issue vars w)) = looked_up w
  /\ report_columns_only (database w) (database (snd (body issue vars w)))
  /\ (posted (snd (body issue vars w)) = posted w
      \/ exists text,
           markdown_report issue = Returned text
           /\ posted (snd (body issue vars w))
              = creation_request type_signalement text issue :: posted w).
Proof.
  unfold emission_body, lift, bind.
  destruct (markdown_report issue) as [text|e]; simpl.
  2:{ split; [reflexivity|]. split; [apply report_columns_only_refl | left; reflexivity]. }
  pose proof (emit_or_link_world (set_details_descriptionstr text issue) vars w) as Hemit.
  assert (Hreq : creation_request type_signalement
                   (details_descriptionstr (set_details_descriptionstr text issue))
                   (set_details_descriptionstr text issue)
                 = creation_request type_signalement text issue) by reflexivity.
  rewrite Hreq in Hemit. clear Hreq.
  destruct (emit_or_link espaceco_post type_signalement
              (set_details_descriptionstr text issue) vars w) as [[vars'|e] w1];
    simpl in Hemit.
  - pose proof (persist_signalement_world (set_details_descriptionstr text issue)
                  (var_signalementid vars') w1) as (Hp & Hl & Hdb).
    assert (Hgoal : looked_up
                      (snd (persist_signalement type_signalement
                              issuesSignalementTimestamp
                              (set_details_descriptionstr text issue)
                              (var_signalementid vars') w1)) = looked_up w
                    /\ report_columns_only (database w)
                         (database
                            (snd (persist_signalement type_signalement
                                    issuesSignalementTimestamp
                                    (set_details_descriptionstr text issue)
                                    (var_signalementid vars') w1)))
                    /\ (posted
                          (snd (persist_signalement type_signalement
                                  issuesSignalementTimestamp
                                  (set_details_descriptionstr text issue)
                                  (var_signalementid vars') w1)) = posted w
                        \/ exists text0,
                             Returned text = Returned text0
                             /\ posted
                                  (snd (persist_signalement type_signalement
                                          issuesSignalementTimestamp
                                          (set_details_descriptionstr text issue)
                                          (var_signalementid vars') w1))
                                = creation_request type_signalement text0 issue
                                  :: posted w)).
    { rewrite Hp, Hl. destruct Hemit as [->| ->]; simpl in *.
      - split; [reflexivity|]. split; [exact Hdb|]. left. reflexivity.
      - split; [reflexivity|]. split; [exact Hdb|]. right. exists text.
        split; reflexivity. }
    destruct (persist_signalement type_signalement issuesSignalementTimestamp
                (set_details_descriptionstr text issue) (var_signalementid vars') w1)
      as [[[]|e] w2]; exact Hgoal.
  - simpl. destruct Hemit as [->| ->]; simpl.
    + split; [reflexivity|]. split; [apply report_columns_only_refl | left; reflexivity].
    + split; [reflexivity|]. split; [apply report_columns_only_refl|].
      right. exists text. split; reflexivity.
Qed.

Lemma emission_for_each_frame (issues : list OsmoseCrackerIssue) :
  forall (vars : EmissionVars) (w : World),
    looked_up (snd (for_each body issues vars w)) = looked_up w
    /\ report_columns_only (database w) (database (snd (for_each body issues vars w)))
    /\ exists new,
         posted (snd (for_each body issues vars w)) = (new ++ posted w)%list
         /\ (List.length new <= List.length issues)%nat
         /\ Forall
              (fun req =>
                 exists issue text,
                   In issue issues
                   /\ markdown_report issue = Returned text
                   /\ req = creation_request type_signalement text issue)
              new.
Proof.
  induction issues as [|x issues IH]; intros vars w.
  - simpl. split; [reflexivity|]. split; [apply report_columns_only_refl|].
    exists []. split; [reflexivity|]. split; [simpl; lia | constructor].
  - cbn [for_each]. unfold bind.
    pose proof (emission_body_frame x vars w) as (Hl & Hdb & Hp).
    assert (Hnew : exists new,
               posted (snd (body x vars w)) = (new ++ posted w)%list
               /\ (List.length new <= 1)%nat
               /\ Forall
                    (fun req =>
                       exists issue text,
                         In issue (x :: issues)
                         /\ markdown_report issue = Returned text
                         /\ req = creation_request type_signalement text issue)
                    new).
    { destruct Hp as [Hp | (text & Hmd & Hp)].
      - exists []. split; [exact Hp|]. split; [simpl; lia | constructor].
      - exists [creation_request type_signalement text x].
        split; [exact Hp|]. split; [simpl; lia|].
        constructor; [|constructor]. exists x, text.
        split; [left; reflexivity|]. split; [exact Hmd | reflexivity]. }
    destruct Hnew as (new1 & Hp1 & Hlen1 & Hall1).
    destruct (body x vars w) as [[vars1|e] w1]; simpl in *.
    + destruct (IH vars1 w1) as (Hl2 & Hdb2 & new2 & Hp2 & Hlen2 & Hall2).
      split; [congruence|].
      split; [apply (report_columns_only_trans _ _ _ Hdb Hdb2)|].
      exists (new2 ++ new1)%list. split; [|split].
      * rewrite Hp2, Hp1, app_assoc. reflexivity.
      * rewrite length_app. lia.
      * apply Forall_app. split; [|exact Hall1].
        eapply Forall_impl; [|exact Hall2].
        intros req (issue & text & Hin & Hmd & Hreq).
        exists issue, text. split; [right; exact Hin|]. split; assumption.
    + split; [exact Hl|]. split; [exact Hdb|].
      exists new1. split; [exact Hp1|]. split; [lia | exact Hall1].
Qed.

(** A turn that goes through counts the request it sent. *)
Lemma emission_body_counts (issue : OsmoseCrackerIssue) (vars vars' : EmissionVars)
    (w w' : World) :
  body issue vars w = (Returned vars', w') ->
  (List.length (posted w') + var_reportcounter vars
   = List.length (posted w) + var_reportcounter vars')%nat.
Proof.
  intros H. apply emission_body_returned in H.
  destruct H as (text & w1 & _ & Hemit & Hpersist).
  assert (Hp : posted w' = posted w1).
  { apply persist_signalement_returned in Hpersist.
    destruct Hpersist as [[_ ->] | (z & _ & Hp & _)]; [reflexivity | exact Hp]. }
  rewrite Hp.
  destruct Hemit as [_ _ Hc Hpost | c _ _ _ Hc Hpost | c z _ _ _ _ _ Hc ->].
  - apply post_signalement_returned in Hpost. destruct Hpost as (_ & Hposted & _).
    rewrite Hposted, Hc. simpl. lia.
  - apply post_signalement_returned in Hpost. destruct Hpost as (_ & Hposted & _).
    rewrite Hposted, Hc. simpl. lia.
  - rewrite Hc. reflexivity.
Qed.

Lemma emission_for_each_counts (issues : list OsmoseCrackerIssue) :
  forall (vars vars' : EmissionVars) (w w' : World),
    for_each body issues vars w = (Returned vars', w') ->
    (List.length (posted w') + var_reportcounter vars
     = List.length (posted w) + var_reportcounter vars')%nat.
Proof.
  induction issues as [|x issues IH]; intros vars vars' w w' H.
  - simpl in H. injection H as <- <-. reflexivity.
  - cbn [for_each] in H. apply bind_returned in H.
    destruct H as (vars1 & w1 & H1 & H2).
    apply emission_body_counts in H1. apply IH in H2. lia.
Qed.

(** A turn that goes through with an integer id in hand leaves a reference
    on every row that bears the key of its issue, and takes none away. *)
Lemma emission_body_references (issue : OsmoseCrackerIssue) (vars vars' : EmissionVars)
    (w w' : World) :
  (forall n req r, espaceco_post n req = Answered r ->
                   json_field "id" r <> Returned PyNone) ->
  body issue vars w = (Returned vars', w') ->
  forall r', In r' (osmoseissue (database w')) ->
    (col_core_id r' = core_id issue -> has_reference r' = true)
    /\ (col_core_id r' <> core_id issue -> In r' (osmoseissue (database w))).
Proof.
  intros Hid H. apply emission_body_returned in H.
  destruct H as (text & w1 & _ & Hemit & Hpersist).
  assert (Hint : exists z, var_signalementid vars' = PyInt z).
  { destruct (var_signalementid vars') as [|z|s] eqn:Hv.
    - exfalso.
      destruct Hemit as [_ _ _ Hpost | c _ _ _ _ Hpost | c z _ _ _ _ Hs _ _].
      + rewrite Hv in Hpost. apply post_signalement_returned in Hpost.
        destruct Hpost as (_ & _ & _ & req & Hreq & _ & Hj).
        exact (Hid _ _ _ Hreq Hj).
      + rewrite Hv in Hpost. apply post_signalement_returned in Hpost.
        destruct Hpost as (_ & _ & _ & req & Hreq & _ & Hj).
        exact (Hid _ _ _ Hreq Hj).
      + rewrite Hv in Hs. discriminate.
    - exists z. reflexivity.
    - discriminate Hpersist. }
  destruct Hint as [z Hz]. rewrite Hz in Hpersist.
  assert (Hdb1 : database w1 = database w).
  { destruct Hemit as [_ _ _ Hpost | c _ _ _ _ Hpost | c z0 _ _ _ _ _ _ ->].
    - apply post_signalement_returned in Hpost. apply Hpost.
    - apply post_signalement_returned in Hpost. apply Hpost.
    - reflexivity. }
  apply persist_signalement_returned in Hpersist.
  destruct Hpersist as [[Hnone _] | (z' & _ & _ & _ & Hupd)]; [discriminate|].
  apply update_signalement_rows in Hupd.
  destruct Hupd as (id & ts & _ & _ & _ & _ & _ & Hrows).
  simpl in Hrows. rewrite Hdb1 in Hrows.
  intros r' Hin. rewrite Hrows in Hin. unfold sql_update_signalement in Hin.
  apply in_map_iff in Hin. destruct Hin as (r & Hr' & Hr).
  destruct (String.eqb_spec (col_core_id r) (core_id issue)) as [Hk|Hk].
  - subst r'. split; [reflexivity|]. simpl. intros Hne. contradiction.
  - subst r'. split; [intros Heq; contradiction | intros _; exact Hr].
Qed.

Lemma emission_for_each_references (issues : list OsmoseCrackerIssue) :
  (forall n req r, espaceco_post n req = Answered r ->
                   json_field "id" r <> Returned PyNone) ->
  forall (vars vars' : EmissionVars) (w w' : World),
    for_each body issues vars w = (Returned vars', w') ->
    forall r', In r' (osmoseissue (database w')) ->
      (In (col_core_id r') (map core_id issues) -> has_reference r' = true)
      /\ (~ In (col_core_id r') (map core_id issues) -> In r' (osmoseissue (database w))).
Proof.
  intros Hid. induction issues as [|x issues IH] using rev_ind;
    intros vars vars' w w' H r' Hin.
  - simpl in H. injection H as <- <-. split; [intros [] | intros _; exact Hin].
  - rewrite for_each_app in H. apply bind_returned in H.
    destruct H as (vars1 & w1 & H1 & H2). rewrite for_each_one in H2.
    destruct (emission_body_references x vars1 vars' w1 w' Hid H2 r' Hin) as [Hx Hother].
    rewrite map_app. simpl. split.
    + intros Hkey. destruct (String.eqb_spec (col_core_id r') (core_id x)) as [Heq|Hne].
      * apply Hx. exact Heq.
      * apply (IH vars vars1 w w1 H1 r' (Hother Hne)).
        apply in_app_or in Hkey. destruct Hkey as [Hkey|[Hkey|[]]]; [exact Hkey|].
        exfalso. apply Hne. symmetry. exact Hkey.
    + intros Hkey.
      assert (Hne : col_core_id r' <> core_id x).
      { intros Heq. apply Hkey. apply in_or_app. right. left. symmetry. exact Heq. }
      apply (IH vars vars1 w w1 H1 r' (Hother Hne)).
      intros Hp. apply Hkey. apply in_or_app. left. exact Hp.
Qed.

End EmissionFrame.

(** X4.  The emission loop, whatever its outcome, asks for no report status,
    leaves every column other than the three report columns as it was,
    and sends at most one request per issue of the list; each request sent
    is the creation request of an issue of the list, with the text that
    [markdown_report] gave for it, and none bears the status "repost". *)
Theorem emission_loop_sends_creation_requests_only
    (markdown_report : OsmoseCrackerIssue -> outcome string)
    (espaceco_post : nat -> PostRequest -> http_outcome)
    (type_signalement : type_signalement_choice)
    (issuesSignalementTimestamp : datetime)
    (issues : list OsmoseCrackerIssue) (w : World) :
  looked_up (snd (emission_loop markdown_report espaceco_post type_signalement
                    issuesSignalementTimestamp issues w))
  = looked_up w
  /\ report_columns_only (database w)
       (database (snd (emission_loop markdown_report espaceco_post type_signalement
                         issuesSignalementTimestamp issues w)))
  /\ exists new,
       posted (snd (emission_loop markdown_report espaceco_post type_signalement
                      issuesSignalementTimestamp issues w))
       = (new ++ posted w)%list
       /\ (List.length new <= List.length issues)%nat
       /\ Forall
            (fun req =>
               req_status req <> "repost"
               /\ exists issue text,
                    In issue issues
                    /\ markdown_report issue = Returned text
                    /\ req = creation_request type_signalement text issue)
            new.
Proof.
  unfold emission_loop.
  destruct (emission_for_each_frame markdown_report espaceco_post type_signalement
              issuesSignalementTimestamp issues
              {| var_cluster_id := None; var_signalementid := PyNone;
                 var_reportcounter := O |} w)
    as (Hl & Hdb & new & Hp & Hlen & Hall).
  split; [exact Hl|]. split; [exact Hdb|].
  exists new. split; [exact Hp|]. split; [exact Hlen|].
  eapply Forall_impl; [|exact Hall].
  intros req (issue & text & Hin & Hmd & Hreq). split.
  - rewrite Hreq. apply creation_request_status.
  - exists issue, text. repeat split; assumption.
Qed.

(** X5.  When the emission loop completes, [reportcounter] is the number of
    requests it sent: a linked issue sends none and is not counted. *)
Theorem reportcounter_counts_requests
    (markdown_report : OsmoseCrackerIssue -> outcome string)
    (espaceco_post : nat -> PostRequest -> http_outcome)
    (type_signalement : type_signalement_choice)
    (issuesSignalementTimestamp : datetime)
    (issues : list OsmoseCrackerIssue) (w w' : World) (vars : EmissionVars) :
  emission_loop markdown_report espaceco_post type_signalement
    issuesSignalementTimestamp issues w = (Returned vars, w') ->
  (List.length (posted w') = List.length (posted w) + var_reportcounter vars)%nat
  /\ (var_reportcounter vars <= List.length issues)%nat.
Proof.
  intros H. pose proof H as Hcount.
  apply emission_for_each_counts in Hcount. simpl in Hcount.
  split; [lia|].
  pose proof (emission_for_each_frame markdown_report espaceco_post type_signalement
                issuesSignalementTimestamp issues
                {| var_cluster_id := None; var_signalementid := PyNone;
                   var_reportcounter := O |} w) as (_ & _ & new & Hp & Hlen & _).
  unfold emission_loop in H. rewrite H in Hp. simpl in Hp.
  rewrite Hp, length_app in Hcount. lia.
Qed.

Lemma reportcounter_counts_requests_witness :
  List.length
    (posted
       (snd (emission_loop sample_markdown_report sample_post submit 1000
               [sample_issue "a" (Some "K1"); sample_issue "b" (Some "K1");
                sample_issue "c" None]
               (sample_world [sample_row "a" None None; sample_row "b" None None;
                              sample_row "c" None None]))))
  = Nat.add
      (List.length
         (posted (sample_world [sample_row "a" None None; sample_row "b" None None;
                                sample_row "c" None None])))
      2%nat
  /\ Nat.le 2%nat
       (List.length [sample_issue "a" (Some "K1"); sample_issue "b" (Some "K1");
                     sample_issue "c" None]).
Proof.
  apply (reportcounter_counts_requests sample_markdown_report sample_post submit 1000
           [sample_issue "a" (Some "K1"); sample_issue "b" (Some "K1");
            sample_issue "c" None]
           (sample_world [sample_row "a" None None; sample_row "b" None None;
                          sample_row "c" None None])
           _
           {| var_cluster_id := Some "K1"; var_signalementid := PyInt 102;
              var_reportcounter := 2%nat |}).
  reflexivity.
Defined.

(** X6.  When the emission loop completes and no creation was answered with a
    null id, every row that bears the key of an issue of the list holds a
    report reference: the eligibility selection, run again, answers none
    of these issues. *)
Theorem reported_issues_leave_eligibility
    (markdown_report : OsmoseCrackerIssue -> outcome string)
    (espaceco_post : nat -> PostRequest -> http_outcome)
    (type_signalement : type_signalement_choice)
    (issuesSignalementTimestamp : datetime)
    (issues : list OsmoseCrackerIssue) (w w' : World) (vars : EmissionVars) :
  (forall n req r, espaceco_post n req = Answered r ->
                   json_field "id" r <> Returned PyNone) ->
  emission_loop markdown_report espaceco_post type_signalement
    issuesSignalementTimestamp issues w = (Returned vars, w') ->
  forall again,
    fst (get_issues_by_espacecosignalements_none_and_zicad_false (database w'))
    = Returned again ->
    forall issue, In issue issues -> ~ In (core_id issue) (map core_id again).
Proof.
  intros Hid Hrun again Hsel issue Hin Hagain.
  unfold get_issues_by_espacecosignalements_none_and_zicad_false, select_issues in Hsel.
  destruct (db_valid (database w')); [|discriminate]. simpl in Hsel.
  injection Hsel as <-. rewrite map_map in Hagain. simpl in Hagain.
  apply in_map_iff in Hagain. destruct Hagain as (r & Hkey & Hr).
  apply filter_In in Hr. destruct Hr as [Hr Hwhere].
  unfold emission_loop in Hrun.
  destruct (emission_for_each_references markdown_report espaceco_post type_signalement
              issuesSignalementTimestamp issues Hid _ _ _ _ Hrun r Hr) as [Href _].
  assert (Hhas : has_reference r = true).
  { apply Href. rewrite Hkey. apply in_map. exact Hin. }
  unfold where_none_and_zicad_false in Hwhere. unfold has_reference in Hhas.
  destruct (sql_is_null (col_espaceco_signalement_id r)); discriminate.
Qed.

Lemma reported_issues_leave_eligibility_witness :
  In (sample_issue "a" (Some "K1"))
    [sample_issue "a" (Some "K1"); sample_issue "b" (Some "K1")]
  /\ ~ In (core_id (sample_issue "a" (Some "K1")))
         (map core_id [_issue_row_to_issue_instance (sample_row "c" None None)]).
Proof.
  split; [left; reflexivity|].
  apply (reported_issues_leave_eligibility sample_markdown_report sample_post submit 1000
           [sample_issue "a" (Some "K1"); sample_issue "b" (Some "K1")]
           (sample_world [sample_row "a" None None; sample_row "b" None None;
                          sample_row "c" None None])
           (snd (emission_loop sample_markdown_report sample_post submit 1000
                   [sample_issue "a" (Some "K1"); sample_issue "b" (Some "K1")]
                   (sample_world [sample_row "a" None None; sample_row "b" None None;
                                  sample_row "c" None None])))
           {| var_cluster_id := Some "K1"; var_signalementid := PyInt (-101);
              var_reportcounter := 1%nat |}).
  - intros n req r [= <-]. simpl. discriminate.
  - reflexivity.
  - reflexivity.
  - left. reflexivity.
Defined.

(** ** What the status refresh leaves alone *)

Lemma report_columns_only_keys (db db' : Database) :
  report_columns_only db db' ->
  map col_core_id (osmoseissue db') = map col_core_id (osmoseissue db).
Proof.
  intros [_ H].
  apply (f_equal (map col_core_id)) in H. rewrite !map_map in H. exact H.
Qed.

Section RefreshFrame.

Variable espaceco_get : nat -> option Z -> http_outcome.
Variable issuesStatusrefreshTimestamp : datetime.

(** One turn, whatever its outcome. *)
Lemma refresh_body_world (obj_select : OsmoseCrackerIssue) (w : World) :
  posted (snd (refresh_body espaceco_get issuesStatusrefreshTimestamp obj_select tt w))
  = posted w
  /\ report_columns_only (database w)
       (database
          (snd (refresh_body espaceco_get issuesStatusrefreshTimestamp obj_select tt w))).
Proof.
  rewrite refresh_body_unfold.
  destruct (status_of_reply _) as [status|e]; simpl.
  2:{ split; [reflexivity | apply report_columns_only_refl]. }
  destruct (is_not_none status); simpl.
  2:{ split; [reflexivity | apply report_columns_only_refl]. }
  unfold on_database. simpl.
  pose proof (update_signalement_frame
                (set_espaceco (espaceco_signalement_id obj_select)
                   (Some (py_str status)) (Some issuesStatusrefreshTimestamp) obj_select)
                (database w)) as Hf.
  destruct (update_signalement _ (database w)) as [o db]. simpl in *.
  split; [reflexivity | exact Hf].
Qed.

Lemma refresh_loop_world (issues : list OsmoseCrackerIssue) :
  forall w : World,
    posted (snd (refresh_loop espaceco_get issuesStatusrefreshTimestamp issues w))
    = posted w
    /\ report_columns_only (database w)
         (database (snd (refresh_loop espaceco_get issuesStatusrefreshTimestamp issues w)))
    /\ exists asked,
         looked_up (snd (refresh_loop espaceco_get issuesStatusrefreshTimestamp issues w))
         = (asked ++ looked_up w)%list
         /\ (List.length asked <= List.length issues)%nat.
Proof.
  unfold refresh_loop. induction issues as [|x issues IH]; intros w.
  - simpl. split; [reflexivity|]. split; [apply report_columns_only_refl|].
    exists []. split; [reflexivity | simpl; lia].
  - cbn [for_each]. unfold bind.
    pose proof (refresh_body_world x w) as (Hp & Hdb).
    pose proof (refresh_body_looked_up espaceco_get issuesStatusrefreshTimestamp x w) as Hl.
    destruct (refresh_body espaceco_get issuesStatusrefreshTimestamp x tt w)
      as [[[]|e] w1]; simpl in *.
    + destruct (IH w1) as (Hp2 & Hdb2 & asked & Hl2 & Hlen).
      split; [congruence|].
      split; [apply (report_columns_only_trans _ _ _ Hdb Hdb2)|].
      exists (asked ++ [espaceco_signalement_id x])%list. split.
      * rewrite Hl2, Hl, <- app_assoc. reflexivity.
      * rewrite length_app. simpl. lia.
    + split; [exact Hp|]. split; [exact Hdb|].
      exists [espaceco_signalement_id x]. split; [exact Hl | simpl; lia].
Qed.

End RefreshFrame.

Lemma status_refresh_world
    (espaceco_get : nat -> option Z -> http_outcome) (now : datetime) (w : World) :
  posted (snd (status_refresh espaceco_get now w)) = posted w
  /\ report_columns_only (database w) (database (snd (status_refresh espaceco_get now w)))
  /\ exists asked,
       looked_up (snd (status_refresh espaceco_get now w)) = (asked ++ looked_up w)%list
       /\ (List.length asked
           <= List.length (filter where_unclosed (osmoseissue (database w))))%nat.
Proof.
  unfold status_refresh, bind, on_database,
    get_issues_by_espacecosignalements_unclosed, select_issues.
  destruct (db_valid (database w)); simpl.
  - destruct (refresh_loop_world espaceco_get now
                (map _issue_row_to_issue_instance
                   (filter where_unclosed (osmoseissue (database w))))
                {| database := database w; posted := posted w; looked_up := looked_up w |})
      as (Hp & Hdb & asked & Hl & Hlen).
    simpl in *. split; [exact Hp|]. split; [exact Hdb|].
    exists asked. split; [exact Hl|]. rewrite length_map in Hlen. exact Hlen.
  - split; [reflexivity|]. split; [apply report_columns_only_refl|].
    exists []. split; [reflexivity | simpl; lia].
Qed.

(** X8.  The status refresh, whatever its outcome, sends no creation request,
    leaves every column other than the three report columns as it was, and
    asks for at most one status per selected row. *)
Theorem status_refresh_sends_lookups_only
    (espaceco_get : nat -> option Z -> http_outcome) (now : datetime) (w : World) :
  posted (snd (status_refresh espaceco_get now w)) = posted w
  /\ report_columns_only (database w) (database (snd (status_refresh espaceco_get now w)))
  /\ map col_core_id (osmoseissue (database (snd (status_refresh espaceco_get now w))))
     = map col_core_id (osmoseissue (database w))
  /\ exists asked,
       looked_up (snd (status_refresh espaceco_get now w)) = (asked ++ looked_up w)%list
       /\ (List.length asked
           <= List.length (filter where_unclosed (osmoseissue (database w))))%nat.
Proof.
  destruct (status_refresh_world espaceco_get now w) as (Hp & Hdb & Hasked).
  split; [exact Hp|]. split; [exact Hdb|].
  split; [apply report_columns_only_keys; exact Hdb | exact Hasked].
Qed.

(** ** Which reports are polled again *)

Lemma existsb_key_filter (f : Row -> bool) (rows : list Row) (r : Row) :
  NoDup (map col_core_id rows) ->
  find (fun x => String.eqb (col_core_id x) (col_core_id r)) rows = Some r ->
  existsb (fun x => String.eqb (col_core_id x) (col_core_id r)) (filter f rows) = f r.
Proof.
  induction rows as [|x rows IH]; intros Hnd Hfind; [discriminate|].
  inversion Hnd as [|k ks Hnotin Hnd']; subst. simpl in Hfind.
  assert (Hrest : forall y, In y (filter f rows) -> col_core_id y <> col_core_id x).
  { intros y Hy Heq. apply filter_In in Hy. apply Hnotin. rewrite <- Heq.
    apply in_map. apply Hy. }
  destruct (String.eqb_spec (col_core_id x) (col_core_id r)) as [Heq|Hne].
  - injection Hfind as ->. simpl. destruct (f r) eqn:Hf; simpl.
    + rewrite String.eqb_refl. reflexivity.
    + destruct (existsb _ (filter f rows)) eqn:Hex; [|reflexivity].
      apply existsb_exists in Hex. destruct Hex as (y & Hy & Hk).
      apply String.eqb_eq in Hk. exfalso. exact (Hrest y Hy Hk).
  - simpl. destruct (f x); simpl.
    + destruct (String.eqb_spec (col_core_id x) (col_core_id r)); [contradiction|].
      apply IH; assumption.
    + apply IH; assumption.
Qed.

(** X9.  When the status refresh completes on a table whose keys are distinct,
    a selected row whose lookup returned a status is selected by the next
    refresh exactly when the text of that status is none of the values of
    [OC_UNCLOSED_STATUSES]: one of these four words ends the polling of
    the report, any other status keeps it polled. *)
Theorem closed_status_ends_polling
    (espaceco_get : nat -> option Z -> http_outcome) (now : datetime) (w w' : World) :
  NoDup (map col_core_id (osmoseissue (database w))) ->
  status_refresh espaceco_get now w = (Returned tt, w') ->
  forall i r status,
    nth_error (filter where_unclosed (osmoseissue (database w))) i = Some r ->
    status_of_reply
      (espaceco_get (List.length (looked_up w) + i)%nat
         (int_if_truthy (col_espaceco_signalement_id r))) = Returned status ->
    is_not_none status = true ->
    existsb (fun r' => String.eqb (col_core_id r') (col_core_id r))
      (filter where_unclosed (osmoseissue (database w')))
    = negb (sql_in (py_str status) OC_UNCLOSED_STATUSES).
Proof.
  intros Hnd Hrun i r status Hi Hreply Hnn.
  pose proof (status_refresh_world espaceco_get now w) as (_ & Hframe & _).
  rewrite Hrun in Hframe. simpl in Hframe.
  apply report_columns_only_keys in Hframe.
  unfold status_refresh in Hrun.
  apply bind_returned in Hrun. destruct Hrun as (issues & w1 & Hsel & Hloop).
  apply on_database_returned in Hsel. destruct Hsel as (Hsel & _ & Hlog).
  unfold get_issues_by_espacecosignalements_unclosed, select_issues in Hsel.
  destruct (db_valid (database w)); [|discriminate].
  injection Hsel as <- Hdb.
  assert (Hkeys : NoDup (map core_id
                           (map _issue_row_to_issue_instance
                              (filter where_unclosed (osmoseissue (database w)))))).
  { rewrite map_map. simpl. apply nodup_map_filter. exact Hnd. }
  destruct (refresh_loop_effect espaceco_get now _ Hkeys w1 w' Hloop) as [_ Hmembers].
  specialize (Hmembers i (_issue_row_to_issue_instance r)
                (map_nth_error _issue_row_to_issue_instance i _ Hi)).
  rewrite Hlog, <- Hdb in Hmembers. simpl in Hmembers.
  rewrite Hreply in Hmembers.
  assert (Hr : stored (col_core_id r) (database w) = Some r).
  { apply stored_unique; [exact Hnd|]. apply nth_error_In in Hi.
    apply filter_In in Hi. apply Hi. }
  rewrite Hr in Hmembers.
  assert (Hstored : exists z,
             stored (col_core_id r) (database w')
             = Some (set_signalement z (py_str status) now r)).
  { destruct status as [|n|s]; [discriminate| |];
      destruct Hmembers as (z & r0 & _ & [= <-] & Hr'); exists z; exact Hr'. }
  destruct Hstored as [z Hstored].
  pose proof (existsb_key_filter where_unclosed (osmoseissue (database w'))
                (set_signalement z (py_str status) now r)) as Hex.
  simpl in Hex. rewrite Hex.
  - reflexivity.
  - rewrite Hframe. exact Hnd.
  - exact Hstored.
Qed.

Lemma closed_status_ends_polling_witness :
  existsb
    (fun r' => String.eqb (col_core_id r')
                 (col_core_id (sample_row "a" (Some 101) (Some "submit"))))
    (filter where_unclosed
       (osmoseissue
          (database
             (snd (status_refresh sample_get 2000
                     (sample_world [sample_row "a" (Some 101) (Some "submit");
                                    sample_row "b" (Some 102) (Some "pending")]))))))
  = negb (sql_in (py_str (PyStr "valid")) OC_UNCLOSED_STATUSES).
Proof.
  apply (closed_status_ends_polling sample_get 2000
           (sample_world [sample_row "a" (Some 101) (Some "submit");
                          sample_row "b" (Some 102) (Some "pending")])
           (snd (status_refresh sample_get 2000
                   (sample_world [sample_row "a" (Some 101) (Some "submit");
                                  sample_row "b" (Some 102) (Some "pending")])))
           ltac:(repeat constructor; simpl; intuition discriminate)
           eq_refl
           O (sample_row "a" (Some 101) (Some "submit")) (PyStr "valid")
           eq_refl eq_refl eq_refl).
Defined.

(** ** What [clustering] does to the issue objects *)

Lemma matching_from_bound (key : string) (issues : list OsmoseCrackerIssue) :
  forall a : nat,
    Forall (fun i => (i < a + List.length issues)%nat) (matching_from a key issues).
Proof.
  induction issues as [|o issues IH]; intros a; simpl; [constructor|].
  assert (Hrest : Forall (fun i => (i < a + S (List.length issues))%nat)
                    (matching_from (S a) key issues)).
  { eapply Forall_impl; [|apply (IH (S a))]. simpl. intros i Hi. lia. }
  destruct (String.eqb (core_id o) key); [constructor; [lia | exact Hrest] | exact Hrest].
Qed.

Lemma attach_last_clears (pgvalue : Type) (pg_str : pgvalue -> string)
    (rows : list (ClusterRow pgvalue)) (o : OsmoseCrackerIssue) :
  set_cluster None None (attach_last pg_str rows o) = set_cluster None None o.
Proof.
  unfold attach_last. destruct (last_row_for (core_id o) rows) as [row|]; [|reflexivity].
  unfold attach_cluster. destruct (row_cluster_id row); reflexivity.
Qed.

Lemma attach_last_core_id (pgvalue : Type) (pg_str : pgvalue -> string)
    (rows : list (ClusterRow pgvalue)) (o : OsmoseCrackerIssue) :
  core_id (attach_last pg_str rows o) = core_id o.
Proof.
  unfold attach_last. destruct (last_row_for (core_id o) rows) as [row|]; [|reflexivity].
  apply attach_cluster_core_id.
Qed.

(** X10.  [clustering] assigns the cluster id and the sketch of the issue
    objects and nothing else: every object keeps its other attributes, an
    object whose key is on no row of the answer is left as it was, and the
    references returned all point into the list received. *)
Theorem clustering_assigns_cluster_attributes_only
    (pgvalue : Type) (pg_str : pgvalue -> string)
    (bduni_clusterize : list ClusterQuery -> outcome (option (list (ClusterRow pgvalue))))
    (issues : list OsmoseCrackerIssue) (clustered_rows : list (ClusterRow pgvalue)) :
  bduni_clusterize (map cluster_query issues) = Returned (Some clustered_rows) ->
  exists heap order_issues,
    clustering pg_str bduni_clusterize issues = Returned (heap, order_issues)
    /\ heap = map (attach_last pg_str clustered_rows) issues
    /\ map (set_cluster None None) heap = map (set_cluster None None) issues
    /\ (forall i o, nth_error issues i = Some o ->
          ~ In (core_id o) (map row_core_id clustered_rows) ->
          nth_error heap i = Some o)
    /\ Forall (fun i => (i < List.length issues)%nat) order_issues.
Proof.
  intros Hrows. unfold clustering, correlate. rewrite Hrows.
  rewrite (correlate_rows_from pgvalue pg_str issues clustered_rows issues [])
    by reflexivity.
  rewrite fold_correlate_object_map.
  rewrite (map_ext _ (attach_last pg_str clustered_rows))
    by (intros o; apply fold_correlate_object_last).
  eexists. eexists. split; [reflexivity|]. split; [reflexivity|]. split; [|split].
  - rewrite map_map. apply map_ext. intros o. apply attach_last_clears.
  - intros i o Hi Hno. rewrite (map_nth_error _ _ _ Hi). f_equal.
    unfold attach_last.
    destruct (last_row_for (core_id o) clustered_rows) as [row|] eqn:Hlast;
      [|reflexivity].
    exfalso. apply Hno. unfold last_row_for in Hlast. apply find_some in Hlast.
    destruct Hlast as [Hin Hkey]. apply String.eqb_eq in Hkey. rewrite Hkey.
    apply in_map. apply in_rev. exact Hin.
  - simpl. apply Forall_flat_map. apply Forall_forall. intros row _.
    apply (matching_from_bound (row_core_id row) issues O).
Qed.

Lemma clustering_assigns_cluster_attributes_only_witness :
  exists heap order_issues,
    clustering (fun s : string => s)
      (constant_clusterize [sample_cluster_row "b" (Some "K1")])
      [sample_issue "a" None; sample_issue "b" None]
    = Returned (heap, order_issues)
    /\ heap = map (attach_last (fun s : string => s) [sample_cluster_row "b" (Some "K1")])
                [sample_issue "a" None; sample_issue "b" None]
    /\ map (set_cluster None None) heap
       = map (set_cluster None None) [sample_issue "a" None; sample_issue "b" None]
    /\ (forall i o,
          nth_error [sample_issue "a" None; sample_issue "b" None] i = Some o ->
          ~ In (core_id o) (map row_core_id [sample_cluster_row "b" (Some "K1")]) ->
          nth_error heap i = Some o)
    /\ Forall
         (fun i => (i < List.length [sample_issue "a" None; sample_issue "b" None])%nat)
         order_issues.
Proof.
  apply (clustering_assigns_cluster_attributes_only string (fun s : string => s)
           (constant_clusterize [sample_cluster_row "b" (Some "K1")])
           [sample_issue "a" None; sample_issue "b" None]
           [sample_cluster_row "b" (Some "K1")]).
  reflexivity.
Defined.

Lemma map_core_id_filter (key : string) (f : OsmoseCrackerIssue -> OsmoseCrackerIssue)
    (issues : list OsmoseCrackerIssue) :
  (forall o, core_id (f o) = core_id o) ->
  map core_id (map f (filter (fun issue => String.eqb (core_id issue) key) issues))
  = filter (fun k => String.eqb k key) (map core_id issues).
Proof.
  intros Hf. induction issues as [|o issues IH]; simpl; [reflexivity|].
  destruct (String.eqb (core_id o) key); simpl; [rewrite Hf, IH|]; auto.
Qed.

Lemma flat_map_core_id (pgvalue : Type) (f : OsmoseCrackerIssue -> OsmoseCrackerIssue)
    (issues : list OsmoseCrackerIssue) (rows : list (ClusterRow pgvalue)) :
  (forall o, core_id (f o) = core_id o) ->
  map core_id
    (flat_map
       (fun row =>
          map f (filter (fun issue => String.eqb (core_id issue) (row_core_id row)) issues))
       rows)
  = flat_map
      (fun row => filter (fun k => String.eqb k (row_core_id row)) (map core_id issues))
      rows.
Proof.
  intros Hf. induction rows as [|row rows IH]; simpl; [reflexivity|].
  rewrite map_app, IH. f_equal. apply map_core_id_filter. exact Hf.
Qed.

(** X11.  The keys of the list that [clustering] returns, whatever keys the
    answer repeats: for each row in turn, the keys of the list received
    that are the key of the row.  So an issue is in the list returned
    exactly when its key is on a row of the answer, once per such row;
    an issue the answer leaves out is dropped from the run. *)
Theorem clustering_result_keys
    (pgvalue : Type) (pg_str : pgvalue -> string)
    (bduni_clusterize : list ClusterQuery -> outcome (option (list (ClusterRow pgvalue))))
    (issues : list OsmoseCrackerIssue) (clustered_rows : list (ClusterRow pgvalue)) :
  bduni_clusterize (map cluster_query issues) = Returned (Some clustered_rows) ->
  exists result,
    clustering_result pg_str bduni_clusterize issues = Returned result
    /\ map core_id result
       = flat_map
           (fun row => filter (fun k => String.eqb k (row_core_id row)) (map core_id issues))
           clustered_rows
    /\ forall k, In k (map core_id result)
                 <-> In k (map core_id issues) /\ In k (map row_core_id clustered_rows).
Proof.
  intros Hrows.
  rewrite (clustering_result_by_row pgvalue pg_str bduni_clusterize issues clustered_rows
             Hrows).
  eexists. split; [reflexivity|].
  assert (Hkeys : map core_id
                    (flat_map
                       (fun row =>
                          map (attach_last pg_str clustered_rows)
                            (filter
                               (fun issue => String.eqb (core_id issue) (row_core_id row))
                               issues))
                       clustered_rows)
                  = flat_map
                      (fun row =>
                         filter (fun k => String.eqb k (row_core_id row))
                           (map core_id issues))
                      clustered_rows).
  { apply flat_map_core_id. intros o. apply attach_last_core_id. }
  split; [exact Hkeys|]. intros k. rewrite Hkeys. rewrite in_flat_map. split.
  - intros (row & Hrow & Hk). apply filter_In in Hk. destruct Hk as [Hk Heq].
    apply String.eqb_eq in Heq. split; [exact Hk|]. rewrite Heq. apply in_map. exact Hrow.
  - intros [Hk Hrow]. apply in_map_iff in Hrow. destruct Hrow as (row & Heq & Hrow).
    exists row. split; [exact Hrow|]. apply filter_In. split; [exact Hk|].
    rewrite Heq. apply String.eqb_refl.
Qed.

Lemma clustering_result_keys_witness :
  exists result,
    clustering_result (fun s : string => s)
      (constant_clusterize [sample_cluster_row "b" (Some "K1");
                            sample_cluster_row "b" (Some "K2")])
      [sample_issue "a" None; sample_issue "b" None]
    = Returned result
    /\ map core_id result
       = flat_map
           (fun row =>
              filter (fun k => String.eqb k (row_core_id row))
                (map core_id [sample_issue "a" None; sample_issue "b" None]))
           [sample_cluster_row "b" (Some "K1"); sample_cluster_row "b" (Some "K2")]
    /\ forall k, In k (map core_id result)
                 <-> In k (map core_id [sample_issue "a" None; sample_issue "b" None])
                     /\ In k (map row_core_id
                                [sample_cluster_row "b" (Some "K1");
                                 sample_cluster_row "b" (Some "K2")]).
Proof.
  apply (clustering_result_keys string (fun s : string => s)
           (constant_clusterize [sample_cluster_row "b" (Some "K1");
                                 sample_cluster_row "b" (Some "K2")])
           [sample_issue "a" None; sample_issue "b" None]
           [sample_cluster_row "b" (Some "K1"); sample_cluster_row "b" (Some "K2")]).
  reflexivity.
Defined.

(** ** The table under [update_zicad] *)

Lemma sql_update_zicad_absent (key : string) (zicad : Z) (rows : list Row) :
  find (fun r => String.eqb (col_core_id r) key) rows = None ->
  sql_update_zicad key zicad rows = rows.
Proof.
  intros Hnone. unfold sql_update_zicad.
  rewrite <- (map_id rows) at 2. apply map_ext_in. intros r Hr.
  rewrite (find_none _ _ Hnone r Hr). reflexivity.
Qed.

Lemma stored_after_update_zicad (key k : string) (zicad : Z) (rows : list Row) :
  find (fun r => String.eqb (col_core_id r) k) (sql_update_zicad key zicad rows)
  = if String.eqb k key
    then option_map (set_zicad zicad) (find (fun r => String.eqb (col_core_id r) k) rows)
    else find (fun r => String.eqb (col_core_id r) k) rows.
Proof.
  induction rows as [|r rows IH]; simpl.
  - destruct (String.eqb k key); reflexivity.
  - destruct (String.eqb_spec (col_core_id r) key) as [Hrk|Hrk]; simpl.
    + destruct (String.eqb_spec (col_core_id r) k) as [Hk|Hk].
      * subst k. rewrite Hrk, String.eqb_refl. reflexivity.
      * rewrite IH. reflexivity.
    + destruct (String.eqb_spec (col_core_id r) k) as [Hk|Hk].
      * subst k. destruct (String.eqb_spec (col_core_id r) key); [contradiction | reflexivity].
      * rewrite IH. reflexivity.
Qed.

(** A successful [update_zicad]: the word spliced and the table
    afterwards. *)
Lemma update_zicad_returned (i : OsmoseCrackerIssue) (db db' : Database) (b : bool) :
  update_zicad i db = (Returned b, db') ->
  exists zicad,
    b = true
    /\ sql_boolean_word (str_column (bduni_zicad i)) = Some zicad
    /\ db_valid db' = db_valid db
    /\ osmoseissue db' = sql_update_zicad (core_id i) zicad (osmoseissue db).
Proof.
  unfold update_zicad. destruct (db_valid db); simpl; [|discriminate].
  destruct (sql_boolean_word _) as [zicad|]; [|discriminate].
  destruct (sql_text (core_id i)) as [key|] eqn:Hk; [|discriminate].
  apply sql_text_some in Hk. destruct Hk as [-> _].
  intros [= <- <-]. exists zicad. repeat split.
Qed.

(** X13.  On a key that no row bears, [update_zicad] answers [True] and leaves
    the table as it was, where [update_signalement] raises: the caller of
    [update_zicad] cannot tell a flag that was stored from one that was
    not. *)
Theorem update_zicad_answers_true_without_row
    (i : OsmoseCrackerIssue) (db : Database) (zicad : Z) :
  db_valid db = true ->
  sql_boolean_word (str_column (bduni_zicad i)) = Some zicad ->
  has_apostrophe (core_id i) = false ->
  stored (core_id i) db = None ->
  update_zicad i db = (Returned true, db)
  /\ exists e, update_signalement i db = (Raised e, db).
Proof.
  intros Hv Hword Hkey Hnone. split.
  - unfold update_zicad, sql_text. rewrite Hv, Hword, Hkey. simpl.
    rewrite (sql_update_zicad_absent _ _ _ Hnone). rewrite <- Hv.
    destruct db; reflexivity.
  - destruct (update_signalement i db) as [[[]|e] db'] eqn:Hupd.
    + apply update_signalement_returned in Hupd.
      destruct Hupd as (id & ts & r & _ & _ & Hr & _). rewrite Hnone in Hr. discriminate.
    + exists e. apply update_signalement_raised in Hupd. subst db'. reflexivity.
Qed.

Lemma update_zicad_answers_true_without_row_witness :
  update_zicad (set_bduni_zicad (Some "True") (sample_issue "z" None))
    {| db_valid := true; osmoseissue := [sample_null_row "a"] |}
  = (Returned true, {| db_valid := true; osmoseissue := [sample_null_row "a"] |})
  /\ exists e,
       update_signalement (set_bduni_zicad (Some "True") (sample_issue "z" None))
         {| db_valid := true; osmoseissue := [sample_null_row "a"] |}
       = (Raised e, {| db_valid := true; osmoseissue := [sample_null_row "a"] |}).
Proof.
  apply (update_zicad_answers_true_without_row
           (set_bduni_zicad (Some "True") (sample_issue "z" None))
           {| db_valid := true; osmoseissue := [sample_null_row "a"] |} 1).
  - reflexivity.
  - reflexivity.
  - reflexivity.
  - reflexivity.
Defined.

(** ** [is_in_zicad] *)

Section ZicadProperties.

Variable bduni_connect : outcome unit.
Variable bduni_zicad_query : nat -> spec_float -> spec_float -> outcome (option string).

(** The loop over a run of queries that end in the first failure, or in
    the end of the list. *)
Lemma is_in_zicad_loop_prefix (done rest : list OsmoseCrackerIssue) :
  forall (index : nat) (updatedIssueList : list OsmoseCrackerIssue),
    (forall j x, nth_error done j = Some x ->
       exists answer,
         bduni_zicad_query (index + j)%nat (core_lon x) (core_lat x) = Returned answer) ->
    (rest = []
     \/ exists x rest' exc,
          rest = x :: rest'
          /\ bduni_zicad_query (index + List.length done)%nat (core_lon x) (core_lat x)
             = Raised exc) ->
    snd (is_in_zicad_loop bduni_zicad_query index (done ++ rest) updatedIssueList)
    = (updatedIssueList ++ zicad_characterised bduni_zicad_query index done)%list.
Proof.
  induction done as [|x done IH]; intros index acc Hdone Hrest.
  - simpl. rewrite app_nil_r.
    destruct Hrest as [->|(x & rest' & exc & -> & Hexc)]; [reflexivity|].
    simpl. rewrite Nat.add_0_r in Hexc. rewrite Hexc. reflexivity.
  - simpl. destruct (Hdone O x eq_refl) as [answer Hanswer].
    rewrite Nat.add_0_r in Hanswer. rewrite Hanswer.
    assert (Hdone' : forall j y, nth_error done j = Some y ->
              exists answer',
                bduni_zicad_query (S index + j)%nat (core_lon y) (core_lat y)
                = Returned answer').
    { intros j y Hj. destruct (Hdone (S j) y Hj) as [a Ha].
      exists a. rewrite <- Ha. f_equal. lia. }
    assert (Hrest' : rest = []
              \/ exists y rest' exc,
                   rest = y :: rest'
                   /\ bduni_zicad_query (S index + List.length done)%nat
                        (core_lon y) (core_lat y) = Raised exc).
    { destruct Hrest as [->|(y & rest' & exc & -> & Hexc)]; [left; reflexivity|].
      right. exists y, rest', exc. split; [reflexivity|]. rewrite <- Hexc.
      f_equal. simpl. lia. }
    destruct answer as [zicad|].
    + rewrite (IH (S index) _ Hdone' Hrest'), <- app_assoc. reflexivity.
    + apply (IH (S index) _ Hdone' Hrest').
Qed.

(** What the loop appends: issues of the list, in the order of the list,
    changed in their ZICAD flag only. *)
Lemma is_in_zicad_loop_members (issues : list OsmoseCrackerIssue) :
  forall (index : nat) (updatedIssueList : list OsmoseCrackerIssue),
    exists appended,
      snd (is_in_zicad_loop bduni_zicad_query index issues updatedIssueList)
      = (updatedIssueList ++ appended)%list
      /\ (List.length appended <= List.length issues)%nat
      /\ Forall
           (fun u => exists x zicad, In x issues /\ u = set_bduni_zicad (Some zicad) x)
           appended
      /\ (NoDup (map core_id issues) -> NoDup (map core_id appended)).
Proof.
  induction issues as [|x issues IH]; intros index acc.
  - exists []. simpl. rewrite app_nil_r. repeat split; [lia | constructor | constructor].
  - simpl. destruct (bduni_zicad_query index (core_lon x) (core_lat x)) as [[zicad|]|exc].
    + destruct (IH (S index) (acc ++ [set_bduni_zicad (Some zicad) x])%list)
        as (appended & Heq & Hlen & Hall & Hnd).
      exists (set_bduni_zicad (Some zicad) x :: appended).
      rewrite Heq, <- app_assoc. split; [reflexivity|]. split; [simpl; lia|].
      split.
      * constructor.
        -- exists x, zicad. split; [left; reflexivity | reflexivity].
        -- eapply Forall_impl; [|exact Hall].
           intros u (y & z & Hy & Hu). exists y, z. split; [right; exact Hy | exact Hu].
      * intros Hnodup. inversion Hnodup as [|k ks Hnotin Hnodup']; subst.
        simpl. constructor; [|apply Hnd; exact Hnodup'].
        intros Hin. apply Hnotin. apply in_map_iff in Hin.
        destruct Hin as (u & Hk & Hu). rewrite Forall_forall in Hall.
        destruct (Hall u Hu) as (y & z & Hy & ->). simpl in Hk. rewrite <- Hk.
        apply in_map. exact Hy.
    + destruct (IH (S index) acc) as (appended & Heq & Hlen & Hall & Hnd).
      exists appended. split; [exact Heq|]. split; [lia|]. split.
      * eapply Forall_impl; [|exact Hall].
        intros u (y & z & Hy & Hu). exists y, z. split; [right; exact Hy | exact Hu].
      * intros Hnodup. inversion Hnodup; subst. apply Hnd. assumption.
    + exists []. simpl. rewrite app_nil_r. repeat split; [lia | constructor | constructor].
Qed.

Lemma is_in_zicad_members (issues : list OsmoseCrackerIssue) :
  exists updated,
    is_in_zicad bduni_connect bduni_zicad_query issues = Returned updated
    /\ (List.length updated <= List.length issues)%nat
    /\ Forall
         (fun u => exists x zicad, In x issues /\ u = set_bduni_zicad (Some zicad) x)
         updated
    /\ (NoDup (map core_id issues) -> NoDup (map core_id updated)).
Proof.
  unfold is_in_zicad, is_in_zicad_try. eexists. split; [reflexivity|].
  destruct bduni_connect as [[]|exc].
  - destruct (is_in_zicad_loop_members issues O []) as (appended & Heq & Hlen & Hall & Hnd).
    rewrite Heq. simpl. repeat split; assumption.
  - simpl. repeat split; [lia | constructor | constructor].
Qed.

End ZicadProperties.

(** X14.  [is_in_zicad] raises nothing: when the connection fails it answers the
    empty list, and otherwise the issues characterised so far, each an
    issue of the list received with its ZICAD flag set and nothing else
    changed.  A failure of the BDUni is thus silent for the caller. *)
Theorem is_in_zicad_answers_a_list
    (bduni_connect : outcome unit)
    (bduni_zicad_query : nat -> spec_float -> spec_float -> outcome (option string))
    (issues : list OsmoseCrackerIssue) :
  exists updated,
    is_in_zicad bduni_connect bduni_zicad_query issues = Returned updated
    /\ (List.length updated <= List.length issues)%nat
    /\ Forall
         (fun u => exists x zicad, In x issues /\ u = set_bduni_zicad (Some zicad) x)
         updated
    /\ (forall exc, bduni_connect = Raised exc -> updated = []).
Proof.
  destruct (is_in_zicad_members bduni_connect bduni_zicad_query issues)
    as (updated & Heq & Hlen & Hall & _).
  exists updated. split; [exact Heq|]. split; [exact Hlen|]. split; [exact Hall|].
  intros exc Hexc. unfold is_in_zicad, is_in_zicad_try in Heq. rewrite Hexc in Heq.
  injection Heq as <-. reflexivity.
Qed.

(** X15.  When the connection is made and the point queries of the first issues
    of the list are answered, up to the end of the list or to a query that
    fails, [is_in_zicad] answers exactly the issues among these first ones
    whose answer is not NULL, in the order of the list: the failure leaves
    the issues after it out and is not reported. *)
Theorem is_in_zicad_stops_at_first_failure
    (bduni_connect : outcome unit)
    (bduni_zicad_query : nat -> spec_float -> spec_float -> outcome (option string))
    (done rest : list OsmoseCrackerIssue) :
  bduni_connect = Returned tt ->
  (forall j x, nth_error done j = Some x ->
     exists answer, bduni_zicad_query j (core_lon x) (core_lat x) = Returned answer) ->
  (rest = []
   \/ exists x rest' exc,
        rest = x :: rest'
        /\ bduni_zicad_query (List.length done) (core_lon x) (core_lat x) = Raised exc) ->
  is_in_zicad bduni_connect bduni_zicad_query (done ++ rest)%list
  = Returned (zicad_characterised bduni_zicad_query 0 done).
Proof.
  intros Hconnect Hdone Hrest. unfold is_in_zicad, is_in_zicad_try. rewrite Hconnect.
  rewrite (is_in_zicad_loop_prefix bduni_zicad_query done rest O []); [reflexivity | | ].
  - exact Hdone.
  - exact Hrest.
Qed.

Lemma is_in_zicad_stops_at_first_failure_witness :
  is_in_zicad (Returned tt) sample_zicad_query
    ([sample_issue "a" None; sample_issue "b" None]
     ++ [sample_issue "c" None; sample_issue "d" None])%list
  = Returned
      (zicad_characterised sample_zicad_query 0
         [sample_issue "a" None; sample_issue "b" None]).
Proof.
  apply (is_in_zicad_stops_at_first_failure (Returned tt) sample_zicad_query
           [sample_issue "a" None; sample_issue "b" None]
           [sample_issue "c" None; sample_issue "d" None]).
  - reflexivity.
  - intros [|[|j]] x Hj; simpl in Hj.
    + eexists. reflexivity.
    + eexists. reflexivity.
    + destruct j; discriminate Hj.
  - right. exists (sample_issue "c" None), [sample_issue "d" None], OperationalError.
    split; reflexivity.
Defined.

(** ** The ZICAD refresh of [main] *)

Section ZicadRefresh.

Lemma zicad_refresh_body_returned (obj_select : OsmoseCrackerIssue) (w w' : World) :
  zicad_refresh_body obj_select tt w = (Returned tt, w') ->
  posted w' = posted w /\ looked_up w' = looked_up w
  /\ exists zicad,
       sql_boolean_word (str_column (bduni_zicad obj_select)) = Some zicad
       /\ forall k,
            stored k (database w')
            = if String.eqb k (core_id obj_select)
              then option_map (set_zicad zicad) (stored k (database w))
              else stored k (database w).
Proof.
  unfold zicad_refresh_body. intros H. apply bind_returned in H.
  destruct H as (b & w1 & Hupd & Hret). injection Hret as <-.
  apply on_database_returned in Hupd. destruct Hupd as (Hupd & Hp & Hl).
  apply update_zicad_returned in Hupd. destruct Hupd as (zicad & _ & Hword & _ & Hrows).
  split; [exact Hp|]. split; [exact Hl|]. exists zicad. split; [exact Hword|].
  intros k. unfold stored. rewrite Hrows. apply stored_after_update_zicad.
Qed.

Lemma zicad_refresh_loop_effect (updated : list OsmoseCrackerIssue) :
  NoDup (map core_id updated) ->
  forall w w',
    for_each zicad_refresh_body updated tt w = (Returned tt, w') ->
    posted w' = posted w /\ looked_up w' = looked_up w
    /\ (forall k, ~ In k (map core_id updated) ->
          stored k (database w') = stored k (database w))
    /\ forall u, In u updated ->
         exists zicad,
           sql_boolean_word (str_column (bduni_zicad u)) = Some zicad
           /\ stored (core_id u) (database w')
              = option_map (set_zicad zicad) (stored (core_id u) (database w)).
Proof.
  induction updated as [|x updated IH]; intros Hnd w w' Hrun.
  - simpl in Hrun. injection Hrun as <-. repeat split. intros u [].
  - cbn [for_each] in Hrun. apply bind_returned in Hrun.
    destruct Hrun as ([] & w1 & Hturn & Hrest).
    inversion Hnd as [|k ks Hnotin Hnd']; subst.
    destruct (IH Hnd' w1 w' Hrest) as (Hp2 & Hl2 & Hframe & Hmembers).
    apply zicad_refresh_body_returned in Hturn.
    destruct Hturn as (Hp & Hl & zicad & Hword & Hstored).
    split; [congruence|]. split; [congruence|]. split.
    + intros k Hk. simpl in Hk. rewrite Hframe.
      * rewrite Hstored. destruct (String.eqb_spec k (core_id x)) as [->|Hne];
          [|reflexivity].
        exfalso. apply Hk. left. reflexivity.
      * intros Hin. apply Hk. right. exact Hin.
    + intros u [<-|Hu].
      * exists zicad. split; [exact Hword|].
        rewrite (Hframe (core_id x) Hnotin), Hstored, String.eqb_refl. reflexivity.
      * destruct (Hmembers u Hu) as (z & Hz & Hsu). exists z. split; [exact Hz|].
        rewrite Hsu, Hstored.
        destruct (String.eqb_spec (core_id u) (core_id x)) as [Heq|Hne]; [|reflexivity].
        exfalso. apply Hnotin. rewrite <- Heq. apply in_map. exact Hu.
Qed.

End ZicadRefresh.

(** X16.  When the ZICAD refresh completes on a table whose keys are distinct,
    it has sent no request to the reporting service; every issue that
    [is_in_zicad] answered had a NULL flag and now holds the value of the
    answer, with the other columns of its row as they were; the rows of
    all other keys, among them those the BDUni had no answer for and those
    after a failed query, are as they were. *)
Theorem zicad_refresh_effect
    (bduni_connect : outcome unit)
    (bduni_zicad_query : nat -> spec_float -> spec_float -> outcome (option string))
    (w w' : World) :
  NoDup (map col_core_id (osmoseissue (database w))) ->
  zicad_refresh bduni_connect bduni_zicad_query w = (Returned tt, w') ->
  exists updated,
    is_in_zicad bduni_connect bduni_zicad_query
      (map _issue_row_to_issue_instance
         (filter where_zicad_null (osmoseissue (database w))))
    = Returned updated
    /\ posted w' = posted w
    /\ looked_up w' = looked_up w
    /\ (forall k, ~ In k (map core_id updated) ->
          stored k (database w') = stored k (database w))
    /\ forall u, In u updated ->
         exists zicad r,
           sql_boolean_word (str_column (bduni_zicad u)) = Some zicad
           /\ stored (core_id u) (database w) = Some r
           /\ col_bduni_objet_zicad r = None
           /\ stored (core_id u) (database w') = Some (set_zicad zicad r).
Proof.
  intros Hnd Hrun. unfold zicad_refresh in Hrun.
  apply bind_returned in Hrun. destruct Hrun as (issues & w1 & Hsel & Hrun).
  apply on_database_returned in Hsel. destruct Hsel as (Hsel & Hp1 & Hl1).
  unfold get_issues_where_zicad_null, select_issues in Hsel.
  destruct (db_valid (database w)); [|discriminate].
  injection Hsel as <- Hdb.
  apply bind_returned in Hrun. destruct Hrun as (updated & w2 & Hzicad & Hloop).
  unfold lift in Hzicad.
  pose proof (f_equal snd Hzicad) as Hw2. cbn [snd] in Hw2. subst w2.
  apply (f_equal fst) in Hzicad. cbn [fst] in Hzicad.
  destruct (is_in_zicad_members bduni_connect bduni_zicad_query
              (map _issue_row_to_issue_instance
                 (filter where_zicad_null (osmoseissue (database w)))))
    as (updated' & Heq & _ & Hall & Hkeys).
  rewrite Hzicad in Heq. injection Heq as <-.
  assert (Hnodup : NoDup (map core_id updated)).
  { apply Hkeys. rewrite map_map. simpl. apply nodup_map_filter. exact Hnd. }
  destruct (zicad_refresh_loop_effect updated Hnodup w1 w' Hloop)
    as (Hp & Hl & Hframe & Hmembers).
  exists updated. split; [exact Hzicad|].
  split; [congruence|]. split; [congruence|]. rewrite <- Hdb in *. split.
  - exact Hframe.
  - intros u Hu. destruct (Hmembers u Hu) as (zicad & Hword & Hstored).
    rewrite Forall_forall in Hall. destruct (Hall u Hu) as (x & z & Hx & Hux).
    apply in_map_iff in Hx. destruct Hx as (r & Hrx & Hr).
    apply filter_In in Hr. destruct Hr as [Hr Hnull].
    assert (Hkey : core_id u = col_core_id r) by (rewrite Hux, <- Hrx; reflexivity).
    pose proof (stored_unique (database w) r Hnd Hr) as Hsr.
    exists zicad, r. rewrite Hkey in *. rewrite Hsr in Hstored.
    split; [exact Hword|]. split; [exact Hsr|]. split; [|exact Hstored].
    apply sql_is_null_none. exact Hnull.
Qed.

Lemma zicad_refresh_effect_witness :
  exists updated,
    is_in_zicad (Returned tt) sample_zicad_query
      (map _issue_row_to_issue_instance
         (filter where_zicad_null
            (osmoseissue
               (database (sample_world [sample_null_row "a"; sample_null_row "b";
                                        sample_null_row "c"])))))
    = Returned updated
    /\ posted (snd (zicad_refresh (Returned tt) sample_zicad_query
                      (sample_world [sample_null_row "a"; sample_null_row "b";
                                     sample_null_row "c"])))
       = posted (sample_world [sample_null_row "a"; sample_null_row "b";
                               sample_null_row "c"])
    /\ looked_up (snd (zicad_refresh (Returned tt) sample_zicad_query
                         (sample_world [sample_null_row "a"; sample_null_row "b";
                                        sample_null_row "c"])))
       = looked_up (sample_world [sample_null_row "a"; sample_null_row "b";
                                  sample_null_row "c"])
    /\ (forall k, ~ In k (map core_id updated) ->
          stored k
            (database (snd (zicad_refresh (Returned tt) sample_zicad_query
                              (sample_world [sample_null_row "a"; sample_null_row "b";
                                             sample_null_row "c"]))))
          = stored k
              (database (sample_world [sample_null_row "a"; sample_null_row "b";
                                       sample_null_row "c"])))
    /\ forall u, In u updated ->
         exists zicad r,
           sql_boolean_word (str_column (bduni_zicad u)) = Some zicad
           /\ stored (core_id u)
                (database (sample_world [sample_null_row "a"; sample_null_row "b";
                                         sample_null_row "c"]))
              = Some r
           /\ col_bduni_objet_zicad r = None
           /\ stored (core_id u)
                (database (snd (zicad_refresh (Returned tt) sample_zicad_query
                                  (sample_world [sample_null_row "a"; sample_null_row "b";
                                                 sample_null_row "c"]))))
              = Some (set_zicad zicad r).
Proof.
  apply (zicad_refresh_effect (Returned tt) sample_zicad_query
           (sample_world [sample_null_row "a"; sample_null_row "b"; sample_null_row "c"])).
  - repeat constructor; simpl; intuition discriminate.
  - reflexivity.
Defined.

(** ** The workflow record *)

Lemma setattr_assigned (self self' : Workflow) (key : workflow_attribute) (value : pyval) :
  __setattr__ self key value = Assigned self' ->
  (is_not_none (self key) = false \/ key = stats_issues_reported_count)
  /\ self' key = value
  /\ forall k, k <> key -> self' k = self k.
Proof.
  unfold __setattr__.
  assert (Hstore : workflow_store key value self key = value
                   /\ forall k, k <> key -> workflow_store key value self k = self k).
  { unfold workflow_store. split.
    - destruct (workflow_attribute_eq_dec key key); [reflexivity | contradiction].
    - intros k Hk. destruct (workflow_attribute_eq_dec k key); [contradiction | reflexivity]. }
  destruct (is_not_none (self key)); simpl.
  - destruct (workflow_attribute_eq_dec key stats_issues_reported_count); [|discriminate].
    intros [= <-]. split; [right; assumption | exact Hstore].
  - intros [= <-]. split; [left; reflexivity | exact Hstore].
Qed.

(** X17.  In a run of assignments that goes through, an attribute other than
    [stats_issues_reported_count] that held a value at the start is not
    assigned and holds that value at the end: the attributes are written
    once. *)
Theorem workflow_attributes_are_written_once
    (l : list (workflow_attribute * pyval)) (self self' : Workflow)
    (key : workflow_attribute) :
  workflow_assignments l self = Assigned self' ->
  key <> stats_issues_reported_count ->
  is_not_none (self key) = true ->
  self' key = self key /\ ~ In key (map fst l).
Proof.
  revert self. induction l as [|[k v] l IH]; intros self Hrun Hkey Hset.
  - simpl in Hrun. injection Hrun as <-. split; [reflexivity | intros []].
  - simpl in Hrun. destruct (__setattr__ self k v) as [self1|] eqn:Hassign;
      [|discriminate].
    apply setattr_assigned in Hassign. destruct Hassign as (Hfree & _ & Hother).
    assert (Hne : key <> k).
    { intros ->. destruct Hfree as [Hnone|Hcounter]; [congruence | contradiction]. }
    specialize (Hother key Hne).
    destruct (IH self1 Hrun Hkey) as [Heq Hnotin]; [rewrite Hother; exact Hset|].
    split; [congruence|]. simpl. intros [Hk|Hin]; [apply Hne; symmetry; exact Hk|].
    exact (Hnotin Hin).
Qed.

Lemma workflow_attributes_are_written_once_witness :
  workflow_store stats_issues_reported_count (PyInt 2)
    (workflow_store stats_issues_reported_count (PyInt 1)
       (workflow_store timestamp_issues_collecting_start (PyInt 5)
          (workflow_store workflow_parameters (PyStr "Namespace()") workflow_class)))
    workflow_parameters
  = workflow_store workflow_parameters (PyStr "Namespace()") workflow_class
      workflow_parameters
  /\ ~ In workflow_parameters
         (map fst [(timestamp_issues_collecting_start, PyInt 5);
                   (stats_issues_reported_count, PyInt 1);
                   (stats_issues_reported_count, PyInt 2)]).
Proof.
  apply (workflow_attributes_are_written_once
           [(timestamp_issues_collecting_start, PyInt 5);
            (stats_issues_reported_count, PyInt 1);
            (stats_issues_reported_count, PyInt 2)]
           (workflow_store workflow_parameters (PyStr "Namespace()") workflow_class)
           (workflow_store stats_issues_reported_count (PyInt 2)
              (workflow_store stats_issues_reported_count (PyInt 1)
                 (workflow_store timestamp_issues_collecting_start (PyInt 5)
                    (workflow_store workflow_parameters (PyStr "Namespace()")
                       workflow_class))))
           workflow_parameters).
  - reflexivity.
  - discriminate.
  - reflexivity.
Defined.

Lemma last_cons_default {A : Type} (a d : A) (l : list A) :
  last (a :: l) d = last l a.
Proof.
  revert a d. induction l as [|b l IH]; intros a d; [reflexivity|].
  change (last (a :: b :: l) d) with (last (b :: l) d).
  rewrite (IH b d), (IH b a). reflexivity.
Qed.

(** X18.  Any run of assignments to [stats_issues_reported_count], as the
    emission loop makes one per issue it stores, goes through whatever the
    attribute held: the counter ends with the last value assigned and the
    other attributes are as they were. *)
Theorem report_counter_is_always_assignable (counts : list pyval) (self : Workflow) :
  exists self',
    workflow_assignments (map (fun v => (stats_issues_reported_count, v)) counts) self
    = Assigned self'
    /\ self' stats_issues_reported_count
       = last counts (self stats_issues_reported_count)
    /\ forall k, k <> stats_issues_reported_count -> self' k = self k.
Proof.
  revert self. induction counts as [|v counts IH]; intros self.
  - exists self. repeat split.
  - cbn [map workflow_assignments].
    assert (Hassign : __setattr__ self stats_issues_reported_count v
                      = Assigned (workflow_store stats_issues_reported_count v self)).
    { unfold __setattr__. destruct (is_not_none (self stats_issues_reported_count));
        reflexivity. }
    rewrite Hassign.
    destruct (IH (workflow_store stats_issues_reported_count v self))
      as (self' & Hrun & Hlast & Hother).
    exists self'. split; [exact Hrun|]. split.
    + rewrite Hlast, last_cons_default. reflexivity.
    + intros k Hk. rewrite (Hother k Hk). unfold workflow_store.
      destruct (workflow_attribute_eq_dec k stats_issues_reported_count);
        [contradiction | reflexivity].
Qed.

(** X19.  [log_error] goes through exactly when the end timestamp, the duration
    and the exception log are all still [None]; it then holds the error,
    and a second call is refused: the record keeps the first error of the
    run, and [log_error] raises once the end of the run has been
    recorded. *)
Theorem log_error_records_one_error (self : Workflow) (error : string) :
  ((exists self', log_error self error = Assigned self')
   <-> is_not_none (self timestamp_workflow_end) = false
       /\ is_not_none (self workflow_duration_seconds) = false
       /\ is_not_none (self workflow_exception_log) = false)
  /\ forall self',
       log_error self error = Assigned self' ->
       self' workflow_exception_log = PyStr error
       /\ forall error', log_error self' error' = WorkflowAttributesProtected.
Proof.
  unfold log_error, __setattr__, workflow_store. simpl.
  destruct (is_not_none (self timestamp_workflow_end)) eqn:H1; simpl.
  { split; [split|]; [intros [s Hs]; discriminate | intros (H & _); discriminate
                     | intros s Hs; discriminate]. }
  destruct (is_not_none (self workflow_duration_seconds)) eqn:H2; simpl.
  { split; [split|]; [intros [s Hs]; discriminate | intros (_ & H & _); discriminate
                     | intros s Hs; discriminate]. }
  destruct (is_not_none (self workflow_exception_log)) eqn:H3; simpl.
  { split; [split|]; [intros [s Hs]; discriminate | intros (_ & _ & H); discriminate
                     | intros s Hs; discriminate]. }
  split; [split|].
  - intros _. repeat split.
  - intros _. eexists. reflexivity.
  - intros s [= <-]. simpl. split; [reflexivity|]. intros error'. reflexivity.
Qed.

(** ** The reports of a run and the status refresh of the same run *)

Lemma where_unclosed_after_emission (type_signalement : type_signalement_choice)
    (z : Z) (ts : datetime) (r : Row) :
  where_unclosed
    (set_signalement z (if z >? 0 then type_signalement_str type_signalement else "None")
       ts r) = true
  /\ has_reference
       (set_signalement z (if z >? 0 then type_signalement_str type_signalement else "None")
          ts r) = true.
Proof.
  split; [|reflexivity].
  destruct (z >? 0); [destruct type_signalement|]; reflexivity.
Qed.

(** X7.  When the emission loop completes over issues of distinct keys, the row
    of each issue is either as it was before the loop or holds a reference
    and a status that the selection of the status refresh accepts: the
    refresh that follows in the same run asks for the status of every
    report just stored, the linked ones included. *)
Theorem just_reported_issues_are_polled
    (markdown_report : OsmoseCrackerIssue -> outcome string)
    (espaceco_post : nat -> PostRequest -> http_outcome)
    (type_signalement : type_signalement_choice)
    (issuesSignalementTimestamp : datetime)
    (issues : list OsmoseCrackerIssue) (w w' : World) (vars : EmissionVars) :
  NoDup (map core_id issues) ->
  emission_loop markdown_report espaceco_post type_signalement
    issuesSignalementTimestamp issues w = (Returned vars, w') ->
  forall issue, In issue issues ->
    stored (core_id issue) (database w') = stored (core_id issue) (database w)
    \/ exists r',
         stored (core_id issue) (database w') = Some r'
         /\ has_reference r' = true
         /\ where_unclosed r' = true.
Proof.
  intros Hnd Hrun issue Hin. unfold emission_loop in Hrun.
  destruct (emission_loop_persisted markdown_report espaceco_post type_signalement
              issuesSignalementTimestamp issues _ w Hnd issues [] vars w'
              (eq_sym (app_nil_r issues)) Hrun) as [_ Hmembers].
  destruct (Hmembers issue Hin) as [Hsame | (z & r & _ & Hstored)].
  - left. exact Hsame.
  - right. eexists. split; [exact Hstored|].
    destruct (where_unclosed_after_emission type_signalement z
                issuesSignalementTimestamp r) as [Hw Hr].
    split; assumption.
Qed.

Lemma just_reported_issues_are_polled_witness :
  In (sample_issue "b" (Some "K1"))
    [sample_issue "a" (Some "K1"); sample_issue "b" (Some "K1")]
  /\ (stored (core_id (sample_issue "b" (Some "K1")))
        (database
           (snd (emission_loop sample_markdown_report sample_post submit 1000
                   [sample_issue "a" (Some "K1"); sample_issue "b" (Some "K1")]
                   (sample_world [sample_row "a" None None; sample_row "b" None None]))))
      = stored (core_id (sample_issue "b" (Some "K1")))
          (database (sample_world [sample_row "a" None None; sample_row "b" None None]))
      \/ exists r',
           stored (core_id (sample_issue "b" (Some "K1")))
             (database
                (snd (emission_loop sample_markdown_report sample_post submit 1000
                        [sample_issue "a" (Some "K1"); sample_issue "b" (Some "K1")]
                        (sample_world [sample_row "a" None None;
                                       sample_row "b" None None]))))
           = Some r'
           /\ has_reference r' = true
           /\ where_unclosed r' = true).
Proof.
  split; [right; left; reflexivity|].
  apply (just_reported_issues_are_polled sample_markdown_report sample_post submit 1000
           [sample_issue "a" (Some "K1"); sample_issue "b" (Some "K1")]
           (sample_world [sample_row "a" None None; sample_row "b" None None])
           (snd (emission_loop sample_markdown_report sample_post submit 1000
                   [sample_issue "a" (Some "K1"); sample_issue "b" (Some "K1")]
                   (sample_world [sample_row "a" None None; sample_row "b" None None])))
           {| var_cluster_id := Some "K1"; var_signalementid := PyInt (-101);
              var_reportcounter := 1%nat |}).
  - repeat constructor; simpl; intuition discriminate.
  - reflexivity.
  - right. left. reflexivity.
Defined.

(** ** The guards of the reporting step *)

(** X12.  With [--type_signalement skip], or with a [--status] other than
    "false", the reporting step of [main] sends nothing and writes
    nothing; it answers without a report, or, when the mode is not skip
    and the database is invalid, fails with [ValueError] in the selection
    it has run for nothing. *)
Theorem reporting_step_is_guarded
    (pgvalue : Type) (pg_str : pgvalue -> string)
    (bduni_clusterize : list ClusterQuery -> outcome (option (list (ClusterRow pgvalue))))
    (markdown_report : OsmoseCrackerIssue -> outcome string)
    (espaceco_post : nat -> PostRequest -> http_outcome)
    (type_signalement : type_signalement_choice) (status : osmose_status)
    (now : datetime) (w : World) :
  type_signalement = skip \/ status <> status_false ->
  database
    (snd (signalements_espacecollaboratif pgvalue pg_str bduni_clusterize markdown_report
            espaceco_post type_signalement status now w)) = database w
  /\ posted
       (snd (signalements_espacecollaboratif pgvalue pg_str bduni_clusterize
               markdown_report espaceco_post type_signalement status now w)) = posted w
  /\ looked_up
       (snd (signalements_espacecollaboratif pgvalue pg_str bduni_clusterize
               markdown_report espaceco_post type_signalement status now w))
     = looked_up w
  /\ (fst (signalements_espacecollaboratif pgvalue pg_str bduni_clusterize
             markdown_report espaceco_post type_signalement status now w)
      = Returned None
      \/ (type_signalement <> skip
          /\ db_valid (database w) = false
          /\ fst (signalements_espacecollaboratif pgvalue pg_str bduni_clusterize
                    markdown_report espaceco_post type_signalement status now w)
             = Raised ValueError)).
Proof.
  intros Hguard.
  assert (Hselect : forall t, t <> skip -> status <> status_false ->
            signalements_espacecollaboratif pgvalue pg_str bduni_clusterize
              markdown_report espaceco_post t status now w
            = if db_valid (database w)
              then (Returned None,
                    {| database := database w; posted := posted w;
                       looked_up := looked_up w |})
              else (Raised ValueError,
                    {| database := database w; posted := posted w;
                       looked_up := looked_up w |})).
  { intros t Ht Hs. unfold signalements_espacecollaboratif, bind, on_database,
      get_issues_by_espacecosignalements_none_and_zicad_false, select_issues.
    destruct t; try contradiction;
      destruct (db_valid (database w)); destruct status; try contradiction;
      reflexivity. }
  destruct type_signalement eqn:Ht.
  - simpl. repeat split. left. reflexivity.
  - destruct Hguard as [Hskip|Hs]; [discriminate|].
    rewrite (Hselect test ltac:(discriminate) Hs).
    destruct (db_valid (database w)); simpl; repeat split;
      [left; reflexivity | right; repeat split; discriminate].
  - destruct Hguard as [Hskip|Hs]; [discriminate|].
    rewrite (Hselect submit ltac:(discriminate) Hs).
    destruct (db_valid (database w)); simpl; repeat split;
      [left; reflexivity | right; repeat split; discriminate].
  - destruct Hguard as [Hskip|Hs]; [discriminate|].
    rewrite (Hselect repost ltac:(discriminate) Hs).
    destruct (db_valid (database w)); simpl; repeat split;
      [left; reflexivity | right; repeat split; discriminate].
Qed.

Lemma reporting_step_is_guarded_witness :
  database
    (snd (signalements_espacecollaboratif string (fun s : string => s)
            (constant_clusterize []) sample_markdown_report sample_post submit
            status_done 1000 (sample_world [sample_row "a" None None])))
  = database (sample_world [sample_row "a" None None])
  /\ posted
       (snd (signalements_espacecollaboratif string (fun s : string => s)
               (constant_clusterize []) sample_markdown_report sample_post submit
               status_done 1000 (sample_world [sample_row "a" None None])))
     = posted (sample_world [sample_row "a" None None])
  /\ looked_up
       (snd (signalements_espacecollaboratif string (fun s : string => s)
               (constant_clusterize []) sample_markdown_report sample_post submit
               status_done 1000 (sample_world [sample_row "a" None None])))
     = looked_up (sample_world [sample_row "a" None None])
  /\ (fst (signalements_espacecollaboratif string (fun s : string => s)
             (constant_clusterize []) sample_markdown_report sample_post submit
             status_done 1000 (sample_world [sample_row "a" None None]))
      = Returned None
      \/ (submit <> skip
          /\ db_valid (database (sample_world [sample_row "a" None None])) = false
          /\ fst (signalements_espacecollaboratif string (fun s : string => s)
                    (constant_clusterize []) sample_markdown_report sample_post submit
                    status_done 1000 (sample_world [sample_row "a" None None]))
             = Raised ValueError)).
Proof.
  apply (reporting_step_is_guarded string (fun s : string => s)
           (constant_clusterize []) sample_markdown_report sample_post submit
           status_done 1000 (sample_world [sample_row "a" None None])).
  right. discriminate.
Defined.
